(** * Extension generator: the file emitter and the repository patch strategies

    A shallow embedding of [src/lib/generator.ts] ([parseJsonc],
    [generateExtension], [generateNewFiles], [modifyExistingFiles], the
    template helper [extractExtName]), of [src/lib/utils.ts], of
    [src/lib/repo-config.ts] ([readRepoConfig], [getExistingExtensions]),
    of the pattern of a language identifier ([types/config.ts]) and of
    the filter of the comma-separated answers ([interactive.ts]), over a
    model of the parts of the JavaScript runtime the code touches:
    strings, the file-system calls of [fs], [JSON.parse] /
    [JSON.stringify], [String.prototype.replace] and the dynamic typing
    of the values [JSON.parse] returns.

    Text is modelled as [string], one character per code unit; the model is
    exact on ASCII text (letter case and the white-space class are the ASCII
    ones).  Numbers and the template engine are not code of the repository:
    they are interfaces ([NumberModel], the [engine] argument), and every
    general theorem holds for each implementation of them.

    Paths are text: the repository, template and extension paths are taken
    as normal, so that [path.join] only puts a slash between its segments.
    [JSON.parse] is a recursive-descent reader with a budget of twice the
    length of its text, which it never exhausts ([parse_within_budget]),
    and it reads back what [JSON.stringify] writes for a canonical value
    ([parse_stringify]).  The wording of the errors the runtime throws is
    indicative: the general theorems speak of whichever message is
    thrown, and the examples show the wording of the model. *)

From Stdlib Require Import Ascii String List Bool Arith NArith Lia Sorted.
From stdpp Require Import base option list strings gmap.

Local Open Scope string_scope.

(** ** Strings *)

Module Str.

Definition chars (s : string) : list ascii := list_ascii_of_string s.
Definition of_chars (l : list ascii) : string := string_of_list_ascii l.

(** [s.startsWith(p)] *)
Fixpoint starts_with (p s : string) : bool :=
  match p, s with
  | EmptyString, _ => true
  | String a p', String b s' => if Ascii.eqb a b then starts_with p' s' else false
  | String _ _, EmptyString => false
  end.

(** [s.includes(needle)] *)
Fixpoint includes (s needle : string) : bool :=
  starts_with needle s ||
  match s with
  | EmptyString => false
  | String _ s' => includes s' needle
  end.

(** [drop (length p) s], the rest of [s] after a prefix of the length of [p]. *)
Fixpoint after (p s : string) : string :=
  match p, s with
  | EmptyString, _ => s
  | String _ p', String _ s' => after p' s'
  | String _ _, EmptyString => EmptyString
  end.

(** The leftmost occurrence of a literal: the text before it and the text
    after it. *)
Fixpoint find (needle s : string) : option (string * string) :=
  if starts_with needle s then Some (EmptyString, after needle s)
  else match s with
       | EmptyString => None
       | String c s' =>
           match find needle s' with
           | Some (pre, post) => Some (String c pre, post)
           | None => None
           end
       end.

Definition is_digit (c : ascii) : bool :=
  let n := nat_of_ascii c in ((48 <=? n) && (n <=? 57))%nat.

Definition digit_value (c : ascii) : nat := nat_of_ascii c - 48.

(** The white space of the regular-expression class [\s], ASCII part. *)
Definition is_space (c : ascii) : bool :=
  let n := nat_of_ascii c in
  ((n =? 9) || (n =? 10) || (n =? 11) || (n =? 12) || (n =? 13) || (n =? 32))%nat.

Definition is_upper (c : ascii) : bool :=
  let n := nat_of_ascii c in ((65 <=? n) && (n <=? 90))%nat.
Definition is_lower (c : ascii) : bool :=
  let n := nat_of_ascii c in ((97 <=? n) && (n <=? 122))%nat.

Definition lower_char (c : ascii) : ascii :=
  if is_upper c then ascii_of_nat (nat_of_ascii c + 32) else c.
Definition upper_char (c : ascii) : ascii :=
  if is_lower c then ascii_of_nat (nat_of_ascii c - 32) else c.

Fixpoint map (f : ascii -> ascii) (s : string) : string :=
  match s with
  | EmptyString => EmptyString
  | String c s' => String (f c) (map f s')
  end.

Definition toLowerCase : string -> string := map lower_char.
Definition toUpperCase : string -> string := map upper_char.

(** [l.join(sep)] *)
Fixpoint join (sep : string) (l : list string) : string :=
  match l with
  | [] => EmptyString
  | [x] => x
  | x :: l' => x +:+ sep +:+ join sep l'
  end.

Definition has_char (c : ascii) (s : string) : bool :=
  existsb (Ascii.eqb c) (chars s).

(** [s.split(sep)] for a separator of one character: the pieces between
    the separators, at least one. *)
Fixpoint split (sep : ascii) (s : string) : list string :=
  match s with
  | EmptyString => [EmptyString]
  | String c s' =>
      if Ascii.eqb c sep then EmptyString :: split sep s'
      else match split sep s' with
           | piece :: rest => String c piece :: rest
           | [] => [String c EmptyString]
           end
  end.

Fixpoint drop_spaces (l : list ascii) : list ascii :=
  match l with
  | c :: l' => if is_space c then drop_spaces l' else l
  | [] => []
  end.

(** [s.trim()], for the white space of ASCII *)
Definition trim (s : string) : string :=
  of_chars (rev (drop_spaces (rev (drop_spaces (chars s))))).

Definition dq : ascii := ascii_of_nat 34.        (* the double quote *)
Definition bs : ascii := ascii_of_nat 92.        (* the backslash *)
Definition nl : string := String (ascii_of_nat 10) EmptyString.
Definition dquote : string := String dq EmptyString.
Definition bslash : string := String bs EmptyString.

End Str.

(** ** Results of a computation that may throw *)

Inductive outcome (A : Type) : Type :=
| Return (a : A)
| Throw (msg : string).
Arguments Return {A} a.
Arguments Throw {A} msg.

Definition obind {A B} (m : outcome A) (k : A -> outcome B) : outcome B :=
  match m with
  | Return a => k a
  | Throw e => Throw e
  end.

Notation "'let?' x ':=' m 'in' k" := (obind m (fun x => k))
  (at level 10, x name, m at level 100, k at level 200).

(** ** The file system *)

(** What a path names: a regular file with its content, or a directory. *)
Inductive node : Type :=
| File (content : string)
| Dir.

Abbreviation FS := (gmap string node).

(** A computation on the file system: what it returns or throws, and the
    file system it leaves.  A throw keeps the writes made before it. *)
Definition IO (A : Type) : Type := FS -> outcome A * FS.

Definition ret {A} (a : A) : IO A := fun fs => (Return a, fs).
Definition throw {A} (msg : string) : IO A := fun fs => (Throw msg, fs).
Definition bind {A B} (m : IO A) (k : A -> IO B) : IO B :=
  fun fs =>
    match m fs with
    | (Return a, fs') => k a fs'
    | (Throw e, fs') => (Throw e, fs')
    end.
Definition lift {A} (o : outcome A) : IO A := fun fs => (o, fs).

Notation "'let!' x ':=' m 'in' k" := (bind m (fun x => k))
  (at level 10, x name, m at level 100, k at level 200).
Notation "'run!' m 'in' k" := (bind m (fun _ => k))
  (at level 10, m at level 100, k at level 200).

Module Path.

Definition slash : ascii := ascii_of_nat 47.

(** [path.join] on segments that are already normal: the segments
    separated by one slash. *)
Definition join (a b : string) : string := a +:+ "/" +:+ b.

Fixpoint drop_while (f : ascii -> bool) (l : list ascii) : list ascii :=
  match l with
  | [] => []
  | c :: l' => if f c then drop_while f l' else l
  end.

(** [path.dirname] (POSIX): the path up to the slash before its last
    component; [.] or [/] when there is none. *)
Definition dirname (p : string) : string :=
  match p with
  | EmptyString => "."
  | String c0 body =>
      let hasRoot := Ascii.eqb c0 slash in
      let r := rev (Str.chars body) in
      let r1 := drop_while (Ascii.eqb slash) r in
      let r2 := drop_while (fun c => negb (Ascii.eqb slash c)) r1 in
      match r2 with
      | [] => if hasRoot then "/" else "."
      | _ :: r3 =>
          match r3 with
          | [] => if hasRoot then "//" else String c0 EmptyString
          | _ => String c0 (Str.of_chars (rev r3))
          end
      end
  end.

(** The directories [mkdir] with [recursive: true] makes sure exist: the
    path and its parents, up to the root or the working directory. *)
Fixpoint chain (fuel : nat) (p : string) : list string :=
  match fuel with
  | 0 => []
  | S fuel' =>
      if String.eqb p "." || String.eqb p "/" || String.eqb p "//" || String.eqb p EmptyString
      then []
      else p :: chain fuel' (dirname p)
  end.

Definition parents (p : string) : list string := chain (S (String.length p)) p.

End Path.

Module Fs.

(** [existsSync(p)] *)
Definition existsSync (p : string) (fs : FS) : bool :=
  match fs !! p with
  | Some _ => true
  | None => false
  end.

Definition is_file (p : string) (fs : FS) : bool :=
  match fs !! p with
  | Some (File _) => true
  | _ => false
  end.

(** [readFile(p, "utf-8")] *)
Definition readFile (p : string) : IO string := fun fs =>
  match fs !! p with
  | Some (File c) => (Return c, fs)
  | Some Dir => (Throw "EISDIR: illegal operation on a directory, read", fs)
  | None => (Throw ("ENOENT: no such file or directory, open '" +:+ p +:+ "'"), fs)
  end.

(** [writeFile(p, content)]: creates or replaces the file. *)
Definition writeFile (p content : string) : IO unit := fun fs =>
  match fs !! p with
  | Some Dir =>
      (Throw ("EISDIR: illegal operation on a directory, open '" +:+ p +:+ "'"), fs)
  | _ => (Return tt, <[p := File content]> fs)
  end.

(** [mkdir(p, { recursive: true })]: fails when the path or one of its
    parents is a regular file, and otherwise makes all of them
    directories. *)
Definition mkdir (p : string) : IO unit := fun fs =>
  let ds := Path.parents p in
  if existsb (fun d => is_file d fs) ds
  then (Throw ("EEXIST: file already exists, mkdir '" +:+ p +:+ "'"), fs)
  else (Return tt, foldr (fun d m => <[d := Dir]> m) fs ds).

End Fs.

(** ** JSON values and the dynamic typing of JavaScript *)

(** The numbers of the runtime (IEEE doubles) are an interface: what a
    number literal denotes, how a number prints, and whether it is truthy. *)
Class NumberModel : Type := {
  number : Type;
  number_of_literal : string -> number;   (* the value of a JSON number literal *)
  number_to_string : number -> string;    (* [String(n)] *)
  number_to_json : number -> string;      (* [JSON.stringify(n)] *)
  number_truthy : number -> bool          (* neither zero nor NaN *)
}.

Section Values.
Context `{NM : NumberModel}.

Unset Elimination Schemes.
Inductive json : Type :=
| JNull
| JBool (b : bool)
| JNum (n : number)
| JStr (s : string)
| JArr (items : list json)
| JObj (props : list (string * json)).   (* own properties, in key order *)
Set Elimination Schemes.

(** A JavaScript value here is a JSON value or [undefined]. *)
Definition value : Type := option json.
Definition undefined : value := None.

(** [ToBoolean] *)
Definition truthy (v : json) : bool :=
  match v with
  | JNull => false
  | JBool b => b
  | JNum n => number_truthy n
  | JStr s => negb (String.eqb s EmptyString)
  | JArr _ | JObj _ => true
  end.

Definition truthy_value (v : value) : bool :=
  match v with
  | None => false
  | Some j => truthy j
  end.

(** [ToString]; an array prints as its elements joined by commas, [null]
    among them as the empty string. *)
Fixpoint to_string (v : json) : string :=
  match v with
  | JNull => "null"
  | JBool true => "true"
  | JBool false => "false"
  | JNum n => number_to_string n
  | JStr s => s
  | JArr l =>
      Str.join "," (List.map (fun x => match x with JNull => EmptyString | _ => to_string x end) l)
  | JObj _ => "[object Object]"
  end.

Fixpoint lookup_prop (k : string) (props : list (string * json)) : value :=
  match props with
  | [] => None
  | (k', v) :: rest => if String.eqb k k' then Some v else lookup_prop k rest
  end.

(** A key is an array index when it is the canonical decimal form of an
    integer below 2^32 - 1; such keys come first in an object, in
    ascending order. *)
Fixpoint decimal_value (l : list ascii) (acc : N) : N :=
  match l with
  | [] => acc
  | c :: l' => decimal_value l' (10 * acc + N.of_nat (Str.digit_value c))%N
  end.

Definition index_of_key (k : string) : option N :=
  match Str.chars k with
  | [] => None
  | c :: rest =>
      if forallb Str.is_digit (c :: rest)
         && (negb (Ascii.eqb c "0") || match rest with [] => true | _ => false end)
         && (length (c :: rest) <=? 10)%nat
      then let n := decimal_value (c :: rest) 0%N in
           if (n <? 4294967295)%N then Some n else None
      else None
  end.

Fixpoint replace_prop (k : string) (v : json) (props : list (string * json))
  : list (string * json) :=
  match props with
  | [] => []
  | (k', v') :: rest =>
      if String.eqb k k' then (k', v) :: rest else (k', v') :: replace_prop k v rest
  end.

Fixpoint insert_index (i : N) (k : string) (v : json) (props : list (string * json))
  : list (string * json) :=
  match props with
  | [] => [(k, v)]
  | (k', v') :: rest =>
      match index_of_key k' with
      | Some j => if (j <? i)%N then (k', v') :: insert_index i k v rest
                  else (k, v) :: (k', v') :: rest
      | None => (k, v) :: (k', v') :: rest
      end
  end.

(** [o[k] = v] on the properties of an object. *)
Definition set_prop (k : string) (v : json) (props : list (string * json))
  : list (string * json) :=
  match lookup_prop k props with
  | Some _ => replace_prop k v props
  | None =>
      match index_of_key k with
      | Some i => insert_index i k v props
      | None => (props ++ [(k, v)])%list
      end
  end.

(** [v.k], for a key that no prototype defines: [undefined] on anything
    but an object that has the key, a [TypeError] on [null]. *)
Definition get (v : json) (k : string) : outcome value :=
  match v with
  | JNull => Throw ("Cannot read properties of null (reading '" +:+ k +:+ "')")
  | JObj props => Return (lookup_prop k props)
  | _ => Return None
  end.

(** [v.k = x] in strict mode: sets the property of an object, is lost on
    an array when the array is serialised (the key is not an index), and
    throws on a primitive. *)
Definition set (v : json) (k : string) (x : json) : outcome json :=
  match v with
  | JObj props => Return (JObj (set_prop k x props))
  | JArr l => Return (JArr l)
  | JNull => Throw ("Cannot set properties of null (setting '" +:+ k +:+ "')")
  | _ => Throw ("Cannot create property '" +:+ k +:+ "' on " +:+ to_string v)
  end.

(** [Array.prototype.sort()] without a comparator: stable, by the
    elements' [ToString], in code-unit order. *)
Fixpoint sort_insert (x : json) (l : list json) : list json :=
  match l with
  | [] => [x]
  | y :: l' =>
      if String.ltb (to_string y) (to_string x) then y :: sort_insert x l'
      else x :: y :: l'
  end.

Definition sort (l : list json) : list json := fold_right sort_insert [] l.

(** [l.includes(s)] on an array, for a string [s]. *)
Definition array_includes (l : list json) (s : string) : bool :=
  existsb (fun x => match x with JStr t => String.eqb t s | _ => false end) l.

End Values.

(** ** [JSON.parse] and [JSON.stringify] *)

Module Json.
Section Json.
Context `{NM : NumberModel}.

Inductive presult (A : Type) : Type :=
| POk (a : A) (rest : string)
| PErr                               (* the text is not JSON *)
| PFuel.                             (* recursion budget exhausted *)
Arguments POk {A} a rest.
Arguments PErr {A}.
Arguments PFuel {A}.

Definition is_ws (c : ascii) : bool :=
  let n := nat_of_ascii c in ((n =? 32) || (n =? 9) || (n =? 10) || (n =? 13))%nat.

Fixpoint skip_ws (s : string) : string :=
  match s with
  | String c s' => if is_ws c then skip_ws s' else s
  | EmptyString => s
  end.

Definition hex_value (c : ascii) : option N :=
  let n := nat_of_ascii c in
  if ((48 <=? n) && (n <=? 57))%nat then Some (N.of_nat (n - 48))
  else if ((97 <=? n) && (n <=? 102))%nat then Some (N.of_nat (n - 87))
  else if ((65 <=? n) && (n <=? 70))%nat then Some (N.of_nat (n - 55))
  else None.

Definition hex4 (a b c d : ascii) : option N :=
  match hex_value a, hex_value b, hex_value c, hex_value d with
  | Some x, Some y, Some z, Some w => Some (((x * 16 + y) * 16 + z) * 16 + w)%N
  | _, _, _, _ => None
  end.

(** A character of a string literal: written as it is, or a [u] escape. *)
Inductive sitem : Type :=
| Raw (c : ascii)
| Unit16 (n : N).

Definition byte (n : N) : ascii := ascii_of_N n.

(** The UTF-8 encoding of a code point (a string is held as the bytes it
    has in a file). *)
Definition encode_utf8 (cp : N) : list ascii :=
  if (cp <? 128)%N then [byte cp]
  else if (cp <? 2048)%N then [byte (192 + cp / 64); byte (128 + cp mod 64)]
  else if (cp <? 65536)%N then
    [byte (224 + cp / 4096); byte (128 + (cp / 64) mod 64); byte (128 + cp mod 64)]
  else
    [byte (240 + cp / 262144); byte (128 + (cp / 4096) mod 64);
     byte (128 + (cp / 64) mod 64); byte (128 + cp mod 64)].

Definition is_high (n : N) : bool := ((55296 <=? n) && (n <? 56320))%N.
Definition is_low (n : N) : bool := ((56320 <=? n) && (n <? 57344))%N.

Fixpoint items_to_chars (l : list sitem) : list ascii :=
  match l with
  | [] => []
  | Raw c :: l' => c :: items_to_chars l'
  | Unit16 hi :: l' =>
      match l' with
      | Unit16 lo :: l'' =>
          if is_high hi && is_low lo
          then (encode_utf8 (65536 + (hi - 55296) * 1024 + (lo - 56320))%N
                 ++ items_to_chars l'')%list
          else (encode_utf8 hi ++ items_to_chars l')%list
      | _ => (encode_utf8 hi ++ items_to_chars l')%list
      end
  end.

Definition simple_escape (c : ascii) : option ascii :=
  if Ascii.eqb c Str.dq then Some Str.dq
  else if Ascii.eqb c Str.bs then Some Str.bs
  else if Ascii.eqb c "/" then Some "/"%char
  else if Ascii.eqb c "b" then Some (ascii_of_nat 8)
  else if Ascii.eqb c "f" then Some (ascii_of_nat 12)
  else if Ascii.eqb c "n" then Some (ascii_of_nat 10)
  else if Ascii.eqb c "r" then Some (ascii_of_nat 13)
  else if Ascii.eqb c "t" then Some (ascii_of_nat 9)
  else None.

(** The characters of a string literal after its opening quote, up to
    the closing quote. *)
Fixpoint parse_items (s : string) : option (list sitem * string) :=
  match s with
  | EmptyString => None
  | String c s' =>
      if Ascii.eqb c Str.dq then Some ([], s')
      else if Ascii.eqb c Str.bs then
        match s' with
        | String e s'' =>
            if Ascii.eqb e "u" then
              match s'' with
              | String h1 (String h2 (String h3 (String h4 r))) =>
                  match hex4 h1 h2 h3 h4 with
                  | Some n =>
                      match parse_items r with
                      | Some (l, rest) => Some (Unit16 n :: l, rest)
                      | None => None
                      end
                  | None => None
                  end
              | _ => None
              end
            else
              match simple_escape e with
              | Some x =>
                  match parse_items s'' with
                  | Some (l, rest) => Some (Raw x :: l, rest)
                  | None => None
                  end
              | None => None
              end
        | EmptyString => None
        end
      else if (nat_of_ascii c <? 32)%nat then None
      else
        match parse_items s' with
        | Some (l, rest) => Some (Raw c :: l, rest)
        | None => None
        end
  end.

Definition parse_string (s : string) : presult string :=
  match parse_items s with
  | Some (l, rest) => POk (Str.of_chars (items_to_chars l)) rest
  | None => PErr
  end.

Fixpoint span_digits (s : string) : string * string :=
  match s with
  | String c s' =>
      if Str.is_digit c then let (d, r) := span_digits s' in (String c d, r)
      else (EmptyString, s)
  | EmptyString => (EmptyString, EmptyString)
  end.

(** An optional minus sign. *)
Definition take_sign (s : string) : string * string :=
  match s with
  | String c r => if Ascii.eqb c "-" then ("-", r) else (EmptyString, s)
  | EmptyString => (EmptyString, s)
  end.

(** An optional fraction: a point and at least one digit. *)
Definition take_fraction (s : string) : string * string * bool :=
  match s with
  | String c r =>
      if Ascii.eqb c "." then
        let (f, r') := span_digits r in
        ("." +:+ f, r', negb (String.eqb f EmptyString))
      else (EmptyString, s, true)
  | EmptyString => (EmptyString, s, true)
  end.

(** An optional exponent: [e] or [E], an optional sign, at least one digit. *)
Definition take_exponent (s : string) : string * string * bool :=
  match s with
  | String c r =>
      if Ascii.eqb c "e" || Ascii.eqb c "E" then
        let (sg, r1) :=
          match r with
          | String c' r' =>
              if Ascii.eqb c' "+" || Ascii.eqb c' "-"
              then (String c' EmptyString, r') else (EmptyString, r)
          | EmptyString => (EmptyString, r)
          end in
        let (e, r2) := span_digits r1 in
        (String c sg +:+ e, r2, negb (String.eqb e EmptyString))
      else (EmptyString, s, true)
  | EmptyString => (EmptyString, s, true)
  end.

(** A number literal: an optional minus, an integer part without a
    leading zero, an optional fraction, an optional exponent. *)
Definition parse_number (s : string) : presult json :=
  let (sign, s1) := take_sign s in
  let (int, s2) := span_digits s1 in
  match int with
  | EmptyString => PErr
  | String d ds =>
      if Ascii.eqb d "0" && negb (String.eqb ds EmptyString) then
        (* a leading zero ends the integer part *)
        PErr
      else
        let '(frac, s3, ok1) := take_fraction s2 in
        let '(exp, s4, ok2) := take_exponent s3 in
        if ok1 && ok2
        then POk (JNum (number_of_literal (sign +:+ int +:+ frac +:+ exp))) s4
        else PErr
  end.

Definition expect (lit : string) (v : json) (s : string) : presult json :=
  if Str.starts_with lit s then POk v (Str.after lit s) else PErr.

(** The properties of an object literal, defined one after the other. *)
Definition build_object (members : list (string * json)) : json :=
  JObj (fold_left (fun props kv => set_prop (fst kv) (snd kv) props) members []).

Fixpoint parse_value (fuel : nat) (s : string) : presult json :=
  match fuel with
  | 0 => PFuel
  | S f =>
      match skip_ws s with
      | EmptyString => PErr
      | String c r =>
          if Ascii.eqb c "{" then
            match skip_ws r with
            | String c' r' =>
                if Ascii.eqb c' "}" then POk (JObj []) r'
                else match parse_members f (String c' r') with
                     | POk ms rest => POk (build_object ms) rest
                     | PErr => PErr
                     | PFuel => PFuel
                     end
            | EmptyString => PErr
            end
          else if Ascii.eqb c "[" then
            match skip_ws r with
            | String c' r' =>
                if Ascii.eqb c' "]" then POk (JArr []) r'
                else match parse_elements f (String c' r') with
                     | POk vs rest => POk (JArr vs) rest
                     | PErr => PErr
                     | PFuel => PFuel
                     end
            | EmptyString => PErr
            end
          else if Ascii.eqb c Str.dq then
            match parse_string r with
            | POk t rest => POk (JStr t) rest
            | PErr => PErr
            | PFuel => PFuel
            end
          else if Ascii.eqb c "t" then expect "true" (JBool true) (String c r)
          else if Ascii.eqb c "f" then expect "false" (JBool false) (String c r)
          else if Ascii.eqb c "n" then expect "null" JNull (String c r)
          else parse_number (String c r)
      end
  end
with parse_elements (fuel : nat) (s : string) : presult (list json) :=
  match fuel with
  | 0 => PFuel
  | S f =>
      match parse_value f s with
      | POk v r =>
          match skip_ws r with
          | String c r' =>
              if Ascii.eqb c "," then
                match parse_elements f r' with
                | POk vs rest => POk (v :: vs) rest
                | PErr => PErr
                | PFuel => PFuel
                end
              else if Ascii.eqb c "]" then POk [v] r'
              else PErr
          | EmptyString => PErr
          end
      | PErr => PErr
      | PFuel => PFuel
      end
  end
with parse_members (fuel : nat) (s : string) : presult (list (string * json)) :=
  match fuel with
  | 0 => PFuel
  | S f =>
      match skip_ws s with
      | String q r =>
          if Ascii.eqb q Str.dq then
            match parse_string r with
            | POk k r1 =>
                match skip_ws r1 with
                | String c r2 =>
                    if Ascii.eqb c ":" then
                      match parse_value f r2 with
                      | POk v r3 =>
                          match skip_ws r3 with
                          | String c' r4 =>
                              if Ascii.eqb c' "," then
                                match parse_members f r4 with
                                | POk ms rest => POk ((k, v) :: ms) rest
                                | PErr => PErr
                                | PFuel => PFuel
                                end
                              else if Ascii.eqb c' "}" then POk [(k, v)] r4
                              else PErr
                          | EmptyString => PErr
                          end
                      | PErr => PErr
                      | PFuel => PFuel
                      end
                    else PErr
                | EmptyString => PErr
                end
            | PErr => PErr
            | PFuel => PFuel
            end
          else PErr
      | EmptyString => PErr
      end
  end.

(** [JSON.parse(text)]; the wording of the [SyntaxError] is the engine's. *)
Definition parse (text : string) : outcome json :=
  match parse_value (2 * String.length text + 2) text with
  | POk v rest =>
      match skip_ws rest with
      | EmptyString => Return v
      | _ => Throw "Unexpected non-whitespace character after JSON"
      end
  | _ => Throw "Unexpected token in JSON"
  end.

Definition hex_digit (n : nat) : ascii :=
  if (n <? 10)%nat then ascii_of_nat (48 + n) else ascii_of_nat (87 + n).

Definition quote_char (c : ascii) : string :=
  let n := nat_of_ascii c in
  if Ascii.eqb c Str.dq then String Str.bs Str.dquote
  else if Ascii.eqb c Str.bs then String Str.bs Str.bslash
  else if (n =? 8)%nat then String Str.bs "b"
  else if (n =? 12)%nat then String Str.bs "f"
  else if (n =? 10)%nat then String Str.bs "n"
  else if (n =? 13)%nat then String Str.bs "r"
  else if (n =? 9)%nat then String Str.bs "t"
  else if (n <? 32)%nat then
    String Str.bs "u00"
    +:+ String (hex_digit (n / 16)) (String (hex_digit (n mod 16)) EmptyString)
  else String c EmptyString.

Fixpoint quote_body (s : string) : string :=
  match s with
  | EmptyString => EmptyString
  | String c s' => quote_char c +:+ quote_body s'
  end.

Definition quote (s : string) : string := Str.dquote +:+ quote_body s +:+ Str.dquote.

(** [JSON.stringify(v, null, 2)] below an indentation. *)
Fixpoint stringify_at (indent : string) (v : json) : string :=
  match v with
  | JNull => "null"
  | JBool true => "true"
  | JBool false => "false"
  | JNum n => number_to_json n
  | JStr t => quote t
  | JArr [] => "[]"
  | JArr l =>
      let inner := indent +:+ "  " in
      "[" +:+ Str.nl
      +:+ Str.join ("," +:+ Str.nl)
            (List.map (fun x => inner +:+ stringify_at inner x) l)
      +:+ Str.nl +:+ indent +:+ "]"
  | JObj [] => "{}"
  | JObj props =>
      let inner := indent +:+ "  " in
      "{" +:+ Str.nl
      +:+ Str.join ("," +:+ Str.nl)
            (List.map (fun kv => inner +:+ quote (fst kv) +:+ ": "
                                   +:+ stringify_at inner (snd kv)) props)
      +:+ Str.nl +:+ indent +:+ "}"
  end.

Definition stringify (v : json) : string := stringify_at EmptyString v.

End Json.

Arguments POk {A} a rest.
Arguments PErr {A}.
Arguments PFuel {A}.

End Json.

(** ** [utils.ts] *)

Module Utils.

(** [capitalize]: the first letter in upper case. *)
Definition capitalize (str : string) : string :=
  match str with
  | EmptyString => str
  | String c rest => String (Str.upper_char c) rest
  end.

Definition is_separator (c : ascii) : bool :=
  Ascii.eqb c "-" || Ascii.eqb c "_" || Str.is_space c.

(** [str.split(/[-_\s]+/)]: the pieces between the runs of separators;
    a run at either end leaves an empty piece there. *)
Fixpoint split_runs (l : list ascii) (cur : list ascii) (in_run : bool) : list string :=
  match l with
  | [] => [Str.of_chars (rev cur)]
  | c :: l' =>
      if is_separator c then
        if in_run then split_runs l' cur true
        else Str.of_chars (rev cur) :: split_runs l' [] true
      else split_runs l' (c :: cur) false
  end.

Definition split_words (str : string) : list string :=
  split_runs (Str.chars str) [] false.

(** [toPascalCase] *)
Definition toPascalCase (str : string) : string :=
  Str.join EmptyString
    (List.map (fun word => capitalize (Str.toLowerCase word)) (split_words str)).

(** [toCamelCase] *)
Definition toCamelCase (str : string) : string :=
  match toPascalCase str with
  | EmptyString => EmptyString
  | String c rest => String (Str.lower_char c) rest
  end.

(** [getPlatformDir] *)
Definition getPlatformDir (os arch : string) : outcome string :=
  if String.eqb os "linux" then
    Return (if String.eqb arch "arm64" then "linux-aarch64" else "linux-x86_64")
  else if String.eqb os "darwin" then
    Return (if String.eqb arch "arm64" then "macos-arm64" else "macos-x86_64")
  else if String.eqb os "win32" then Return "windows-x64"
  else Throw ("Unsupported platform: " +:+ os).

(** [extractExtensionName]: the last of the pieces between the dots. *)
Definition extractExtensionName (extensionId : string) : string :=
  List.last (Str.split "." extensionId) EmptyString.

End Utils.

(** ** [String.prototype.replace] with a pattern that matches a literal *)

Module Replace.

Definition capture (caps : list string) (i : nat) : option string :=
  match i with
  | 0 => None
  | S j => nth_error caps j
  end.

(** The expansion of a replacement text ([GetSubstitution]): [$$], the
    match [$&], the text before and after it, and the groups [$n] and
    [$nn]; any other dollar sign stands for itself. *)
Fixpoint expand (tpl matched before after : string) (caps : list string) : string :=
  match tpl with
  | EmptyString => EmptyString
  | String c t =>
      if Ascii.eqb c "$" then
        match t with
        | EmptyString => "$"
        | String d t' =>
            if Ascii.eqb d "$" then "$" +:+ expand t' matched before after caps
            else if Ascii.eqb d "&" then matched +:+ expand t' matched before after caps
            else if Ascii.eqb d "`" then before +:+ expand t' matched before after caps
            else if Ascii.eqb d "'" then after +:+ expand t' matched before after caps
            else if Str.is_digit d then
              let one (_ : unit) :=
                match capture caps (Str.digit_value d) with
                | Some g => g +:+ expand t' matched before after caps
                | None => String c (String d (expand t' matched before after caps))
                end in
              match t' with
              | String d2 t'' =>
                  if Str.is_digit d2 then
                    let nn := 10 * Str.digit_value d + Str.digit_value d2 in
                    if (nn <=? length caps)%nat then
                      match capture caps nn with
                      | Some g => g +:+ expand t'' matched before after caps
                      | None =>
                          String c (String d (String d2
                            (expand t'' matched before after caps)))
                      end
                    else one tt
                  else one tt
              | EmptyString => one tt
              end
            else String c (expand t matched before after caps)
        end
      else String c (expand t matched before after caps)
  end.

(** [s.replace(re, tpl)] for a pattern without the global flag that
    matches the literal [anchor], whose groups capture [caps]: the
    leftmost occurrence is replaced; without one, [s] is returned. *)
Definition replace (anchor : string) (caps : list string) (tpl s : string) : string :=
  match Str.find anchor s with
  | Some (before, after) =>
      before +:+ expand tpl anchor before after caps +:+ after
  | None => s
  end.

End Replace.

(** [parseJsonc]'s [content.replace(/,(\s*[}\]])/g, "$1")]: every comma
    that only white space separates from a closing brace or bracket is
    dropped.  A match is the comma and what follows it up to the closing
    character, and holds no other comma, so that the matches are the
    commas with such a continuation, one by one. *)
Module Jsonc.

Definition is_closer (c : ascii) : bool := Ascii.eqb c "}" || Ascii.eqb c "]".

Fixpoint closer_ahead (s : string) : bool :=
  match s with
  | EmptyString => false
  | String c s' =>
      if is_closer c then true
      else if Str.is_space c then closer_ahead s'
      else false
  end.

Fixpoint strip_trailing_commas (s : string) : string :=
  match s with
  | EmptyString => EmptyString
  | String c s' =>
      if Ascii.eqb c "," && closer_ahead s' then strip_trailing_commas s'
      else String c (strip_trailing_commas s')
  end.

End Jsonc.

(** ** The data model ([types/config.ts]) *)

Section Generator.
Context `{NM : NumberModel}.

Record Platform : Type := {
  os : string;
  arch : string;
  binaryExtension : option string
}.

Record AssetSource : Type := {
  repository : string;
  releaseTag : string;
  assetNamePattern : option string
}.

Record Activation : Type := {
  fileExtensions : list string;
  filePatterns : option (list string);
  workspaceContains : option (list string);
  additionalLanguageIds : option (list string)
}.

Record Provider : Type := {
  provider_type : string;
  binaryName : string;
  binaryArgs : option (list string);
  assetSource : option AssetSource;
  platforms : option (list Platform)
}.

Record Lsp : Type := {
  enabled : bool;
  proxyRequired : option bool;
  providerName : option string;
  socketType : option string
}.

Record RuntimeCheck : Type := {
  command : string;
  versionPattern : option string;
  minVersion : option string
}.

Record Tool : Type := {
  name : string;
  tool_path : option string;
  required : bool;
  installInstructions : option string
}.

Record Dependencies : Type := {
  vscodeExtensions : option (list string);
  runtimeCheck : option RuntimeCheck;
  tools : option (list Tool)
}.

Record Analysis : Type := {
  mode : option string;
  contextLines : option N
}.

Record ExtensionConfig : Type := {
  language : string;
  displayName : string;
  languageId : string;
  activation : Activation;
  provider : Provider;
  lsp : Lsp;
  dependencies : option Dependencies;
  providerSpecificConfig : option (list (string * json));
  analysis : option Analysis
}.

Record CliOptions : Type := {
  cli_config : option string;
  interactive : option bool;
  cli_repo : string;
  branch : option string;
  baseBranch : string;
  dryRun : bool;
  force : bool;
  noCommit : bool;
  push : bool;
  createPr : bool
}.

Record RepoConfig : Type := {
  version : string;
  repo_releaseTag : string;
  csharpReleaseTag : option string;
  org : string;
  repo : string;
  rulesetOrg : string;
  rulesetRepo : string
}.

Record GenerationContext : Type := {
  config : ExtensionConfig;
  options : CliOptions;
  repoPath : string;
  branchName : string;
  templatesDir : string;
  repoConfig : RepoConfig
}.

Inductive OperationType : Type := create | modify.

Record FileOperation : Type := {
  type : OperationType;
  path : string;
  description : string;
  changes : option (list string);
  content : option string;
  diff : option string
}.

Record GenerationResult : Type := {
  success : bool;
  operations : list FileOperation;
  result_branchName : string;
  commitHash : option string;
  prUrl : option string;
  errors : list string
}.

(** [TemplateData] of [generator.ts]: the configuration with its defaults
    filled in. *)
Record TemplateData : Type := {
  td_language : string;
  td_displayName : string;
  td_languageId : string;
  pascalLanguage : string;
  camelLanguage : string;
  td_fileExtensions : list string;
  td_filePatterns : option (list string);
  td_workspaceContains : list string;
  td_additionalLanguageIds : option (list string);
  td_provider_type : string;
  td_binaryName : string;
  td_binaryArgs : list string;
  td_platforms : list Platform;
  td_assetSource : option AssetSource;
  td_lsp_enabled : bool;
  td_proxyRequired : bool;
  td_providerName : string;
  td_vscodeExtensions : list string;
  td_runtimeCheck : option RuntimeCheck;
  td_providerSpecificConfig : list (string * json);
  td_mode : string;
  td_contextLines : N
}.

(** [x || d] on an optional value. *)
Definition or_default {A} (x : option A) (d : A) : A :=
  match x with
  | Some a => a
  | None => d
  end.

(** [s || d] on an optional string: the empty string is falsy. *)
Definition or_string (x : option string) (d : string) : string :=
  match x with
  | Some EmptyString | None => d
  | Some s => s
  end.

Definition prepareTemplateData (config : ExtensionConfig) : TemplateData := {|
  td_language := language config;
  td_displayName := displayName config;
  td_languageId := languageId config;
  pascalLanguage := Utils.toPascalCase (language config);
  camelLanguage := Utils.toCamelCase (language config);
  td_fileExtensions := fileExtensions (activation config);
  td_filePatterns := filePatterns (activation config);
  td_workspaceContains := or_default (workspaceContains (activation config)) [];
  td_additionalLanguageIds := additionalLanguageIds (activation config);
  td_provider_type := provider_type (provider config);
  td_binaryName := binaryName (provider config);
  td_binaryArgs := or_default (binaryArgs (provider config)) [];
  td_platforms := or_default (platforms (provider config)) [];
  td_assetSource := assetSource (provider config);
  td_lsp_enabled := enabled (lsp config);
  td_proxyRequired := or_default (proxyRequired (lsp config)) false;
  td_providerName := or_string (providerName (lsp config)) (language config);
  td_vscodeExtensions :=
    or_default (d ← dependencies config; vscodeExtensions d) [];
  td_runtimeCheck := d ← dependencies config; runtimeCheck d;
  td_providerSpecificConfig := or_default (providerSpecificConfig config) [];
  td_mode := or_string (a ← analysis config; mode a) "source-only";
  td_contextLines :=
    match a ← analysis config; contextLines a with
    | Some 0%N | None => 10%N
    | Some n => n
    end
|}.

(** The template engine ([Handlebars.compile(source)(data)]): the text
    it renders, or the error it throws. *)
Definition engine : Type := string -> TemplateData -> outcome string.

(** ** [generateNewFiles] *)

Variable render : engine.

Definition exists_ (p : string) : IO bool := fun fs => (Return (Fs.existsSync p fs), fs).

(** A step that apply mode performs and preview mode skips
    ([if (!dryRun) { ... }]). *)
Definition unless_dry (dry : bool) (step : IO unit) : IO unit :=
  if dry then ret tt else step.

Record mapping : Type := {
  template : string;
  output : string;
  condition : option bool
}.

Definition fileMappings (data : TemplateData) : list mapping := [
  {| template := "package.json.hbs"; output := "package.json"; condition := None |};
  {| template := "tsconfig.json.hbs"; output := "tsconfig.json"; condition := None |};
  {| template := "webpack.config.js.hbs"; output := "webpack.config.js"; condition := None |};
  {| template := "eslintrc.json.hbs"; output := ".eslintrc.json"; condition := None |};
  {| template := "LICENSE.md.hbs"; output := "LICENSE.md"; condition := None |};
  {| template := "extension.ts.hbs"; output := "src/extension.ts"; condition := None |};
  {| template := "providerManager.ts.hbs";
     output := "src/" +:+ pascalLanguage data +:+ "ExternalProviderManager.ts";
     condition := None |};
  {| template := "proxyServer.ts.hbs";
     output := "src/" +:+ pascalLanguage data +:+ "VscodeProxyServer.ts";
     condition := Some (td_proxyRequired data) |};
  {| template := "constants.ts.hbs"; output := "src/utilities/constants.ts";
     condition := None |}
].

(** [mapping.condition === false] *)
Definition disabled (m : mapping) : bool :=
  match condition m with
  | Some false => true
  | _ => false
  end.

Definition placeholder (outputPath : string) (m : mapping) : FileOperation := {|
  type := create;
  path := outputPath;
  description := "Template " +:+ template m +:+ " not found - create manually";
  changes := None;
  content := None;
  diff := None
|}.

Definition generated (data : TemplateData) (dry : bool) (m : mapping) (rendered : string)
  : FileOperation := {|
  type := create;
  path := "vscode/" +:+ td_language data +:+ "/" +:+ output m;
  description := "Generated from " +:+ template m;
  changes := None;
  content := if dry then Some rendered else None;
  diff := None
|}.

(** The body of the loop over the mappings. *)
Definition emit (templatesDir extensionDir : string) (data : TemplateData) (dry : bool)
    (m : mapping) : IO (list FileOperation) :=
  if disabled m then ret []
  else
    let templatePath := Path.join templatesDir (template m) in
    let outputPath := Path.join extensionDir (output m) in
    let! found := exists_ templatePath in
    if negb found then ret [placeholder outputPath m]
    else
      let! templateContent := Fs.readFile templatePath in
      let! rendered := lift (render templateContent data) in
      run! unless_dry dry
             (run! Fs.mkdir (Path.dirname outputPath) in
              Fs.writeFile outputPath rendered) in
      ret [generated data dry m rendered].

Fixpoint emit_all (templatesDir extensionDir : string) (data : TemplateData) (dry : bool)
    (ms : list mapping) : IO (list FileOperation) :=
  match ms with
  | [] => ret []
  | m :: rest =>
      let! ops := emit templatesDir extensionDir data dry m in
      let! more := emit_all templatesDir extensionDir data dry rest in
      ret (ops ++ more)%list
  end.

Definition generateNewFiles (templatesDir extensionDir : string) (data : TemplateData)
    (dry : bool) : IO (list FileOperation) :=
  emit_all templatesDir extensionDir data dry (fileMappings data).

(** ** [modifyExistingFiles]: the seven patch strategies *)

Definition q (s : string) : string := Str.dquote +:+ s +:+ Str.dquote.
Definition lines (l : list string) : string := Str.join Str.nl l.

Definition modification (p d : string) (cs : list string) (df : string) : FileOperation := {|
  type := modify;
  path := p;
  description := d;
  changes := Some cs;
  content := None;
  diff := Some df
|}.

(** [xs.some(f)] with a callback that may throw. *)
Fixpoint some {A} (f : A -> outcome bool) (l : list A) : outcome bool :=
  match l with
  | [] => Return false
  | x :: l' => let? b := f x in if b then Return true else some f l'
  end.

(** [xs.forEach(f)] with a callback that updates the element in place. *)
Fixpoint for_each {A} (f : A -> outcome A) (l : list A) : outcome (list A) :=
  match l with
  | [] => Return []
  | x :: l' => let? y := f x in let? ys := for_each f l' in Return (y :: ys)
  end.

(** [v || d] *)
Definition or_else (v : value) (d : json) : json :=
  match v with
  | Some j => if truthy j then j else d
  | None => d
  end.

(** [v.push(x)]: only an array has the method. *)
Definition array_push (what : string) (v : json) (x : json) : outcome (list json) :=
  match v with
  | JArr l => Return (l ++ [x])%list
  | _ => Throw (what +:+ ".push is not a function")
  end.

(** *** The root manifest *)

(** [rootPkg.workspaces?.includes(workspacePath)] *)
Definition workspaces_include (ws : value) (workspacePath : string) : outcome bool :=
  match ws with
  | None | Some JNull => Return false
  | Some (JArr l) => Return (array_includes l workspacePath)
  | Some (JStr t) => Return (Str.includes t workspacePath)
  | Some _ => Throw "rootPkg.workspaces.includes is not a function"
  end.

Definition add_workspace (lang : string) (rootPkg : json) : outcome json :=
  let workspacePath := "vscode/" +:+ lang in
  let? ws := get rootPkg "workspaces" in
  let? present := workspaces_include ws workspacePath in
  if present then Return rootPkg
  else
    let w := or_else ws (JArr []) in
    let? rootPkg1 := set rootPkg "workspaces" w in
    let? pushed := array_push "rootPkg.workspaces" w (JStr workspacePath) in
    set rootPkg1 "workspaces" (JArr (sort pushed)).

Definition add_script (lang : string) (rootPkg : json) : outcome json :=
  let scriptName := "package-" +:+ lang in
  let? sc := get rootPkg "scripts" in
  let scripts := or_else sc (JObj []) in
  let? rootPkg1 := set rootPkg "scripts" scripts in
  let? scripts' := set scripts scriptName
               (JStr ("node ./scripts/package-extensions.js " +:+ lang)) in
  set rootPkg1 "scripts" scripts'.

Definition patch_manifest (lang : string) (rootPkg : json) : outcome json :=
  let? rootPkg1 := add_workspace lang rootPkg in
  add_script lang rootPkg1.

Definition manifest_operation (lang : string) : FileOperation :=
  modification "package.json" "Add workspace and package script"
    [ "Add " +:+ q ("vscode/" +:+ lang) +:+ " to workspaces array";
      "Add script " +:+ q ("package-" +:+ lang) +:+ ": "
        +:+ q ("node ./scripts/package-extensions.js " +:+ lang) ]
    (lines [
      "  " +:+ q "workspaces" +:+ ": [";
      "    ...";
      "+   " +:+ q ("vscode/" +:+ lang);
      "  ],";
      "  " +:+ q "scripts" +:+ ": {";
      "    ...";
      "+   " +:+ q ("package-" +:+ lang) +:+ ": "
        +:+ q ("node ./scripts/package-extensions.js " +:+ lang);
      "  }" ]).

Definition updateRootPackage (repoPath : string) (config : ExtensionConfig) (dry : bool)
  : IO (list FileOperation) :=
  let rootPkgPath := Path.join repoPath "package.json" in
  let! found := exists_ rootPkgPath in
  if negb found then ret []
  else
    let! text := Fs.readFile rootPkgPath in
    let! rootPkg := lift (Json.parse text) in
    let! rootPkg' := lift (patch_manifest (language config) rootPkg) in
    run! unless_dry dry
           (Fs.writeFile rootPkgPath (Json.stringify rootPkg' +:+ Str.nl)) in
    ret [manifest_operation (language config)].

(** *** The CI workflow *)

Definition packageStep (config : ExtensionConfig) : string :=
  lines [
    "- name: Package " +:+ displayName config +:+ " extension";
    "        run: npm run package-" +:+ language config;
    "        if: runner.os == 'Linux'" ].

Definition ci_anchor : string :=
  Str.nl +:+ "      " +:+ "- name: Upload VSIX artifacts".

Definition ci_groups : list string :=
  [Str.nl; "      "; "- name: Upload VSIX artifacts"].

Definition insert_step (config : ExtensionConfig) (ciContent : string) : string :=
  Replace.replace ci_anchor ci_groups
    ("$1$2" +:+ packageStep config +:+ Str.nl +:+ Str.nl +:+ "$2$3") ciContent.

Definition ci_operation (config : ExtensionConfig) : FileOperation :=
  modification ".github/workflows/ci-repo.yml" "Add package step for extension"
    [ "Add step: " +:+ q ("Package " +:+ displayName config +:+ " extension");
      "Run: npm run package-" +:+ language config ]
    (lines [
      "+     - name: Package " +:+ displayName config +:+ " extension";
      "+       run: npm run package-" +:+ language config;
      "+       if: runner.os == 'Linux'" ]).

Definition updateCiWorkflow (repoPath : string) (config : ExtensionConfig) (dry : bool)
  : IO (list FileOperation) :=
  let ciWorkflowPath := Path.join repoPath ".github/workflows/ci-repo.yml" in
  let! found := exists_ ciWorkflowPath in
  if negb found then ret []
  else
    let! ciContent := Fs.readFile ciWorkflowPath in
    if Str.includes ciContent ("package-" +:+ language config) then ret []
    else
      run! unless_dry dry (Fs.writeFile ciWorkflowPath (insert_step config ciContent)) in
      ret [ci_operation config].

(** *** [scripts/collect-assets.js] *)

(** [config.provider.assetSource?.repository || `${org}/${repo}`] *)
Definition assetRepo (config : ExtensionConfig) (rc : RepoConfig) : string :=
  or_string (repository <$> assetSource (provider config)) (org rc +:+ "/" +:+ repo rc).

Definition assetTag (config : ExtensionConfig) (rc : RepoConfig) : string :=
  or_string (releaseTag <$> assetSource (provider config)) (repo_releaseTag rc).

Definition assetConfig (config : ExtensionConfig) (rc : RepoConfig) : string :=
  lines [
    "  " +:+ q (binaryName (provider config)) +:+ ": {";
    "    release: {";
    "      repo: " +:+ q (assetRepo config rc) +:+ ",";
    "      tag: " +:+ q (assetTag config rc) +:+ ",";
    "    },";
    "  }," ].

Definition insert_asset (config : ExtensionConfig) (rc : RepoConfig) (text : string) : string :=
  Replace.replace "const ASSETS = {" ["const ASSETS = {"]
    ("$1" +:+ Str.nl +:+ assetConfig config rc) text.

Definition assets_operation (config : ExtensionConfig) (rc : RepoConfig) : FileOperation :=
  modification "scripts/collect-assets.js" "Add asset download configuration"
    [ "Add " +:+ q (binaryName (provider config)) +:+ " to ASSETS object";
      "Repository: " +:+ assetRepo config rc;
      "Tag: " +:+ assetTag config rc ]
    (lines [
      "  const ASSETS = {";
      "+   " +:+ q (binaryName (provider config)) +:+ ": {";
      "+     release: {";
      "+       repo: " +:+ q (assetRepo config rc) +:+ ",";
      "+       tag: " +:+ q (assetTag config rc) +:+ ",";
      "+     },";
      "+   },";
      "    ...";
      "  };" ]).

Definition updateCollectAssets (repoPath : string) (config : ExtensionConfig)
    (rc : RepoConfig) (dry : bool) : IO (list FileOperation) :=
  let collectAssetsPath := Path.join repoPath "scripts/collect-assets.js" in
  let! found := exists_ collectAssetsPath in
  if negb found then ret []
  else
    let! text := Fs.readFile collectAssetsPath in
    if Str.includes text (q (binaryName (provider config))) then ret []
    else
      run! unless_dry dry (Fs.writeFile collectAssetsPath (insert_asset config rc text)) in
      ret [assets_operation config rc].

(** *** [scripts/copy-dist.js] *)

Definition copyConfig (config : ExtensionConfig) : string :=
  lines [
    "  " +:+ q (language config) +:+ ": {";
    "    extensionPath: " +:+ q ("vscode/" +:+ language config) +:+ ",";
    "    includedAssetPaths: {";
    "      " +:+ q (Utils.toCamelCase (binaryName (provider config))) +:+ ": "
      +:+ q ("../../downloaded_assets/" +:+ binaryName (provider config)) +:+ ",";
    "    },";
    "  }," ].

Definition insert_copy (config : ExtensionConfig) (text : string) : string :=
  Replace.replace "const EXTENSIONS = {" ["const EXTENSIONS = {"]
    ("$1" +:+ Str.nl +:+ copyConfig config) text.

Definition copy_operation (config : ExtensionConfig) : FileOperation :=
  modification "scripts/copy-dist.js" "Add dist copy configuration"
    [ "Add " +:+ q (language config) +:+ " to EXTENSIONS object";
      "Extension path: vscode/" +:+ language config ]
    (lines [
      "  const EXTENSIONS = {";
      "+   " +:+ q (language config) +:+ ": {";
      "+     extensionPath: " +:+ q ("vscode/" +:+ language config) +:+ ",";
      "+     includedAssetPaths: {";
      "+       " +:+ q (Utils.toCamelCase (binaryName (provider config))) +:+ ": "
        +:+ q ("../../downloaded_assets/" +:+ binaryName (provider config)) +:+ ",";
      "+     },";
      "+   },";
      "    ...";
      "  };" ]).

Definition updateCopyDist (repoPath : string) (config : ExtensionConfig) (dry : bool)
  : IO (list FileOperation) :=
  let copyDistPath := Path.join repoPath "scripts/copy-dist.js" in
  let! found := exists_ copyDistPath in
  if negb found then ret []
  else
    let! text := Fs.readFile copyDistPath in
    if Str.includes text (q (language config)) then ret []
    else
      run! unless_dry dry (Fs.writeFile copyDistPath (insert_copy config text)) in
      ret [copy_operation config].

(** *** [scripts/package-extensions.js] *)

Definition insert_valid (config : ExtensionConfig) (text : string) : string :=
  Replace.replace "const VALID_EXTENSIONS = [" ["const VALID_EXTENSIONS = ["]
    ("$1" +:+ q (language config) +:+ ", ") text.

Definition valid_operation (config : ExtensionConfig) : FileOperation :=
  modification "scripts/package-extensions.js" "Add extension to valid list"
    [ "Add " +:+ q (language config) +:+ " to VALID_EXTENSIONS array" ]
    (lines [
      "- const VALID_EXTENSIONS = [...];";
      "+ const VALID_EXTENSIONS = [" +:+ q (language config) +:+ ", ...];" ]).

Definition updatePackageExtensions (repoPath : string) (config : ExtensionConfig)
    (dry : bool) : IO (list FileOperation) :=
  let packageExtPath := Path.join repoPath "scripts/package-extensions.js" in
  let! found := exists_ packageExtPath in
  if negb found then ret []
  else
    let! text := Fs.readFile packageExtPath in
    if Str.includes text (q (language config)) then ret []
    else
      run! unless_dry dry (Fs.writeFile packageExtPath (insert_valid config text)) in
      ret [valid_operation config].

(** *** [.vscode/launch.json] *)

Definition extensionFolder (lang : string) : string := "vscode/" +:+ lang.

(** [p.includes(`vscode/${lang}`)] on an element of a path list. *)
Definition path_mentions (lang : string) (p : json) : outcome bool :=
  match p with
  | JStr t => Return (Str.includes t (extensionFolder lang))
  | JArr l => Return (array_includes l (extensionFolder lang))
  | JNull => Throw "Cannot read properties of null (reading 'includes')"
  | _ => Throw "p.includes is not a function"
  end.

(** [c.extensionDevelopmentPath?.some(...)] *)
Definition config_mentions (lang : string) (c : json) : outcome bool :=
  let? edp := get c "extensionDevelopmentPath" in
  match edp with
  | None | Some JNull => Return false
  | Some (JArr l) => some (path_mentions lang) l
  | Some _ => Throw "c.extensionDevelopmentPath.some is not a function"
  end.

(** [launchJson.configurations?.some(...)] *)
Definition hasExtension (lang : string) (launchJson : json) : outcome bool :=
  let? cfgs := get launchJson "configurations" in
  match cfgs with
  | None | Some JNull => Return false
  | Some (JArr l) => some (config_mentions lang) l
  | Some _ => Throw "launchJson.configurations.some is not a function"
  end.

Definition developmentPath (lang : string) : string :=
  "${workspaceFolder}/vscode/" +:+ lang.

(** The body of the [forEach]: the path is pushed where a path list is. *)
Definition add_path (lang : string) (c : json) : outcome json :=
  let? edp := get c "extensionDevelopmentPath" in
  match edp with
  | Some e =>
      if truthy e then
        let? pushed := array_push "c.extensionDevelopmentPath" e (JStr (developmentPath lang)) in
        set c "extensionDevelopmentPath" (JArr pushed)
      else Return c
  | None => Return c
  end.

Definition add_paths (lang : string) (launchJson : json) : outcome json :=
  let? cfgs := get launchJson "configurations" in
  match cfgs with
  | Some (JArr l) =>
      let? l' := for_each (add_path lang) l in
      set launchJson "configurations" (JArr l')
  | _ => Throw "launchJson.configurations.forEach is not a function"
  end.

Definition launch_operation (lang : string) : FileOperation :=
  modification ".vscode/launch.json" "Add extension to debug configuration"
    [ "Add " +:+ q (developmentPath lang) +:+ " to extensionDevelopmentPath" ]
    (lines [
      "  " +:+ q "args" +:+ ": [";
      "    " +:+ q "--extensionDevelopmentPath=${workspaceFolder}/vscode/core" +:+ ",";
      "    " +:+ q "--extensionDevelopmentPath=${workspaceFolder}/vscode/java" +:+ ",";
      "    ...";
      "+   " +:+ q ("--extensionDevelopmentPath=" +:+ developmentPath lang) +:+ ",";
      "  ]" ]).

Definition updateLaunch (repoPath : string) (config : ExtensionConfig) (dry : bool)
  : IO (list FileOperation) :=
  let launchPath := Path.join repoPath ".vscode/launch.json" in
  let! found := exists_ launchPath in
  if negb found then ret []
  else
    let! text := Fs.readFile launchPath in
    let! launchJson := lift (Json.parse text) in
    let! has := lift (hasExtension (language config) launchJson) in
    let! cfgs := lift (get launchJson "configurations") in
    if negb has && truthy_value cfgs then
      let! launchJson' := lift (add_paths (language config) launchJson) in
      run! unless_dry dry
             (Fs.writeFile launchPath (Json.stringify launchJson' +:+ Str.nl)) in
      ret [launch_operation (language config)]
    else ret [].

(** *** The workspace file *)

(** [parseJsonc] *)
Definition parseJsonc (content : string) : outcome json :=
  let cleaned := Jsonc.strip_trailing_commas content in
  Json.parse cleaned.

(** [f.path === `vscode/${lang}`] *)
Definition is_folder (lang : string) (f : json) : outcome bool :=
  let? p := get f "path" in
  Return match p with
         | Some (JStr t) => String.eqb t (extensionFolder lang)
         | _ => false
         end.

(** [workspace.folders?.some(...)] *)
Definition hasFolder (lang : string) (workspace : json) : outcome bool :=
  let? fo := get workspace "folders" in
  match fo with
  | None | Some JNull => Return false
  | Some (JArr l) => some (is_folder lang) l
  | Some _ => Throw "workspace.folders.some is not a function"
  end.

Definition folder_entry (lang : string) : json :=
  JObj [("path", JStr (extensionFolder lang))].

Definition add_folder (lang : string) (workspace : json) : outcome json :=
  let? fo := get workspace "folders" in
  let folders := or_else fo (JArr []) in
  let? workspace1 := set workspace "folders" folders in
  let? pushed := array_push "workspace.folders" folders (folder_entry lang) in
  set workspace1 "folders" (JArr pushed).

Definition workspace_operation (lang : string) : FileOperation :=
  modification "konveyor-extensions.code-workspace" "Add extension folder to workspace"
    [ "Add folder: { " +:+ q "path" +:+ ": " +:+ q (extensionFolder lang) +:+ " }" ]
    (lines [
      "  " +:+ q "folders" +:+ ": [";
      "    ...";
      "+   {";
      "+     " +:+ q "path" +:+ ": " +:+ q (extensionFolder lang);
      "+   }";
      "  ]" ]).

Definition updateWorkspace (repoPath : string) (config : ExtensionConfig) (dry : bool)
  : IO (list FileOperation) :=
  let workspacePath := Path.join repoPath "konveyor-extensions.code-workspace" in
  let! found := exists_ workspacePath in
  if negb found then ret []
  else
    let! workspaceContent := Fs.readFile workspacePath in
    let! workspace := lift (parseJsonc workspaceContent) in
    let! has := lift (hasFolder (language config) workspace) in
    if negb has then
      let! workspace' := lift (add_folder (language config) workspace) in
      run! unless_dry dry
             (Fs.writeFile workspacePath (Json.stringify workspace' +:+ Str.nl)) in
      ret [workspace_operation (language config)]
    else ret [].

(** *** The whole patch phase *)

Definition modifyExistingFiles (repoPath : string) (config : ExtensionConfig)
    (rc : RepoConfig) (dry : bool) : IO (list FileOperation) :=
  let! o1 := updateRootPackage repoPath config dry in
  let! o2 := updateCiWorkflow repoPath config dry in
  let! o3 := updateCollectAssets repoPath config rc dry in
  let! o4 := updateCopyDist repoPath config dry in
  let! o5 := updatePackageExtensions repoPath config dry in
  let! o6 := updateLaunch repoPath config dry in
  let! o7 := updateWorkspace repoPath config dry in
  ret (o1 ++ o2 ++ o3 ++ o4 ++ o5 ++ o6 ++ o7)%list.

(** ** [generateExtension] *)

Definition extensionDir (ctx : GenerationContext) : string :=
  Path.join (Path.join (repoPath ctx) "vscode") (language (config ctx)).

Definition exists_message (dir : string) : string :=
  "Extension directory already exists: " +:+ dir +:+ ". Use --force to overwrite.".

Definition result (ctx : GenerationContext) (ok : bool) (ops : list FileOperation)
    (errs : list string) : GenerationResult := {|
  success := ok;
  operations := ops;
  result_branchName := branchName ctx;
  commitHash := None;
  prUrl := None;
  errors := errs
|}.

Definition make_directories (ctx : GenerationContext) : IO unit :=
  unless_dry (dryRun (options ctx))
    (run! Fs.mkdir (Path.join (Path.join (extensionDir ctx) "src") "utilities") in
     Fs.mkdir (Path.join (extensionDir ctx) "resources")).

Definition generateExtension (ctx : GenerationContext) (fs : FS) : GenerationResult * FS :=
  let templateData := prepareTemplateData (config ctx) in
  if Fs.existsSync (extensionDir ctx) fs && negb (force (options ctx)) then
    (result ctx false [] [exists_message (extensionDir ctx)], fs)
  else
    match make_directories ctx fs with
    | (Throw e, fs1) => (result ctx false [] [e], fs1)
    | (Return _, fs1) =>
        match generateNewFiles (templatesDir ctx) (extensionDir ctx) templateData
                (dryRun (options ctx)) fs1 with
        | (Throw e, fs2) => (result ctx false [] [e], fs2)
        | (Return newFiles, fs2) =>
            match modifyExistingFiles (repoPath ctx) (config ctx) (repoConfig ctx)
                    (dryRun (options ctx)) fs2 with
            | (Throw e, fs3) => (result ctx false newFiles [e], fs3)
            | (Return modifiedFiles, fs3) =>
                (result ctx true (newFiles ++ modifiedFiles)%list [], fs3)
            end
        end
    end.

End Generator.

(** ** Instances of the interfaces, for closed examples *)

(** Numbers held as the literal that denotes them.  It agrees with the
    runtime on canonical literals and is used on documents without numbers. *)
#[global] Instance literal_numbers : NumberModel := {|
  number := string;
  number_of_literal := fun lit => lit;
  number_to_string := fun lit => lit;
  number_to_json := fun lit => lit;
  number_truthy := fun lit =>
    existsb (fun c => Str.is_digit c && negb (Ascii.eqb c "0")) (Str.chars lit)
|}.

(** Handlebars in its default mode ([Handlebars.compile(source)] without
    options, hence without [strict]), on templates whose expressions are
    plain [{{name}}] references to a text field of the data: the value
    is inserted with its HTML characters escaped, and a name the data does
    not define renders as the empty text. *)
Module PlainEngine.

Definition field (data : TemplateData) (name : string) : option string :=
  if String.eqb name "language" then Some (td_language data)
  else if String.eqb name "displayName" then Some (td_displayName data)
  else if String.eqb name "languageId" then Some (td_languageId data)
  else if String.eqb name "pascalLanguage" then Some (pascalLanguage data)
  else if String.eqb name "camelLanguage" then Some (camelLanguage data)
  else None.

Definition escape_char (c : ascii) : string :=
  if Ascii.eqb c "&" then "&amp;"
  else if Ascii.eqb c "<" then "&lt;"
  else if Ascii.eqb c ">" then "&gt;"
  else if Ascii.eqb c Str.dq then "&quot;"
  else if Ascii.eqb c "'" then "&#x27;"
  else if Ascii.eqb c "`" then "&#x60;"
  else if Ascii.eqb c "=" then "&#x3D;"
  else String c EmptyString.

Fixpoint escape (s : string) : string :=
  match s with
  | EmptyString => EmptyString
  | String c s' => escape_char c +:+ escape s'
  end.

Definition trim (l : list ascii) : string :=
  Str.of_chars (filter (fun c => negb (Str.is_space c)) l).

(** [inside] holds the characters of the expression being read, last
    first, when the scan is between the braces. *)
Fixpoint scan (data : TemplateData) (s : string) (inside : option (list ascii))
  : outcome string :=
  match s, inside with
  | EmptyString, None => Return EmptyString
  | EmptyString, Some _ => Throw "Parse error: expecting 'CLOSE', got 'EOF'"
  | String c s', None =>
      match s' with
      | String c' s'' =>
          if Ascii.eqb c "{" && Ascii.eqb c' "{" then scan data s'' (Some [])
          else let? out := scan data s' None in Return (String c out)
      | EmptyString => Return (String c EmptyString)
      end
  | String c s', Some acc =>
      match s' with
      | String c' s'' =>
          if Ascii.eqb c "}" && Ascii.eqb c' "}" then
            let? out := scan data s'' None in
            Return (match field data (trim (rev acc)) with
                    | Some v => escape v
                    | None => EmptyString
                    end +:+ out)
          else scan data s' (Some (c :: acc))
      | EmptyString => Throw "Parse error: expecting 'CLOSE', got 'EOF'"
      end
  end.

Definition render : engine := fun source data => scan data source None.

End PlainEngine.

(** ** A host repository and two configurations, for closed examples *)

Module Scenario.

Definition extension (lang name : string) (proxy : bool) : ExtensionConfig := {|
  language := lang;
  displayName := name;
  languageId := lang;
  activation := {| fileExtensions := [".x"]; filePatterns := None;
                   workspaceContains := None; additionalLanguageIds := None |};
  provider := {| provider_type := "generic";
                 binaryName := "generic-external-provider";
                 binaryArgs := None; assetSource := None; platforms := None |};
  lsp := {| enabled := true; proxyRequired := Some proxy;
            providerName := None; socketType := None |};
  dependencies := None;
  providerSpecificConfig := None;
  analysis := None
|}.

Definition flags (dry overwrite : bool) : CliOptions := {|
  cli_config := Some "configs/sample.json"; interactive := None; cli_repo := "/repo";
  branch := None; baseBranch := "main";
  dryRun := dry; force := overwrite; noCommit := false; push := false; createPr := false
|}.

Definition host : RepoConfig := {|
  version := "0.4.0"; repo_releaseTag := "v0.8.0-beta.5"; csharpReleaseTag := None;
  org := "konveyor"; repo := "kai"; rulesetOrg := "konveyor"; rulesetRepo := "rulesets"
|}.

Definition context (c : ExtensionConfig) (o : CliOptions) : GenerationContext := {|
  config := c; options := o; repoPath := "/repo";
  branchName := "feature/" +:+ language c +:+ "-extension";
  templatesDir := "/tool/templates"; repoConfig := host
|}.

Definition python : ExtensionConfig := extension "python" "Python" true.
Definition rust : ExtensionConfig := extension "rust" "Rust" false.

Definition templates : list (string * node) := [
  ("/tool/templates/package.json.hbs", File "{ name: konveyor-{{language}} }");
  ("/tool/templates/tsconfig.json.hbs", File "{}");
  ("/tool/templates/webpack.config.js.hbs", File "module.exports = {};");
  ("/tool/templates/eslintrc.json.hbs", File "{}");
  ("/tool/templates/LICENSE.md.hbs", File "Apache-2.0");
  ("/tool/templates/extension.ts.hbs", File "// {{displayName}} extension");
  ("/tool/templates/providerManager.ts.hbs", File "class {{pascalLanguage}}Manager {}");
  ("/tool/templates/proxyServer.ts.hbs", File "class {{pascalLanguage}}Proxy {}");
  ("/tool/templates/constants.ts.hbs", File "export const ID = 1;")
].

Definition manifest_text : string :=
  "{" +:+ q "workspaces" +:+ ": [" +:+ q "vscode/core" +:+ ", " +:+ q "vscode/java"
  +:+ "], " +:+ q "scripts" +:+ ": {}}".

Definition ci_text : string :=
  lines [ "    steps:"; "      - name: Build"; "        run: npm run build";
          "      - name: Upload VSIX artifacts"; "        uses: actions/upload-artifact" ].

Definition launch_text : string :=
  "{" +:+ q "configurations" +:+ ": [{" +:+ q "name" +:+ ": " +:+ q "Run"
  +:+ ", " +:+ q "extensionDevelopmentPath" +:+ ": ["
  +:+ q "${workspaceFolder}/vscode/core" +:+ "]}]}".

(** Trailing commas, as the workspace file of the host project has. *)
Definition workspace_text : string :=
  lines [ "{"; "  " +:+ q "folders" +:+ ": [";
          "    { " +:+ q "path" +:+ ": " +:+ q "vscode/core" +:+ " },";
          "  ],"; "}" ].

Definition targets : list (string * node) := [
  ("/repo/package.json", File manifest_text);
  ("/repo/.github/workflows/ci-repo.yml", File ci_text);
  ("/repo/scripts/collect-assets.js", File (lines ["const ASSETS = {"; "};"]));
  ("/repo/scripts/copy-dist.js", File (lines ["const EXTENSIONS = {"; "};"]));
  ("/repo/scripts/package-extensions.js",
     File ("const VALID_EXTENSIONS = [" +:+ q "java" +:+ "];"));
  ("/repo/.vscode/launch.json", File launch_text);
  ("/repo/konveyor-extensions.code-workspace", File workspace_text)
].

Definition directories : list (string * node) := [
  ("/repo", Dir); ("/repo/.github", Dir); ("/repo/.github/workflows", Dir);
  ("/repo/scripts", Dir); ("/repo/.vscode", Dir); ("/repo/vscode", Dir);
  ("/tool", Dir); ("/tool/templates", Dir)
].

(** A fresh repository: the seven files to patch and all the templates. *)
Definition fresh : FS := list_to_map (templates ++ targets ++ directories)%list.

(** The same repository once an extension directory for Python exists. *)
Definition occupied : FS := <["/repo/vscode/python" := Dir]> fresh.


(** The repository with a launch configuration that is not JSON. *)
Definition broken_launch : FS :=
  <["/repo/.vscode/launch.json" := File "{ configurations: "]> fresh.




(** The repository with a workflow whose upload step has another name. *)
Definition renamed_step : FS :=
  <["/repo/.github/workflows/ci-repo.yml" :=
      File (lines [ "    steps:"; "      - name: Build";
                    "      - name: Publish VSIX artifacts" ])]> fresh.

(** The tool with a manifest template that refers to a field the
    template data does not have. *)
Definition unknown_field : FS :=
  <["/tool/templates/package.json.hbs" :=
      File "{ name: konveyor-{{language}}, publisher: {{publisher}} }"]> fresh.

(** A workspace file that is strict JSON and names a folder with a comma
    before a closing bracket. *)
Definition bracket_name_text : string :=
  "{" +:+ q "folders" +:+ ": [{" +:+ q "path" +:+ ": " +:+ q "vscode/core" +:+ ", "
  +:+ q "name" +:+ ": " +:+ q "core [stable,]" +:+ "}]}".

Definition bracket_name : FS :=
  <["/repo/konveyor-extensions.code-workspace" := File bracket_name_text]> fresh.

(** The repository without a manifest, and with the renamed workflow step. *)
Definition renamed_step_only : FS := delete "/repo/package.json" renamed_step.

Definition forced_python : GenerationContext := context python (flags false true).

Definition apply_python : GenerationContext := context python (flags false false).
Definition preview_python : GenerationContext := context python (flags true false).

End Scenario.

(** ** Predicates used to state the properties *)

(** A computation that leaves every file system as it found it. *)
Definition reads_only {A} (m : IO A) : Prop := forall fs : FS, (m fs).2 = fs.

(** The three shapes of a staged operation. *)
Inductive staged `{NM : NumberModel} (data : TemplateData) (dry : bool)
  : FileOperation -> Prop :=
| staged_placeholder (outputPath : string) (m : mapping) :
    staged data dry (placeholder outputPath m)
| staged_generated (m : mapping) (rendered : string) :
    staged data dry (generated data dry m rendered)
| staged_modification (p d : string) (cs : list string) (df : string) :
    staged data dry (modification p d cs df).

(** The claim that the payload of an operation is present exactly in
    preview mode. *)
Definition payload_iff_preview (dry : bool) (op : FileOperation) : Prop :=
  match type op with
  | create => is_Some (content op) <-> dry = true
  | modify => is_Some (diff op) <-> dry = true
  end.

(** What a computation returns, when it returns. *)
Definition yields {A} (P : A -> Prop) (m : IO A) : Prop :=
  forall (fs : FS) (a : A) (fs' : FS), m fs = (Return a, fs') -> P a.



(** The shape the four text strategies share: skip an absent file, skip
    when the key occurs in the text, otherwise write the text with the
    insertion (apply mode) and stage the operation. *)
Definition patch_text (p key : string) (insert : string -> string) (op : FileOperation)
    (dry : bool) : IO (list FileOperation) :=
  let! found := exists_ p in
  if negb found then ret []
  else
    let! text := Fs.readFile p in
    if Str.includes text key then ret []
    else
      run! unless_dry dry (Fs.writeFile p (insert text)) in
      ret [op].

(** The file system after an optional write. *)
Definition written (dry : bool) (p text : string) (fs : FS) : FS :=
  if dry then fs else <[p := File text]> fs.


(** An operation staged for a template: generated from it, or its
    placeholder. *)
Definition for_template `{NM : NumberModel} (t : string) (op : FileOperation) : Prop :=
  description op = "Generated from " +:+ t
  \/ description op = "Template " +:+ t +:+ " not found - create manually".

(** The templates that are emitted, in order. *)
Definition emitted_templates (proxy : bool) : list string :=
  [ "package.json.hbs"; "tsconfig.json.hbs"; "webpack.config.js.hbs";
    "eslintrc.json.hbs"; "LICENSE.md.hbs"; "extension.ts.hbs";
    "providerManager.ts.hbs" ]
  ++ (if proxy then ["proxyServer.ts.hbs"] else [])
  ++ [ "constants.ts.hbs" ].

(** What a computation without effects returned ([d] if it threw). *)
Definition value_of {A} (d : A) (o : outcome A) : A :=
  match o with
  | Return a => a
  | Throw _ => d
  end.

(** Text without a dollar sign, which a replacement text inserts as it is. *)
Definition plain (s : string) : bool := negb (Str.has_char "$" s).

(** A strategy that stages nothing and writes nothing, in either mode. *)
Definition idle (strategy : bool -> IO (list FileOperation)) (fs : FS) : Prop :=
  forall dry, strategy dry fs = (Return [], fs).

(** A strategy that patches its file in apply mode and is idle on the
    file system it leaves. *)
Definition settles (strategy : bool -> IO (list FileOperation)) (fs : FS) : Prop :=
  exists op fs1, strategy false fs = (Return [op], fs1) /\ idle strategy fs1.

Definition starts_with_digit (s : string) : bool :=
  match s with
  | String c _ => Str.is_digit c
  | EmptyString => false
  end.

(** A launch configuration with a list of extension paths. *)
Definition has_path_list `{NM : NumberModel} (c : json) : Prop :=
  exists props paths,
    c = JObj props
    /\ lookup_prop "extensionDevelopmentPath" props = Some (JArr paths).

Definition is_modify `{NM : NumberModel} (op : FileOperation) : bool :=
  match type op with
  | modify => true
  | create => false
  end.

(** ** Values that print and read back *)

(** What may follow a value in the text [JSON.stringify] writes: a comma, a
    line break, or the end of the text. *)
Definition closes (rest : string) : bool :=
  match rest with
  | EmptyString => true
  | String c _ => Ascii.eqb c "," || Ascii.eqb c (ascii_of_nat 10)
  end.

(** A number whose printed form reads back as the number. *)
Definition prints_back `{NM : NumberModel} (n : number) : Prop :=
  forall rest, closes rest = true ->
    Json.parse_number (number_to_json n +:+ rest) = Json.POk (JNum n) rest.

(** Properties in the order in which [JSON.parse] leaves them. *)
Definition in_order `{NM : NumberModel} (props : list (string * json)) : Prop :=
  Json.build_object props = JObj props.

(** A value that [JSON.parse] reads back from what [JSON.stringify]
    writes: its numbers print back and its objects have their properties
    in order. *)
Fixpoint canonical `{NM : NumberModel} (v : json) : Prop :=
  match v with
  | JNull | JBool _ | JStr _ => True
  | JNum n => prints_back n
  | JArr l => fold_right (fun x rest => canonical x /\ rest) True l
  | JObj props =>
      in_order props
      /\ fold_right (fun kv rest => canonical (snd kv) /\ rest) True props
  end.

(** The budget [JSON.parse] needs for the text of a value. *)
Fixpoint cost `{NM : NumberModel} (v : json) : nat :=
  match v with
  | JArr l => S (fold_right (fun x n => S (Nat.max (cost x) n)) 0 l)
  | JObj props => S (fold_right (fun kv n => S (Nat.max (cost (snd kv)) n)) 0 props)
  | _ => 1
  end.

(** How a character of a string is read back from its quoted form. *)
Definition item_of (c : ascii) : Json.sitem :=
  let n := nat_of_ascii c in
  if ((n <? 32) && negb ((n =? 8) || (n =? 9) || (n =? 10) || (n =? 12) || (n =? 13)))%nat
  then Json.Unit16 (N.of_nat n)
  else Json.Raw c.

(** Text made of JSON white space. *)
Definition blank (w : string) : bool := forallb Json.is_ws (Str.chars w).

(** [JSON.parse] reads a value back from its text, whatever the depth at
    which it is printed and whatever follows it. *)
Definition reads_back `{NM : NumberModel} (v : json) : Prop :=
  forall fuel indent rest,
    blank indent = true -> closes rest = true -> cost v <= fuel ->
    Json.parse_value fuel (Json.stringify_at indent v +:+ rest) = Json.POk v rest.

(** The text that follows an element of a printed array: the elements
    after it, then the closing bracket. *)
Definition after_element `{NM : NumberModel}
    (indent rest : string) (l : list json) : string :=
  fold_right
    (fun x text =>
       "," +:+ (Str.nl +:+ indent +:+ "  ")
       +:+ Json.stringify_at (indent +:+ "  ") x +:+ text)
    ((Str.nl +:+ indent) +:+ "]" +:+ rest) l.

(** The text of a printed property. *)
Definition member_text `{NM : NumberModel} (indent : string) (kv : string * json) : string :=
  Json.quote (fst kv) +:+ ": " +:+ Json.stringify_at (indent +:+ "  ") (snd kv).

(** The text that follows a property of a printed object. *)
Definition after_member `{NM : NumberModel}
    (indent rest : string) (props : list (string * json)) : string :=
  fold_right
    (fun kv text =>
       "," +:+ (Str.nl +:+ indent +:+ "  ") +:+ member_text indent kv +:+ text)
    ((Str.nl +:+ indent) +:+ "}" +:+ rest) props.

(** ** What a run may write, and what it reads *)

(** The files the patch strategies work on, relative to the repository. *)
Definition target_files : list string := [
  "package.json";
  ".github/workflows/ci-repo.yml";
  "scripts/collect-assets.js";
  "scripts/copy-dist.js";
  "scripts/package-extensions.js";
  ".vscode/launch.json";
  "konveyor-extensions.code-workspace"
].

(** The paths a run writes files at: the outputs of the mappings, in the
    directory of the extension, and the seven targets. *)
Definition may_write `{NM : NumberModel} (ctx : GenerationContext) (t : string) : Prop :=
  (exists m, In m (fileMappings (prepareTemplateData (config ctx)))
             /\ t = Path.join (extensionDir ctx) (output m))
  \/ (exists lit, In lit target_files /\ t = Path.join (repoPath ctx) lit).

(** [fs'] has every path of [fs]: a directory is still a directory, a
    regular file is still a regular file, and has kept its content when
    its path is outside [W]. *)
Definition keeps (W : string -> Prop) (fs fs' : FS) : Prop :=
  forall t,
    match fs !! t with
    | Some Dir => fs' !! t = Some Dir
    | Some (File c) =>
        (exists c', fs' !! t = Some (File c')) /\ (~ W t -> fs' !! t = Some (File c))
    | None => True
    end.

(** A computation that, whatever it returns or throws, keeps the paths
    it finds. *)
Definition frames {A} (W : string -> Prop) (m : IO A) : Prop :=
  forall fs : FS, keeps W fs (m fs).2.

(** The same options and the same context in the other mode. *)
Definition with_dryRun (dry : bool) (o : CliOptions) : CliOptions := {|
  cli_config := cli_config o; interactive := interactive o; cli_repo := cli_repo o;
  branch := branch o; baseBranch := baseBranch o;
  dryRun := dry; force := force o; noCommit := noCommit o; push := push o;
  createPr := createPr o
|}.

Definition in_mode `{NM : NumberModel} (dry : bool) (ctx : GenerationContext)
  : GenerationContext := {|
  config := config ctx; options := with_dryRun dry (options ctx);
  repoPath := repoPath ctx; branchName := branchName ctx;
  templatesDir := templatesDir ctx; repoConfig := repoConfig ctx
|}.

(** An operation as apply mode stages it: without the rendered text. *)
Definition without_content (op : FileOperation) : FileOperation := {|
  type := type op; path := path op; description := description op;
  changes := changes op; content := None; diff := diff op
|}.

(** No template is at the path of an output. *)
Definition templates_apart `{NM : NumberModel} (ctx : GenerationContext) : bool :=
  let ms := fileMappings (prepareTemplateData (config ctx)) in
  forallb (fun m =>
             forallb (fun m' =>
                        negb (String.eqb (Path.join (templatesDir ctx) (template m))
                                (Path.join (extensionDir ctx) (output m'))))
               ms)
    ms.

(** What a later file system shows at a path that is read: what [fs0]
    shows there, or a directory where [fs0] has nothing. *)
Definition shows (fs0 fs : FS) (p : string) : Prop :=
  fs !! p = fs0 !! p \/ (fs0 !! p = None /\ fs !! p = Some Dir).

Definition agrees (R : string -> Prop) (fs0 fs : FS) : Prop :=
  forall p, R p -> shows fs0 fs p.

(** The paths a run reads: the templates and the seven targets. *)
Definition may_read `{NM : NumberModel} (ctx : GenerationContext) (p : string) : Prop :=
  (exists m, In m (fileMappings (prepareTemplateData (config ctx)))
             /\ p = Path.join (templatesDir ctx) (template m))
  \/ (exists lit, In lit target_files /\ p = Path.join (repoPath ctx) lit).

(** A strategy on the file at [p]: what it stages in apply mode, on a
    file system that shows at [p] what the run started from, its preview
    stages on the file system the run started from; and it writes
    nowhere but at [p]. *)
Definition announced (p : string) (strategy : bool -> IO (list FileOperation)) : Prop :=
  forall (fs0 fs fs' : FS) (ops : list FileOperation),
    shows fs0 fs p ->
    strategy false fs = (Return ops, fs') ->
    strategy true fs0 = (Return ops, fs0)
    /\ forall t, t <> p -> fs' !! t = fs !! t.

(** ** The template helper [extractExtName] ([generator.ts]) *)

(** [extensionId.split(".").pop() || extensionId] *)
Definition extractExtName (extensionId : string) : string :=
  let last := List.last (Str.split "." extensionId) EmptyString in
  if String.eqb last EmptyString then extensionId else last.

(** ** The language identifier ([types/config.ts], [interactive.ts]) *)

(** A character of the class [[a-z0-9-]]. *)
Definition valid_char (c : ascii) : bool :=
  Str.is_lower c || Str.is_digit c || Ascii.eqb c "-".

(** [/^[a-z][a-z0-9-]*$/.test(s)] *)
Definition valid_language (s : string) : bool :=
  match s with
  | EmptyString => false
  | String c rest =>
      Str.is_lower c && forallb valid_char (Str.chars rest)
  end.

(** ** The answers of the interactive mode ([interactive.ts]) *)

(** [input.split(",").map((s) => s.trim()).filter(Boolean)] *)
Definition comma_list (input : string) : list string :=
  List.filter (fun s => negb (String.eqb s EmptyString))
    (List.map Str.trim (Str.split "," input)).

(** An entry of such a list: not empty, without a comma, and without
    white space at either end. *)
Definition entry (s : string) : Prop :=
  s <> EmptyString /\ Str.has_char "," s = false /\ Str.trim s = s.

Definition is_ascii (c : ascii) : bool := (nat_of_ascii c <? 128)%nat.

(** ** [repo-config.ts] *)

Module Quoted.

Definition is_quote (c : ascii) : bool := Ascii.eqb c Str.dq || Ascii.eqb c "'".

Fixpoint skip_spaces (s : string) : string :=
  match s with
  | String c s' => if Str.is_space c then skip_spaces s' else s
  | EmptyString => s
  end.

(** The longest prefix without a quote, and what follows it. *)
Fixpoint span_unquoted (s : string) : string * string :=
  match s with
  | String c s' =>
      if is_quote c then (EmptyString, s)
      else let (v, r) := span_unquoted s' in (String c v, r)
  | EmptyString => (EmptyString, EmptyString)
  end.

(** A match at the start of [s] of the pattern that [readRepoConfig]
    uses for a key: the key, white space, a quote of either kind, a group
    of one or more characters that are not quotes, a quote of either
    kind.  The result is the group.  The white space and the group are
    taken as long as they can be, since what follows each cannot start
    with a character of it. *)
Definition here (key s : string) : option string :=
  if Str.starts_with key s then
    match skip_spaces (Str.after key s) with
    | String o r =>
        if is_quote o then
          match span_unquoted r with
          | (String c v, String _ _) => Some (String c v)
          | _ => None
          end
        else None
    | EmptyString => None
    end
  else None.

(** [content.match(pattern)] for that pattern: the group of the leftmost
    match, if the pattern matches. *)
Fixpoint find (key content : string) : option string :=
  match here key content with
  | Some v => Some v
  | None =>
      match content with
      | String _ rest => find key rest
      | EmptyString => None
      end
  end.

End Quoted.

Section Repository.
Context `{NM : NumberModel}.

(** The value [readRepoConfig] builds: a [RepoConfig] whose [version] is
    whatever truthy value the manifest has under that key. *)
Record RepoValues : Type := {
  read_version : json;
  read_releaseTag : string;
  read_csharpReleaseTag : option string;
  read_org : string;
  read_repo : string;
  read_rulesetOrg : string;
  read_rulesetRepo : string
}.

Definition default_values : RepoValues := {|
  read_version := JStr "0.4.0";
  read_releaseTag := "v0.8.0-beta.5";
  read_csharpReleaseTag := None;
  read_org := "konveyor";
  read_repo := "kai";
  read_rulesetOrg := "konveyor";
  read_rulesetRepo := "rulesets"
|}.

(** The value at the type the generator is given it; the generator reads
    [org], [repo] and [releaseTag], and the version is a text when the
    manifest is well formed. *)
Definition as_RepoConfig (v : RepoValues) : RepoConfig := {|
  version := to_string (read_version v);
  repo_releaseTag := read_releaseTag v;
  csharpReleaseTag := read_csharpReleaseTag v;
  org := read_org v;
  repo := read_repo v;
  rulesetOrg := read_rulesetOrg v;
  rulesetRepo := read_rulesetRepo v
|}.

(** [try { body } catch (e) { }], for a body that changes the value it
    works on only after its last step that can throw: [otherwise] is that
    value as it was. *)
Definition attempt {A} (body : IO A) (otherwise : A) : IO A := fun fs =>
  match body fs with
  | (Return a, fs') => (Return a, fs')
  | (Throw _, fs') => (Return otherwise, fs')
  end.

Definition with_version (x : json) (config : RepoValues) : RepoValues := {|
  read_version := x;
  read_releaseTag := read_releaseTag config;
  read_csharpReleaseTag := read_csharpReleaseTag config;
  read_org := read_org config;
  read_repo := read_repo config;
  read_rulesetOrg := read_rulesetOrg config;
  read_rulesetRepo := read_rulesetRepo config
|}.

(** The version of the root manifest. *)
Definition read_manifest (repoPath : string) (config : RepoValues) : IO RepoValues :=
  let rootPkgPath := Path.join repoPath "package.json" in
  let! found := exists_ rootPkgPath in
  if found then
    attempt
      (let! text := Fs.readFile rootPkgPath in
       let! rootPkg := lift (Json.parse text) in
       let! v := lift (get rootPkg "version") in
       ret (match v with
            | Some x => if truthy x then with_version x config else config
            | None => config
            end))
      config
  else ret config.

(** [if (m) { config.key = m[1]; }] *)
Definition or_keep (m : option string) (current : string) : string :=
  match m with
  | Some v => v
  | None => current
  end.

Definition with_settings (content : string) (config : RepoValues) : RepoValues := {|
  read_version := read_version config;
  read_releaseTag := or_keep (Quoted.find "releaseTag:" content) (read_releaseTag config);
  read_csharpReleaseTag :=
    match Quoted.find "csharpReleaseTag:" content with
    | Some v => Some v
    | None => read_csharpReleaseTag config
    end;
  read_org := or_keep (Quoted.find "org:" content) (read_org config);
  read_repo := or_keep (Quoted.find "repo:" content) (read_repo config);
  read_rulesetOrg := or_keep (Quoted.find "rulesetOrg:" content) (read_rulesetOrg config);
  read_rulesetRepo := or_keep (Quoted.find "rulesetRepo:" content) (read_rulesetRepo config)
|}.

(** The settings of [scripts/collect-assets.js]. *)
Definition read_assets (repoPath : string) (config : RepoValues) : IO RepoValues :=
  let collectAssetsPath := Path.join repoPath "scripts/collect-assets.js" in
  let! found := exists_ collectAssetsPath in
  if found then
    attempt
      (let! content := Fs.readFile collectAssetsPath in
       ret (with_settings content config))
      config
  else ret config.

(** [readRepoConfig] *)
Definition readRepoConfig (repoPath : string) : IO RepoValues :=
  let! config := read_manifest repoPath default_values in
  read_assets repoPath config.

(** The loop of [getExistingExtensions] over the workspaces: an element
    that is not a text throws a [TypeError], which ends the loop and
    leaves the names pushed so far. *)
Fixpoint existing (workspaces : list json) : list string :=
  match workspaces with
  | [] => []
  | JStr ws :: rest =>
      if Str.starts_with "vscode/" ws && negb (String.eqb ws "vscode/core")
      then Replace.replace "vscode/" [] EmptyString ws :: existing rest
      else existing rest
  | _ :: _ => []
  end.

(** [getExistingExtensions]; workspaces that are a text are iterated by
    character, and no character starts with [vscode/]; any other value
    that is not an array is not iterable. *)
Definition getExistingExtensions (repoPath : string) : IO (list string) :=
  let rootPkgPath := Path.join repoPath "package.json" in
  let! found := exists_ rootPkgPath in
  if found then
    attempt
      (let! text := Fs.readFile rootPkgPath in
       let! rootPkg := lift (Json.parse text) in
       let! workspaces := lift (get rootPkg "workspaces") in
       ret (match workspaces with
            | Some (JArr l) => existing l
            | _ => []
            end))
      []
  else ret [].

End Repository.

(** A text that can stand between quotes: it is not empty and holds no
    quote of either kind. *)
Definition quotable (s : string) : bool :=
  negb (String.eqb s EmptyString)
  && forallb (fun c => negb (Quoted.is_quote c)) (Str.chars s).


(** A launch configuration as the code declares it: its list of
    extension paths, when it has one, holds texts. *)
Definition paths_are_texts `{NM : NumberModel} (c : json) : Prop :=
  forall props paths,
    c = JObj props ->
    lookup_prop "extensionDevelopmentPath" props = Some (JArr paths) ->
    Forall (fun p => exists t, p = JStr t) paths.

(** ** Names made from a language *)

Definition is_alnum (c : ascii) : bool :=
  Str.is_lower c || Str.is_upper c || Str.is_digit c.

(** The Pascal case of a language, character by character: the hyphens
    are dropped, and the first character and the one after each hyphen
    are put in upper case.  [fresh] tells that the next character starts
    a word. *)
Fixpoint pascal_chars (cs : list ascii) (fresh : bool) : string :=
  match cs with
  | [] => EmptyString
  | c :: cs' =>
      if Ascii.eqb c "-" then pascal_chars cs' true
      else String (if fresh then Str.upper_char c else c) (pascal_chars cs' false)
  end.

(** At most one operation, of a given type. *)
Definition at_most_one (k : OperationType) (ops : list FileOperation) : Prop :=
  length ops <= 1 /\ Forall (fun op => type op = k) ops.

(** The manifest strategy cannot patch this text: it is not JSON, or the
    patch of its value throws. *)
Definition manifest_rejected `{NM : NumberModel} (lang text : string) : bool :=
  match Json.parse text with
  | Return rootPkg =>
      match patch_manifest lang rootPkg with
      | Return _ => false
      | Throw _ => true
      end
  | Throw _ => true
  end.

(** * Properties *)

#[local] Arguments String.append !_ _ / : simpl nomatch.

(** ** Computations that only read *)

Section ReadOnly.

Lemma reads_only_ret {A} (a : A) : reads_only (ret a).
Proof. intros fs. reflexivity. Qed.

Lemma reads_only_throw {A} (e : string) : reads_only (@throw A e).
Proof. intros fs. reflexivity. Qed.

Lemma reads_only_lift {A} (o : outcome A) : reads_only (lift o).
Proof. intros fs. reflexivity. Qed.

Lemma reads_only_exists (p : string) : reads_only (exists_ p).
Proof. intros fs. reflexivity. Qed.

Lemma reads_only_readFile (p : string) : reads_only (Fs.readFile p).
Proof.
  intros fs. unfold Fs.readFile.
  destruct (fs !! p) as [[c|]|]; reflexivity.
Qed.

Lemma reads_only_bind {A B} (m : IO A) (k : A -> IO B) :
  reads_only m -> (forall a, reads_only (k a)) -> reads_only (bind m k).
Proof.
  intros Hm Hk fs. unfold bind.
  specialize (Hm fs). destruct (m fs) as [[a|e] fs1]; simpl in Hm; subst fs1.
  - apply Hk.
  - reflexivity.
Qed.

Lemma reads_only_dry (step : IO unit) : reads_only (unless_dry true step).
Proof. apply reads_only_ret. Qed.

End ReadOnly.

Ltac reads_only :=
  repeat first
    [ apply reads_only_ret
    | apply reads_only_throw
    | apply reads_only_lift
    | apply reads_only_exists
    | apply reads_only_readFile
    | apply reads_only_dry
    | apply reads_only_bind; [ | intros ? ]
    | match goal with
      | |- reads_only (if ?b then _ else _) => destruct b
      end ].

Section Preview.
Context `{NM : NumberModel}.
Variable render : engine.

Lemma emit_reads_only tdir edir data m : reads_only (emit render tdir edir data true m).
Proof. unfold emit. reads_only. Qed.

Lemma emit_all_reads_only tdir edir data ms :
  reads_only (emit_all render tdir edir data true ms).
Proof.
  induction ms as [|m ms IH]; simpl.
  - apply reads_only_ret.
  - apply reads_only_bind; [apply emit_reads_only|]. intros ops.
    apply reads_only_bind; [exact IH|]. intros more. apply reads_only_ret.
Qed.

Lemma modifyExistingFiles_reads_only repo cfg rc :
  reads_only (modifyExistingFiles repo cfg rc true).
Proof.
  unfold modifyExistingFiles, updateRootPackage, updateCiWorkflow, updateCollectAssets,
    updateCopyDist, updatePackageExtensions, updateLaunch, updateWorkspace.
  reads_only.
Qed.

(** C6. In preview mode a run leaves the file system exactly as it was:
    every path names the same file with the same content, or the same
    directory, as before, and no path is added. *)
Theorem preview_writes_nothing (ctx : GenerationContext) (fs : FS) :
  dryRun (options ctx) = true ->
  (generateExtension render ctx fs).2 = fs.
Proof.
  intros Hdry. unfold generateExtension, make_directories, generateNewFiles.
  rewrite Hdry.
  destruct (Fs.existsSync (extensionDir ctx) fs && negb (force (options ctx)));
    [reflexivity|].
  cbn [unless_dry ret].
  pose proof (emit_all_reads_only (templatesDir ctx) (extensionDir ctx)
                (prepareTemplateData (config ctx))
                (fileMappings (prepareTemplateData (config ctx))) fs) as H1.
  destruct (emit_all _ _ _ _ _ _ fs) as [[ops|e] fs2]; simpl in H1; subst fs2;
    [|reflexivity].
  pose proof (modifyExistingFiles_reads_only (repoPath ctx) (config ctx)
                (repoConfig ctx) fs) as H2.
  destruct (modifyExistingFiles _ _ _ _ fs) as [[ops'|e] fs3]; simpl in H2; subst fs3;
    reflexivity.
Qed.

End Preview.

(** The preview of the first scenario: the fresh repository is unchanged. *)
Lemma preview_writes_nothing_fresh :
  (generateExtension PlainEngine.render
     (Scenario.context Scenario.python (Scenario.flags true false)) Scenario.fresh).2
  = Scenario.fresh.
Proof. apply preview_writes_nothing. reflexivity. Defined.

(** ** Strings *)

Section StringFacts.

Lemma starts_with_app (p s : string) : Str.starts_with p (p +:+ s) = true.
Proof.
  induction p as [|c p IH]; simpl; [reflexivity|].
  rewrite Ascii.eqb_refl. exact IH.
Qed.

Lemma after_app (p s : string) : Str.after p (p +:+ s) = s.
Proof. induction p as [|c p IH]; simpl; [reflexivity | exact IH]. Qed.

Lemma starts_with_split (p s : string) :
  Str.starts_with p s = true -> s = p +:+ Str.after p s.
Proof.
  revert s. induction p as [|c p IH]; intros s H; simpl in *; [reflexivity|].
  destruct s as [|d s]; [discriminate|].
  destruct (Ascii.eqb_spec c d) as [->|]; [|discriminate].
  simpl. f_equal. apply IH. exact H.
Qed.

Lemma app_assoc_s (a b c : string) : (a +:+ b) +:+ c = a +:+ (b +:+ c).
Proof. induction a as [|x a IH]; simpl; [reflexivity | now rewrite IH]. Qed.

Lemma app_empty_r (a : string) : a +:+ EmptyString = a.
Proof. induction a as [|x a IH]; simpl; [reflexivity | now rewrite IH]. Qed.

Lemma chars_app (a b : string) : Str.chars (a +:+ b) = (Str.chars a ++ Str.chars b)%list.
Proof.
  induction a as [|x a IH]; simpl; [reflexivity|].
  unfold Str.chars in *. simpl. now rewrite IH.
Qed.



Lemma includes_here (s needle : string) :
  Str.starts_with needle s = true -> Str.includes s needle = true.
Proof. intros H. destruct s; simpl in *; rewrite H; reflexivity. Qed.

(** A text includes each of its parts. *)
Lemma includes_app (a b c : string) : Str.includes (a +:+ b +:+ c) b = true.
Proof.
  induction a as [|x a IH]; simpl.
  - apply includes_here, starts_with_app.
  - rewrite IH. apply orb_true_r.
Qed.

Lemma includes_split (s needle : string) :
  Str.includes s needle = true -> exists a c, s = a +:+ needle +:+ c.
Proof.
  induction s as [|x s IH]; simpl; intros H.
  - rewrite orb_false_r in H. exists EmptyString, EmptyString.
    destruct needle; [reflexivity | discriminate].
  - apply orb_true_iff in H as [H|H].
    + exists EmptyString, (Str.after needle (String x s)).
      simpl. now apply starts_with_split.
    + destruct (IH H) as (a & c & ->). now exists (String x a), c.
Qed.

Lemma find_Some (needle s pre post : string) :
  Str.find needle s = Some (pre, post) -> s = pre +:+ needle +:+ post.
Proof.
  revert pre post. induction s as [|x s IH]; intros pre post; simpl.
  - destruct (Str.starts_with needle EmptyString) eqn:E; [|discriminate].
    intros [= <- <-]. now apply starts_with_split.
  - destruct (Str.starts_with needle (String x s)) eqn:E.
    + intros [= <- <-]. now apply starts_with_split.
    + destruct (Str.find needle s) as [[pre' post']|]; [|discriminate].
      intros [= <- <-]. simpl. f_equal. now apply IH.
Qed.

Lemma find_None (needle s : string) :
  Str.find needle s = None <-> Str.includes s needle = false.
Proof.
  induction s as [|x s IH]; simpl.
  - destruct (Str.starts_with needle EmptyString); simpl; split; congruence.
  - destruct (Str.starts_with needle (String x s)); simpl.
    + split; discriminate.
    + rewrite <- IH. destruct (Str.find needle s) as [[? ?]|]; split; congruence.
Qed.

End StringFacts.

(** ** [JSON.parse] never runs out of budget *)

Section ParserBudget.
Context `{NM : NumberModel}.

Lemma skip_ws_length (s : string) : String.length (Json.skip_ws s) <= String.length s.
Proof.
  induction s as [|c s IH]; simpl; [lia|].
  destruct (Json.is_ws c); simpl; lia.
Qed.

Lemma span_digits_length (s d r : string) :
  Json.span_digits s = (d, r) -> String.length s = String.length d + String.length r.
Proof.
  revert d r. induction s as [|c s IH]; simpl; intros d r.
  - intros [= <- <-]. reflexivity.
  - destruct (Str.is_digit c).
    + destruct (Json.span_digits s) as [d' r'] eqn:E. intros [= <- <-].
      simpl. rewrite (IH d' r' eq_refl). lia.
    + intros [= <- <-]. reflexivity.
Qed.

Lemma parse_items_shorter (s : string) (l : list Json.sitem) (r : string) :
  Json.parse_items s = Some (l, r) -> String.length r < String.length s.
Proof.
  remember (String.length s) as n eqn:Hn. revert s l r Hn.
  induction n as [n IH] using lt_wf_ind. intros s l r Hn.
  destruct s as [|c s]; simpl; [discriminate|].
  destruct (Ascii.eqb c Str.dq); [intros [= <- <-]; simpl in *; lia|].
  destruct (Ascii.eqb c Str.bs).
  - destruct s as [|e s]; [discriminate|].
    destruct (Ascii.eqb e "u").
    + destruct s as [|h1 [|h2 [|h3 [|h4 s]]]]; try discriminate.
      destruct (Json.hex4 h1 h2 h3 h4); [|discriminate].
      destruct (Json.parse_items s) as [[l' r']|] eqn:E; [|discriminate].
      intros [= <- <-].
      assert (String.length r' < String.length s)
        by (eapply (IH (String.length s)); [simpl in Hn; lia | reflexivity | exact E]).
      simpl in *. lia.
    + destruct (Json.simple_escape e); [|discriminate].
      destruct (Json.parse_items s) as [[l' r']|] eqn:E; [|discriminate].
      intros [= <- <-].
      assert (String.length r' < String.length s)
        by (eapply (IH (String.length s)); [simpl in Hn; lia | reflexivity | exact E]).
      simpl in *. lia.
  - destruct (nat_of_ascii c <? 32)%nat; [discriminate|].
    destruct (Json.parse_items s) as [[l' r']|] eqn:E; [|discriminate].
    intros [= <- <-].
    assert (String.length r' < String.length s)
      by (eapply (IH (String.length s)); [simpl in Hn; lia | reflexivity | exact E]).
    simpl in *. lia.
Qed.

Lemma parse_string_shorter (s k r : string) :
  Json.parse_string s = Json.POk k r -> String.length r < String.length s.
Proof.
  unfold Json.parse_string.
  destruct (Json.parse_items s) as [[l r']|] eqn:E; [|discriminate].
  intros [= _ <-]. eapply parse_items_shorter; eassumption.
Qed.

Lemma parse_string_fuel (s : string) : Json.parse_string s <> Json.PFuel.
Proof. unfold Json.parse_string. destruct (Json.parse_items s) as [[? ?]|]; discriminate. Qed.

Lemma after_length (p s : string) : String.length (Str.after p s) <= String.length s.
Proof.
  revert s. induction p as [|c p IH]; intros [|d s]; simpl; try lia.
  specialize (IH s). lia.
Qed.

Lemma expect_shorter (lit : string) (v v' : json) (s r : string) :
  lit <> EmptyString ->
  Json.expect lit v s = Json.POk v' r -> String.length r < String.length s.
Proof.
  unfold Json.expect. intros Hlit.
  destruct (Str.starts_with lit s) eqn:E; [|discriminate].
  intros [= _ <-]. destruct lit as [|c lit]; [contradiction|].
  destruct s as [|d s]; [discriminate|]. simpl.
  pose proof (after_length lit s). lia.
Qed.

Lemma expect_fuel (lit : string) (v : json) (s : string) :
  Json.expect lit v s <> Json.PFuel.
Proof. unfold Json.expect. destruct (Str.starts_with lit s); discriminate. Qed.

Lemma take_sign_length (s sign r : string) :
  Json.take_sign s = (sign, r) -> String.length r <= String.length s.
Proof.
  unfold Json.take_sign. destruct s as [|c s]; [intros [= _ <-]; lia|].
  destruct (Ascii.eqb c "-"); intros [= _ <-]; simpl; lia.
Qed.

Lemma take_fraction_length (s frac r : string) (ok : bool) :
  Json.take_fraction s = (frac, r, ok) -> String.length r <= String.length s.
Proof.
  unfold Json.take_fraction. destruct s as [|c s]; [intros [= _ <- _]; lia|].
  destruct (Ascii.eqb c ".").
  - destruct (Json.span_digits s) as [f r'] eqn:E. apply span_digits_length in E.
    intros [= _ <- _]. simpl. lia.
  - intros [= _ <- _]. lia.
Qed.

Lemma take_exponent_length (s e r : string) (ok : bool) :
  Json.take_exponent s = (e, r, ok) -> String.length r <= String.length s.
Proof.
  unfold Json.take_exponent. destruct s as [|c s]; [intros [= _ <- _]; lia|].
  destruct (Ascii.eqb c "e" || Ascii.eqb c "E"); [|intros [= _ <- _]; lia].
  destruct s as [|c' s'].
  - simpl. intros [= _ <- _]. simpl. lia.
  - destruct (Ascii.eqb c' "+" || Ascii.eqb c' "-").
    + destruct (Json.span_digits s') as [d r2] eqn:E. apply span_digits_length in E.
      intros [= _ <- _]. simpl. lia.
    + destruct (Json.span_digits (String c' s')) as [d r2] eqn:E.
      apply span_digits_length in E. intros [= _ <- _]. simpl in *. lia.
Qed.

Lemma parse_number_fuel (s : string) : Json.parse_number s <> Json.PFuel.
Proof.
  unfold Json.parse_number.
  destruct (Json.take_sign s) as [sign s1].
  destruct (Json.span_digits s1) as [[|d ds] s2]; [discriminate|].
  destruct (Ascii.eqb d "0" && negb (String.eqb ds EmptyString)); [discriminate|].
  destruct (Json.take_fraction s2) as [[frac s3] ok1].
  destruct (Json.take_exponent s3) as [[e s4] ok2].
  destruct (ok1 && ok2); discriminate.
Qed.

Lemma parse_number_shorter (s r : string) (v : json) :
  Json.parse_number s = Json.POk v r -> String.length r < String.length s.
Proof.
  unfold Json.parse_number.
  destruct (Json.take_sign s) as [sign s1] eqn:E0. apply take_sign_length in E0.
  destruct (Json.span_digits s1) as [[|d ds] s2] eqn:E1; [discriminate|].
  apply span_digits_length in E1.
  destruct (Ascii.eqb d "0" && negb (String.eqb ds EmptyString)); [discriminate|].
  destruct (Json.take_fraction s2) as [[frac s3] ok1] eqn:E2.
  apply take_fraction_length in E2.
  destruct (Json.take_exponent s3) as [[e s4] ok2] eqn:E3.
  apply take_exponent_length in E3.
  destruct (ok1 && ok2); [|discriminate].
  intros [= _ <-]. simpl in E1. lia.
Qed.

Lemma skip_ws_rest (s r : string) (c : ascii) :
  Json.skip_ws s = String c r -> String.length r < String.length s.
Proof. intros H. pose proof (skip_ws_length s) as L. rewrite H in L. simpl in L. lia. Qed.

Ltac parser_cases H :=
  repeat match type of H with
         | context [match ?x with _ => _ end] => destruct x eqn:?
         end;
  try discriminate H.

Ltac parser_lengths :=
  repeat match goal with
         | E : Json.skip_ws _ = String _ _ |- _ => apply skip_ws_rest in E
         | E : Json.parse_string _ = Json.POk _ _ |- _ => apply parse_string_shorter in E
         | E : Json.parse_number _ = Json.POk _ _ |- _ => apply parse_number_shorter in E
         | E : Json.expect _ _ _ = Json.POk _ _ |- _ =>
             apply expect_shorter in E; [|discriminate]
         end.

(** What a parser returns is shorter than what it was given. *)
Lemma parse_shorter (f : nat) :
  (forall s v r, Json.parse_value f s = Json.POk v r ->
                 String.length r < String.length s)
  /\ (forall s vs r, Json.parse_elements f s = Json.POk vs r ->
                     String.length r < String.length s)
  /\ (forall s ms r, Json.parse_members f s = Json.POk ms r ->
                     String.length r < String.length s).
Proof.
  induction f as [|f (IHv & IHe & IHm)]; [repeat split; discriminate|].
  repeat split; intros s x r H; simpl in H; parser_cases H;
    try (injection H as _ <-);
    repeat match goal with
           | E : Json.parse_value f _ = Json.POk _ _ |- _ => apply IHv in E
           | E : Json.parse_elements f _ = Json.POk _ _ |- _ => apply IHe in E
           | E : Json.parse_members f _ = Json.POk _ _ |- _ => apply IHm in E
           end;
    parser_lengths; simpl in *; lia.
Qed.

(** With twice the length of the text as budget, no parser runs out. *)
Lemma parse_fuel (f : nat) :
  (forall s, 2 * String.length s + 1 <= f -> Json.parse_value f s <> Json.PFuel)
  /\ (forall s, 2 * String.length s + 2 <= f -> Json.parse_elements f s <> Json.PFuel)
  /\ (forall s, 2 * String.length s + 2 <= f -> Json.parse_members f s <> Json.PFuel).
Proof.
  induction f as [|f (IHv & IHe & IHm)]; [repeat split; intros s Hf; lia|].
  destruct (parse_shorter f) as (Sv & Se & Sm).
  repeat split; intros s Hf H; simpl in H; parser_cases H;
    try (now apply parse_string_fuel in H);
    try (now apply parse_number_fuel in H);
    try (now apply expect_fuel in H);
    repeat match goal with
           | E : Json.parse_string _ = Json.PFuel |- _ => now apply parse_string_fuel in E
           | E : Json.parse_value f _ = Json.POk _ _ |- _ => apply Sv in E
           | E : Json.parse_elements f _ = Json.POk _ _ |- _ => apply Se in E
           | E : Json.parse_members f _ = Json.POk _ _ |- _ => apply Sm in E
           end;
    parser_lengths;
    match goal with
    | E : Json.parse_value f _ = Json.PFuel |- _ => apply IHv in E; [exact E|]
    | E : Json.parse_elements f _ = Json.PFuel |- _ => apply IHe in E; [exact E|]
    | E : Json.parse_members f _ = Json.PFuel |- _ => apply IHm in E; [exact E|]
    end;
    simpl in *; lia.
Qed.

(** [JSON.parse] throws only on text that is not JSON. *)
Lemma parse_within_budget (text : string) :
  Json.parse_value (2 * String.length text + 2) text <> Json.PFuel.
Proof. apply (parse_fuel (2 * String.length text + 2)). lia. Qed.

End ParserBudget.

(** ** [JSON.parse] reads back what [JSON.stringify] writes *)

Section Induction.
Context `{NM : NumberModel}.

(** Induction on a value, with the hypothesis for the elements of an
    array and for the values of an object. *)
Lemma json_induction (P : json -> Prop) :
  P JNull ->
  (forall b, P (JBool b)) ->
  (forall n, P (JNum n)) ->
  (forall s, P (JStr s)) ->
  (forall l, Forall P l -> P (JArr l)) ->
  (forall props, Forall (fun kv => P (snd kv)) props -> P (JObj props)) ->
  forall v, P v.
Proof.
  intros Hnull Hbool Hnum Hstr Harr Hobj.
  fix IH 1. intros [|b|n|s|l|props].
  - exact Hnull.
  - apply Hbool.
  - apply Hnum.
  - apply Hstr.
  - apply Harr. induction l as [|x l IHl]; constructor; [apply IH | exact IHl].
  - apply Hobj. induction props as [|[k x] props IHl]; constructor;
      [apply IH | exact IHl].
Qed.

End Induction.

Section QuotedStrings.

Lemma parse_items_quote_char (c : ascii) (t : string) :
  Json.parse_items (Json.quote_char c +:+ t)
  = match Json.parse_items t with
    | Some (l, rest) => Some (item_of c :: l, rest)
    | None => None
    end.
Proof.
  destruct c as [[] [] [] [] [] [] [] []]; reflexivity.
Qed.

Lemma items_to_chars_item (c : ascii) (l : list Json.sitem) :
  Json.items_to_chars (item_of c :: l) = c :: Json.items_to_chars l.
Proof.
  destruct l as [|[c'|n'] l];
    destruct c as [[] [] [] [] [] [] [] []]; reflexivity.
Qed.

Lemma parse_items_quote_body (s rest : string) :
  Json.parse_items (Json.quote_body s +:+ String Str.dq rest)
  = Some (List.map item_of (Str.chars s), rest).
Proof.
  induction s as [|c s IH]; [reflexivity|].
  cbn [Json.quote_body]. rewrite app_assoc_s, parse_items_quote_char, IH. reflexivity.
Qed.

Lemma items_to_chars_items (cs : list ascii) :
  Json.items_to_chars (List.map item_of cs) = cs.
Proof.
  induction cs as [|c cs IH]; [reflexivity|].
  cbn [List.map]. now rewrite items_to_chars_item, IH.
Qed.

(** A quoted string reads back as the string. *)
Lemma parse_string_quote (s rest : string) :
  Json.parse_string (Json.quote_body s +:+ String Str.dq rest) = Json.POk s rest.
Proof.
  unfold Json.parse_string. rewrite parse_items_quote_body, items_to_chars_items.
  unfold Str.of_chars, Str.chars. now rewrite string_of_list_ascii_of_string.
Qed.

End QuotedStrings.

Section ReadBack.
Context `{NM : NumberModel}.

Lemma skip_ws_blank (w s : string) :
  blank w = true -> Json.skip_ws (w +:+ s) = Json.skip_ws s.
Proof.
  unfold blank. induction w as [|c w IH]; [reflexivity|].
  cbn [Str.chars list_ascii_of_string forallb String.append Json.skip_ws].
  intros [Hc Hw]%andb_true_iff. rewrite Hc. now apply IH.
Qed.

Lemma blank_app (a b : string) : blank (a +:+ b) = blank a && blank b.
Proof.
  unfold blank. induction a as [|c a IH]; [reflexivity|].
  cbn [Str.chars list_ascii_of_string forallb String.append].
  unfold Str.chars in IH. now rewrite IH, andb_assoc.
Qed.

Lemma blank_inner (indent : string) :
  blank indent = true -> blank (Str.nl +:+ indent +:+ "  ") = true.
Proof.
  intros H. rewrite !blank_app, H. reflexivity.
Qed.

Lemma parse_value_blank (fuel : nat) (w s : string) :
  blank w = true -> Json.parse_value fuel (w +:+ s) = Json.parse_value fuel s.
Proof.
  intros H. destruct fuel as [|f]; [reflexivity|].
  cbn [Json.parse_value]. now rewrite skip_ws_blank.
Qed.

Lemma parse_elements_blank (fuel : nat) (w s : string) :
  blank w = true -> Json.parse_elements fuel (w +:+ s) = Json.parse_elements fuel s.
Proof.
  intros H. destruct fuel as [|f]; [reflexivity|].
  cbn [Json.parse_elements]. now rewrite parse_value_blank.
Qed.

Lemma parse_members_blank (fuel : nat) (w s : string) :
  blank w = true -> Json.parse_members fuel (w +:+ s) = Json.parse_members fuel s.
Proof.
  intros H. destruct fuel as [|f]; [reflexivity|].
  cbn [Json.parse_members]. now rewrite skip_ws_blank.
Qed.

(** What the first character of a number tells the parser. *)
Lemma number_head (c : ascii) :
  Ascii.eqb c "-" || Str.is_digit c = true ->
  Json.is_ws c = false
  /\ Ascii.eqb c "{" = false /\ Ascii.eqb c "[" = false
  /\ Ascii.eqb c Str.dq = false /\ Ascii.eqb c "t" = false
  /\ Ascii.eqb c "f" = false /\ Ascii.eqb c "n" = false
  /\ Ascii.eqb c "]" = false /\ Ascii.eqb c "}" = false.
Proof.
  destruct c as [[] [] [] [] [] [] [] []]; intros H;
    solve [discriminate H | repeat split; reflexivity].
Qed.

Lemma prints_back_head (n : number) :
  prints_back n ->
  exists c t, number_to_json n = String c t
              /\ Ascii.eqb c "-" || Str.is_digit c = true.
Proof.
  intros H. specialize (H EmptyString eq_refl).
  destruct (number_to_json n) as [|c t]; [discriminate H|].
  exists c, t. split; [reflexivity|].
  cbn [String.append] in H. unfold Json.parse_number, Json.take_sign in H.
  destruct (Ascii.eqb c "-"); [reflexivity|].
  cbn [Json.span_digits] in H.
  destruct (Str.is_digit c); [reflexivity | discriminate H].
Qed.

End ReadBack.

Section ReadBackValue.
Context `{NM : NumberModel}.

Lemma array_text (indent rest : string) (x : json) (l : list json) :
  Json.stringify_at indent (JArr (x :: l)) +:+ rest
  = String "[" ((Str.nl +:+ indent +:+ "  ")
                +:+ Json.stringify_at (indent +:+ "  ") x
                +:+ after_element indent rest l).
Proof.
  cbn [Json.stringify_at].
  set (g := fun y => (indent +:+ "  ") +:+ Json.stringify_at (indent +:+ "  ") y).
  assert (E : forall l x,
             Str.join ("," +:+ Str.nl) (List.map g (x :: l))
             +:+ (Str.nl +:+ indent) +:+ "]" +:+ rest
             = g x +:+ after_element indent rest l).
  { clear. intros l. induction l as [|y l IH]; intros x.
    - reflexivity.
    - change (Str.join ("," +:+ Str.nl) (List.map g (x :: y :: l)))
        with (g x +:+ ("," +:+ Str.nl) +:+ Str.join ("," +:+ Str.nl) (List.map g (y :: l))).
      rewrite !app_assoc_s, IH. cbn [after_element fold_right].
      unfold g. now rewrite !app_assoc_s. }
  specialize (E l x). unfold g in E.
  rewrite !app_assoc_s in *. cbn [String.append]. f_equal. f_equal.
  exact E.
Qed.

Lemma object_text (indent rest : string) (kv : string * json)
    (props : list (string * json)) :
  Json.stringify_at indent (JObj (kv :: props)) +:+ rest
  = String "{" ((Str.nl +:+ indent +:+ "  ")
                +:+ member_text indent kv
                +:+ after_member indent rest props).
Proof.
  cbn [Json.stringify_at].
  set (g := fun kv : string * json =>
              (indent +:+ "  ") +:+ Json.quote (fst kv) +:+ ": "
              +:+ Json.stringify_at (indent +:+ "  ") (snd kv)).
  assert (E : forall l x,
             Str.join ("," +:+ Str.nl) (List.map g (x :: l))
             +:+ (Str.nl +:+ indent) +:+ "}" +:+ rest
             = g x +:+ after_member indent rest l).
  { clear. intros l. induction l as [|y l IH]; intros x.
    - reflexivity.
    - change (Str.join ("," +:+ Str.nl) (List.map g (x :: y :: l)))
        with (g x +:+ ("," +:+ Str.nl) +:+ Str.join ("," +:+ Str.nl) (List.map g (y :: l))).
      rewrite !app_assoc_s, IH. cbn [after_member fold_right].
      unfold g, member_text. now rewrite !app_assoc_s. }
  specialize (E props kv). unfold g in E. unfold member_text.
  rewrite !app_assoc_s in *. cbn [String.append]. f_equal. f_equal.
  exact E.
Qed.

(** The first character of a printed value is not white space and opens
    a value. *)
Lemma stringify_head (indent : string) (v : json) :
  canonical v ->
  exists c t, Json.stringify_at indent v = String c t
              /\ Json.is_ws c = false
              /\ Ascii.eqb c "]" = false /\ Ascii.eqb c "}" = false.
Proof.
  destruct v as [|[]|n|s|[|x l]|[|kv props]]; intros Hv;
    try (eexists _, _; split; [reflexivity | repeat split; reflexivity]).
  destruct (prints_back_head n Hv) as (c & t & E & Hc).
  exists c, t. cbn [Json.stringify_at]. split; [exact E|].
  destruct (number_head c Hc) as (? & ? & ? & ? & ? & ? & ? & ? & ?). auto.
Qed.

Lemma closes_after_element (indent rest : string) (l : list json) :
  closes (after_element indent rest l) = true.
Proof. destruct l; reflexivity. Qed.

Lemma closes_after_member (indent rest : string) (props : list (string * json)) :
  closes (after_member indent rest props) = true.
Proof. destruct props; reflexivity. Qed.

Lemma after_element_cons (indent rest : string) (y : json) (l : list json) :
  after_element indent rest (y :: l)
  = String "," ((Str.nl +:+ indent +:+ "  ")
                +:+ Json.stringify_at (indent +:+ "  ") y
                +:+ after_element indent rest l).
Proof. reflexivity. Qed.

Lemma after_member_cons (indent rest : string) (kv : string * json)
    (props : list (string * json)) :
  after_member indent rest (kv :: props)
  = String "," ((Str.nl +:+ indent +:+ "  ")
                +:+ member_text indent kv
                +:+ after_member indent rest props).
Proof. reflexivity. Qed.

Lemma elements_read_back (indent rest : string) :
  blank indent = true ->
  forall (l : list json) (x : json) (fuel : nat),
    Forall reads_back (x :: l) ->
    fold_right (fun x n => S (Nat.max (cost x) n)) 0 (x :: l) <= fuel ->
    Json.parse_elements fuel
      (Json.stringify_at (indent +:+ "  ") x +:+ after_element indent rest l)
    = Json.POk (x :: l) rest.
Proof.
  intros Hi. induction l as [|y l IH]; intros x fuel Hall Hfuel;
    inversion Hall as [|? ? Hx Hl]; subst;
    cbn [fold_right] in Hfuel;
    (destruct fuel as [|f]; [lia|]);
    cbn [Json.parse_elements];
    (rewrite Hx;
       [| rewrite blank_app, Hi; reflexivity | apply closes_after_element | lia]).
  - cbn [after_element fold_right]. rewrite skip_ws_blank by (rewrite blank_app, Hi; reflexivity).
    reflexivity.
  - rewrite after_element_cons.
    change (Json.skip_ws (String "," ?t)) with (String "," t).
    change (Ascii.eqb "," ",") with true. cbv iota.
    rewrite parse_elements_blank by (apply blank_inner; exact Hi).
    rewrite IH; [reflexivity | exact Hl | cbn [fold_right]; lia].
Qed.

Lemma member_text_app (indent : string) (k : string) (v : json) (t : string) :
  member_text indent (k, v) +:+ t
  = String Str.dq
      (Json.quote_body k
       +:+ String Str.dq
             (String ":" (" " +:+ Json.stringify_at (indent +:+ "  ") v +:+ t))).
Proof.
  unfold member_text, Json.quote, Str.dquote. cbn [fst snd].
  rewrite !app_assoc_s. reflexivity.
Qed.

Lemma members_read_back (indent rest : string) :
  blank indent = true ->
  forall (props : list (string * json)) (kv : string * json) (fuel : nat),
    Forall (fun kv => reads_back (snd kv)) (kv :: props) ->
    fold_right (fun kv n => S (Nat.max (cost (snd kv)) n)) 0 (kv :: props) <= fuel ->
    Json.parse_members fuel
      (member_text indent kv +:+ after_member indent rest props)
    = Json.POk (kv :: props) rest.
Proof.
  intros Hi. induction props as [|kv' props IH]; intros [k v] fuel Hall Hfuel;
    inversion Hall as [|? ? Hx Hl]; subst;
    cbn [fold_right snd] in Hfuel, Hx;
    (destruct fuel as [|f]; [lia|]);
    rewrite member_text_app; cbn [Json.parse_members];
    change (Json.skip_ws (String Str.dq ?t)) with (String Str.dq t);
    change (Ascii.eqb Str.dq Str.dq) with true; cbv iota;
    rewrite parse_string_quote;
    change (Json.skip_ws (String ":" ?t)) with (String ":" t);
    change (Ascii.eqb ":" ":") with true; cbv iota;
    rewrite (parse_value_blank f " ") by reflexivity;
    (rewrite Hx;
       [| rewrite blank_app, Hi; reflexivity | apply closes_after_member | lia]).
  - cbn [after_member fold_right].
    rewrite skip_ws_blank by (rewrite blank_app, Hi; reflexivity).
    reflexivity.
  - rewrite after_member_cons.
    change (Json.skip_ws (String "," ?t)) with (String "," t).
    change (Ascii.eqb "," ",") with true. cbv iota.
    rewrite parse_members_blank by (apply blank_inner; exact Hi).
    rewrite IH; [reflexivity | exact Hl | cbn [fold_right]; lia].
Qed.

Lemma canonical_elements (l : list json) :
  fold_right (fun x rest => canonical x /\ rest) True l <-> Forall canonical l.
Proof.
  induction l as [|x l IH]; cbn [fold_right].
  - split; [constructor | trivial].
  - rewrite Forall_cons_iff, IH. reflexivity.
Qed.

Lemma canonical_members (props : list (string * json)) :
  fold_right (fun kv rest => canonical (snd kv) /\ rest) True props
  <-> Forall (fun kv => canonical (snd kv)) props.
Proof.
  induction props as [|x l IH]; cbn [fold_right].
  - split; [constructor | trivial].
  - rewrite Forall_cons_iff, IH. reflexivity.
Qed.

Lemma Forall_modus_ponens {A : Type} (P Q : A -> Prop) (l : list A) :
  Forall (fun x => P x -> Q x) l -> Forall P l -> Forall Q l.
Proof.
  induction 1 as [|x l H _ IH]; intros HP; [constructor|].
  inversion HP; subst. constructor; auto.
Qed.

(** A canonical value is read back from its text. *)
Lemma canonical_reads_back (v : json) : canonical v -> reads_back v.
Proof.
  induction v as [|b|n|s|l IH|props IH] using json_induction; intros Hv;
    intros fuel indent rest Hi Hrest Hfuel;
    (destruct fuel as [|f]; [cbn [cost] in Hfuel; lia|]).
  - reflexivity.
  - destruct b; reflexivity.
  - destruct (prints_back_head n Hv) as (c & t & E & Hc).
    destruct (number_head c Hc) as (W & E1 & E2 & E3 & E4 & E5 & E6 & _).
    cbn [Json.stringify_at Json.parse_value]. rewrite E. cbn [String.append Json.skip_ws].
    rewrite W, E1, E2, E3, E4, E5, E6.
    change (String c (t +:+ rest)) with (String c t +:+ rest).
    rewrite <- E. apply Hv, Hrest.
  - cbn [Json.stringify_at]. unfold Json.quote, Str.dquote.
    rewrite !app_assoc_s. cbn [String.append Json.parse_value].
    change (Json.skip_ws (String Str.dq ?t)) with (String Str.dq t).
    change (Ascii.eqb Str.dq "{") with false.
    change (Ascii.eqb Str.dq "[") with false.
    change (Ascii.eqb Str.dq Str.dq) with true. cbv iota.
    now rewrite parse_string_quote.
  - destruct l as [|x l]; [reflexivity|].
    cbn [canonical] in Hv. apply canonical_elements in Hv.
    pose proof (Forall_modus_ponens _ _ _ IH Hv) as Hall.
    destruct (stringify_head (indent +:+ "  ") x) as (c & t & E & W & E1 & _).
    { now inversion Hv. }
    rewrite array_text. cbn [Json.parse_value].
    change (Json.skip_ws (String "[" ?t)) with (String "[" t).
    change (Ascii.eqb "[" "{") with false.
    change (Ascii.eqb "[" "[") with true. cbv iota.
    rewrite skip_ws_blank by (apply blank_inner; exact Hi).
    pose proof (elements_read_back indent rest Hi l x f Hall) as Hp.
    rewrite E in *. cbn [String.append Json.skip_ws] in *.
    rewrite W, E1, Hp; [reflexivity|].
    cbn [cost] in Hfuel. lia.
  - destruct props as [|kv props]; [reflexivity|].
    cbn [canonical] in Hv. destruct Hv as [Hord Hv].
    apply canonical_members in Hv.
    pose proof (Forall_modus_ponens _ _ _ IH Hv) as Hall.
    rewrite object_text. cbn [Json.parse_value].
    change (Json.skip_ws (String "{" ?t)) with (String "{" t).
    change (Ascii.eqb "{" "{") with true. cbv iota.
    rewrite skip_ws_blank by (apply blank_inner; exact Hi).
    pose proof (members_read_back indent rest Hi props kv f Hall) as Hp.
    destruct kv as [k x]. rewrite member_text_app in *.
    change (Json.skip_ws (String Str.dq ?t)) with (String Str.dq t).
    change (Ascii.eqb Str.dq "}") with false. cbv iota.
    rewrite Hp; [now rewrite Hord|].
    cbn [cost] in Hfuel. lia.
Qed.

End ReadBackValue.

Section MoreBudget.
Context `{NM : NumberModel}.

(** A parser that did not run out returns the same with a larger budget. *)
Lemma parse_more_fuel (f : nat) :
  forall g, f <= g ->
    (forall s, Json.parse_value f s <> Json.PFuel ->
               Json.parse_value g s = Json.parse_value f s)
    /\ (forall s, Json.parse_elements f s <> Json.PFuel ->
                  Json.parse_elements g s = Json.parse_elements f s)
    /\ (forall s, Json.parse_members f s <> Json.PFuel ->
                  Json.parse_members g s = Json.parse_members f s).
Proof.
  induction f as [|f IH]; intros g Hg;
    [repeat split; intros s H; now destruct H|].
  destruct g as [|g]; [lia|].
  destruct (IH g ltac:(lia)) as (IHv & IHe & IHm).
  repeat split; intros s H;
    [ cbn [Json.parse_value] in H |- *
    | cbn [Json.parse_elements] in H |- *
    | cbn [Json.parse_members] in H |- * ];
    repeat match goal with
           | |- context [Json.parse_value g ?x] =>
               rewrite (IHv x) by (intros E; rewrite E in H; now destruct H)
           | |- context [Json.parse_elements g ?x] =>
               rewrite (IHe x) by (intros E; rewrite E in H; now destruct H)
           | |- context [Json.parse_members g ?x] =>
               rewrite (IHm x) by (intros E; rewrite E in H; now destruct H)
           | |- context [match ?x with _ => _ end] => destruct x eqn:?
           end;
    reflexivity.
Qed.

End MoreBudget.

Section RoundTrip.
Context `{NM : NumberModel}.

(** [JSON.parse] reads back the text [JSON.stringify] writes for a
    canonical value, with the line break the generator puts after it. *)
Lemma parse_stringify (v : json) :
  canonical v -> Json.parse (Json.stringify v +:+ Str.nl) = Return v.
Proof.
  intros Hv. unfold Json.parse, Json.stringify.
  set (text := Json.stringify_at EmptyString v +:+ Str.nl).
  set (budget := 2 * String.length text + 2).
  assert (E : Json.parse_value budget text = Json.POk v Str.nl).
  { destruct (parse_more_fuel budget (Nat.max budget (cost v))) as (Hmore & _);
      [lia|].
    rewrite <- Hmore by apply parse_within_budget.
    apply (canonical_reads_back v Hv); [reflexivity | reflexivity | lia]. }
  rewrite E. reflexivity.
Qed.

End RoundTrip.

(** ** The precondition *)

Section Precondition.
Context `{NM : NumberModel}.
Variable render : engine.

(** C3. When the extension directory exists and [force] is not set, the
    run fails with no operation and one error, which names the existing
    path, and the file system is left as it was: nothing is written and
    no directory is made. *)
Theorem existing_directory_is_refused (ctx : GenerationContext) (fs : FS) :
  Fs.existsSync (extensionDir ctx) fs = true ->
  force (options ctx) = false ->
  let run := generateExtension render ctx fs in
  success run.1 = false
  /\ operations run.1 = []
  /\ errors run.1 = [exists_message (extensionDir ctx)]
  /\ Str.includes (exists_message (extensionDir ctx)) (extensionDir ctx) = true
  /\ run.2 = fs.
Proof.
  intros Hex Hforce run. unfold run, generateExtension. rewrite Hex, Hforce.
  repeat split. apply includes_app.
Qed.

End Precondition.

Lemma existing_directory_is_refused_occupied :
  let run := generateExtension PlainEngine.render
               Scenario.apply_python Scenario.occupied in
  success run.1 = false
  /\ operations run.1 = []
  /\ errors run.1
     = ["Extension directory already exists: /repo/vscode/python. Use --force to overwrite."]
  /\ Str.includes
       "Extension directory already exists: /repo/vscode/python. Use --force to overwrite."
       "/repo/vscode/python" = true
  /\ run.2 = Scenario.occupied.
Proof.
  apply (existing_directory_is_refused PlainEngine.render Scenario.apply_python
           Scenario.occupied); reflexivity.
Defined.

(** ** The shape of the staged operations *)

Section Yields.

Lemma yields_ret {A} (P : A -> Prop) (a : A) : P a -> yields P (ret a).
Proof. intros H fs a' fs' [= <- _]. exact H. Qed.

Lemma yields_throw {A} (P : A -> Prop) (e : string) : yields P (throw e).
Proof. intros fs a fs' [=]. Qed.

Lemma yields_bind {A B} (Q : B -> Prop) (m : IO A) (k : A -> IO B) :
  (forall a, yields Q (k a)) -> yields Q (bind m k).
Proof.
  intros Hk fs b fs'. unfold bind.
  destruct (m fs) as [[a|e] fs1]; [apply Hk | discriminate].
Qed.

Lemma bind_returns {A B} (m : IO A) (k : A -> IO B) fs a fs1 :
  m fs = (Return a, fs1) -> bind m k fs = k a fs1.
Proof. intros H. unfold bind. now rewrite H. Qed.

Lemma bind_throws {A B} (m : IO A) (k : A -> IO B) fs e fs1 :
  m fs = (Throw e, fs1) -> bind m k fs = (Throw e, fs1).
Proof. intros H. unfold bind. now rewrite H. Qed.

Lemma bind_Return {A B} (m : IO A) (k : A -> IO B) fs b fs' :
  bind m k fs = (Return b, fs') ->
  exists a fs1, m fs = (Return a, fs1) /\ k a fs1 = (Return b, fs').
Proof.
  unfold bind. destruct (m fs) as [[a|e] fs1]; [|discriminate].
  intros H. now exists a, fs1.
Qed.

Lemma bind_Throw {A B} (m : IO A) (k : A -> IO B) fs e fs' :
  bind m k fs = (Throw e, fs') ->
  m fs = (Throw e, fs')
  \/ exists a fs1, m fs = (Return a, fs1) /\ k a fs1 = (Throw e, fs').
Proof.
  unfold bind. destruct (m fs) as [[a|e1] fs1].
  - intros H. right. now exists a, fs1.
  - intros [= <- <-]. now left.
Qed.

End Yields.

Ltac yields_step :=
  first
    [ apply yields_throw
    | apply yields_bind; intros ?
    | match goal with
      | |- yields _ (if ?b then _ else _) => destruct b
      end ].

Ltac staged_strategy := repeat yields_step; apply yields_ret; repeat constructor.

Section Shapes.
Context `{NM : NumberModel}.
Variable render : engine.

Lemma emit_staged tdir edir data dry m :
  yields (Forall (staged data dry)) (emit render tdir edir data dry m).
Proof.
  unfold emit. staged_strategy.
Qed.

Lemma emit_all_staged tdir edir data dry ms :
  yields (Forall (staged data dry)) (emit_all render tdir edir data dry ms).
Proof.
  induction ms as [|m ms IH]; simpl.
  - apply yields_ret. constructor.
  - intros fs ops fs' H.
    apply bind_Return in H as (o1 & fs1 & H1 & H).
    apply bind_Return in H as (o2 & fs2 & H2 & H).
    injection H as <- _.
    apply Forall_app. split; [eapply emit_staged | eapply IH]; eassumption.
Qed.

Lemma updateRootPackage_staged data repo cfg dry :
  yields (Forall (staged data dry)) (updateRootPackage repo cfg dry).
Proof. unfold updateRootPackage. staged_strategy. Qed.

Lemma updateCiWorkflow_staged data repo cfg dry :
  yields (Forall (staged data dry)) (updateCiWorkflow repo cfg dry).
Proof. unfold updateCiWorkflow. staged_strategy. Qed.

Lemma updateCollectAssets_staged data repo cfg rc dry :
  yields (Forall (staged data dry)) (updateCollectAssets repo cfg rc dry).
Proof. unfold updateCollectAssets. staged_strategy. Qed.

Lemma updateCopyDist_staged data repo cfg dry :
  yields (Forall (staged data dry)) (updateCopyDist repo cfg dry).
Proof. unfold updateCopyDist. staged_strategy. Qed.

Lemma updatePackageExtensions_staged data repo cfg dry :
  yields (Forall (staged data dry)) (updatePackageExtensions repo cfg dry).
Proof. unfold updatePackageExtensions. staged_strategy. Qed.

Lemma updateLaunch_staged data repo cfg dry :
  yields (Forall (staged data dry)) (updateLaunch repo cfg dry).
Proof. unfold updateLaunch. staged_strategy. Qed.

Lemma updateWorkspace_staged data repo cfg dry :
  yields (Forall (staged data dry)) (updateWorkspace repo cfg dry).
Proof. unfold updateWorkspace. staged_strategy. Qed.

Lemma modifyExistingFiles_staged data repo cfg rc dry :
  yields (Forall (staged data dry)) (modifyExistingFiles repo cfg rc dry).
Proof.
  intros fs ops fs' H. unfold modifyExistingFiles in H.
  apply bind_Return in H as (o1 & f1 & H1 & H).
  apply bind_Return in H as (o2 & f2 & H2 & H).
  apply bind_Return in H as (o3 & f3 & H3 & H).
  apply bind_Return in H as (o4 & f4 & H4 & H).
  apply bind_Return in H as (o5 & f5 & H5 & H).
  apply bind_Return in H as (o6 & f6 & H6 & H).
  apply bind_Return in H as (o7 & f7 & H7 & H).
  injection H as <- _.
  repeat (apply Forall_app; split).
  - eapply updateRootPackage_staged; eassumption.
  - eapply updateCiWorkflow_staged; eassumption.
  - eapply updateCollectAssets_staged; eassumption.
  - eapply updateCopyDist_staged; eassumption.
  - eapply updatePackageExtensions_staged; eassumption.
  - eapply updateLaunch_staged; eassumption.
  - eapply updateWorkspace_staged; eassumption.
Qed.

Lemma generateExtension_staged (ctx : GenerationContext) (fs : FS) :
  Forall (staged (prepareTemplateData (config ctx)) (dryRun (options ctx)))
    (operations (generateExtension render ctx fs).1).
Proof.
  unfold generateExtension.
  destruct (Fs.existsSync (extensionDir ctx) fs && negb (force (options ctx)));
    [constructor|].
  destruct (make_directories ctx fs) as [[[]|e] fs1]; [|constructor].
  destruct (generateNewFiles _ _ _ _ _ fs1) as [[ops|e] fs2] eqn:E1; [|constructor].
  apply emit_all_staged in E1.
  destruct (modifyExistingFiles _ _ _ _ fs2) as [[ops'|e] fs3] eqn:E2; simpl.
  - apply Forall_app. split; [exact E1|].
    eapply modifyExistingFiles_staged; eassumption.
  - exact E1.
Qed.

(** C2, as the code has it.  A create operation carries no diff, and
    carries content exactly when the run is a preview and its template
    was found (a placeholder carries none); a modify operation carries
    its diff and its change summaries, and no content, in both modes. *)
Theorem staged_payload (ctx : GenerationContext) (fs : FS) (op : FileOperation) :
  In op (operations (generateExtension render ctx fs).1) ->
  match type op with
  | create =>
      diff op = None
      /\ (is_Some (content op) -> dryRun (options ctx) = true)
      /\ (dryRun (options ctx) = true -> content op = None ->
          exists outputPath m, op = placeholder outputPath m)
  | modify =>
      is_Some (diff op) /\ is_Some (changes op) /\ content op = None
  end.
Proof.
  intros Hin.
  pose proof (generateExtension_staged ctx fs) as Hall.
  rewrite Forall_forall in Hall. apply list_elem_of_In in Hin.
  destruct (Hall op Hin) as [out m | m r | p d cs df]; simpl.
  - split; [reflexivity|]. split; [intros [? [=]]|]. intros _ _. now exists out, m.
  - split; [reflexivity|]. destruct (dryRun (options ctx)).
    + split; [reflexivity|]. intros _ [=].
    + split; [intros [? [=]]|]. intros [=].
  - repeat split; eauto.
Qed.

End Shapes.

Ltac find_in := vm_compute; repeat (first [left; reflexivity | right]).

(** C2, as stated, fails: in apply mode the manifest operation of the
    fresh repository carries its diff. *)
Lemma apply_mode_carries_diff :
  ~ Forall (payload_iff_preview false)
      (operations (generateExtension PlainEngine.render
                     Scenario.apply_python Scenario.fresh).1).
Proof.
  intros H. rewrite Forall_forall in H.
  assert (Hin : manifest_operation "python"
                  ∈ operations (generateExtension PlainEngine.render
                                  Scenario.apply_python Scenario.fresh).1).
  { apply list_elem_of_In. find_in. }
  apply H in Hin. unfold payload_iff_preview in Hin. simpl in Hin.
  destruct Hin as [Hin _]. discriminate Hin. eexists. reflexivity.
Qed.

Lemma staged_payload_fresh :
  is_Some (diff (manifest_operation "python"))
  /\ is_Some (changes (manifest_operation "python"))
  /\ content (manifest_operation "python") = None.
Proof.
  apply (staged_payload PlainEngine.render Scenario.apply_python Scenario.fresh
           (manifest_operation "python")).
  find_in.
Defined.

(** ** Missing templates and thrown errors *)

Section Degradation.
Context `{NM : NumberModel}.
Variable render : engine.





End Degradation.




(** ** The text strategies *)

Section TextStrategies.
Context `{NM : NumberModel}.

Lemma exists_file p c (fs : FS) :
  fs !! p = Some (File c) -> exists_ p fs = (Return true, fs).
Proof. intros H. unfold exists_, Fs.existsSync. now rewrite H. Qed.

Lemma exists_none p (fs : FS) : fs !! p = None -> exists_ p fs = (Return false, fs).
Proof. intros H. unfold exists_, Fs.existsSync. now rewrite H. Qed.

Lemma readFile_file p c (fs : FS) :
  fs !! p = Some (File c) -> Fs.readFile p fs = (Return c, fs).
Proof. intros H. unfold Fs.readFile. now rewrite H. Qed.

Lemma writeFile_file p c text (fs : FS) :
  fs !! p = Some (File c) ->
  Fs.writeFile p text fs = (Return tt, <[p := File text]> fs).
Proof. intros H. unfold Fs.writeFile. now rewrite H. Qed.

Lemma write_step dry p c text (fs : FS) :
  fs !! p = Some (File c) ->
  unless_dry dry (Fs.writeFile p text) fs = (Return tt, written dry p text fs).
Proof.
  intros H. unfold unless_dry, written. destruct dry; [reflexivity|].
  now apply writeFile_file with (c := c).
Qed.

Lemma written_same dry p c (fs : FS) :
  fs !! p = Some (File c) -> written dry p c fs = fs.
Proof. intros H. unfold written. destruct dry; [reflexivity|]. now apply insert_id. Qed.

Lemma patch_text_absent p key insert op dry (fs : FS) :
  fs !! p = None -> patch_text p key insert op dry fs = (Return [], fs).
Proof. intros H. unfold patch_text, bind. now rewrite (exists_none _ _ H). Qed.

Lemma patch_text_present p key insert op dry c (fs : FS) :
  fs !! p = Some (File c) -> Str.includes c key = true ->
  patch_text p key insert op dry fs = (Return [], fs).
Proof.
  intros H Hk. unfold patch_text, bind.
  rewrite (exists_file _ _ _ H). simpl. rewrite (readFile_file _ _ _ H), Hk. reflexivity.
Qed.

Lemma patch_text_patches p key insert op dry c (fs : FS) :
  fs !! p = Some (File c) -> Str.includes c key = false ->
  patch_text p key insert op dry fs = (Return [op], written dry p (insert c) fs).
Proof.
  intros H Hk. unfold patch_text, bind.
  rewrite (exists_file _ _ _ H). simpl. rewrite (readFile_file _ _ _ H), Hk.
  rewrite (write_step _ _ _ _ _ H). reflexivity.
Qed.

Lemma updateCiWorkflow_text repo cfg :
  updateCiWorkflow repo cfg
  = patch_text (Path.join repo ".github/workflows/ci-repo.yml")
      ("package-" +:+ language cfg) (insert_step cfg) (ci_operation cfg).
Proof. reflexivity. Qed.

Lemma updateCollectAssets_text repo cfg rc :
  updateCollectAssets repo cfg rc
  = patch_text (Path.join repo "scripts/collect-assets.js")
      (q (binaryName (provider cfg))) (insert_asset cfg rc) (assets_operation cfg rc).
Proof. reflexivity. Qed.

Lemma updateCopyDist_text repo cfg :
  updateCopyDist repo cfg
  = patch_text (Path.join repo "scripts/copy-dist.js")
      (q (language cfg)) (insert_copy cfg) (copy_operation cfg).
Proof. reflexivity. Qed.

Lemma updatePackageExtensions_text repo cfg :
  updatePackageExtensions repo cfg
  = patch_text (Path.join repo "scripts/package-extensions.js")
      (q (language cfg)) (insert_valid cfg) (valid_operation cfg).
Proof. reflexivity. Qed.

(** Without an occurrence of the anchor the replacement returns the text. *)
Lemma replace_miss anchor caps tpl s :
  Str.includes s anchor = false -> Replace.replace anchor caps tpl s = s.
Proof.
  intros H. unfold Replace.replace. apply find_None in H. now rewrite H.
Qed.

(** C9, as the code has it.  When the key of a text strategy is absent
    from the file and its anchor does not occur either, the strategy
    leaves the file system as it was (apply mode rewrites the file with
    the text it has) and stages its usual modify operation: nothing is
    appended, and nothing reports the miss. *)
Theorem anchor_miss_stages_unchanged (repo : string) (cfg : ExtensionConfig)
    (rc : RepoConfig) (dry : bool) (fs : FS) (c : string) :
  (fs !! Path.join repo ".github/workflows/ci-repo.yml" = Some (File c) ->
   Str.includes c ("package-" +:+ language cfg) = false ->
   Str.includes c ci_anchor = false ->
   updateCiWorkflow repo cfg dry fs = (Return [ci_operation cfg], fs))
  /\ (fs !! Path.join repo "scripts/collect-assets.js" = Some (File c) ->
      Str.includes c (q (binaryName (provider cfg))) = false ->
      Str.includes c "const ASSETS = {" = false ->
      updateCollectAssets repo cfg rc dry fs = (Return [assets_operation cfg rc], fs))
  /\ (fs !! Path.join repo "scripts/copy-dist.js" = Some (File c) ->
      Str.includes c (q (language cfg)) = false ->
      Str.includes c "const EXTENSIONS = {" = false ->
      updateCopyDist repo cfg dry fs = (Return [copy_operation cfg], fs))
  /\ (fs !! Path.join repo "scripts/package-extensions.js" = Some (File c) ->
      Str.includes c (q (language cfg)) = false ->
      Str.includes c "const VALID_EXTENSIONS = [" = false ->
      updatePackageExtensions repo cfg dry fs = (Return [valid_operation cfg], fs)).
Proof.
  repeat split; intros Hf Hkey Hanchor.
  - rewrite updateCiWorkflow_text, (patch_text_patches _ _ _ _ _ _ _ Hf Hkey).
    unfold insert_step. rewrite (replace_miss _ _ _ _ Hanchor).
    now rewrite (written_same _ _ _ _ Hf).
  - rewrite updateCollectAssets_text, (patch_text_patches _ _ _ _ _ _ _ Hf Hkey).
    unfold insert_asset. rewrite (replace_miss _ _ _ _ Hanchor).
    now rewrite (written_same _ _ _ _ Hf).
  - rewrite updateCopyDist_text, (patch_text_patches _ _ _ _ _ _ _ Hf Hkey).
    unfold insert_copy. rewrite (replace_miss _ _ _ _ Hanchor).
    now rewrite (written_same _ _ _ _ Hf).
  - rewrite updatePackageExtensions_text, (patch_text_patches _ _ _ _ _ _ _ Hf Hkey).
    unfold insert_valid. rewrite (replace_miss _ _ _ _ Hanchor).
    now rewrite (written_same _ _ _ _ Hf).
Qed.

End TextStrategies.

(** C9, as stated, fails: the workflow has no step named "Upload VSIX
    artifacts"; the run succeeds without an error, leaves the workflow as
    it was, and reports a modify operation that adds the package step. *)
Lemma anchor_miss_is_reported_as_change :
  let run := generateExtension PlainEngine.render
               Scenario.apply_python Scenario.renamed_step in
  success run.1 = true
  /\ errors run.1 = []
  /\ In (ci_operation Scenario.python) (operations run.1)
  /\ run.2 !! "/repo/.github/workflows/ci-repo.yml"
     = Scenario.renamed_step !! "/repo/.github/workflows/ci-repo.yml".
Proof.
  cbv zeta. split; [reflexivity|]. split; [reflexivity|]. split; [|reflexivity].
  find_in.
Qed.

Lemma anchor_miss_stages_unchanged_renamed_step :
  updateCiWorkflow "/repo" Scenario.python false Scenario.renamed_step
  = (Return [ci_operation Scenario.python], Scenario.renamed_step).
Proof.
  apply (anchor_miss_stages_unchanged "/repo" Scenario.python Scenario.host false
           Scenario.renamed_step
           (lines [ "    steps:"; "      - name: Build";
                    "      - name: Publish VSIX artifacts" ]));
    reflexivity.
Defined.

(** ** Rendering *)

Section Rendering.
Context `{NM : NumberModel}.
Variable render : engine.

(** C7, as the code has it.  The emitter checks nothing about the
    placeholders of a template: the text the engine returns is staged
    (and written, in apply mode) as it is, and an error the engine throws
    is thrown on with the engine's message, to which no template name is
    added. *)
Theorem rendering_is_delegated (tdir edir : string) (data : TemplateData) (dry : bool)
    (m : mapping) (fs : FS) (source : string) :
  disabled m = false ->
  fs !! Path.join tdir (template m) = Some (File source) ->
  match render source data with
  | Throw e => emit render tdir edir data dry m fs = (Throw e, fs)
  | Return rendered =>
      let outputPath := Path.join edir (output m) in
      emit render tdir edir data dry m fs
      = match unless_dry dry
                (run! Fs.mkdir (Path.dirname outputPath) in
                 Fs.writeFile outputPath rendered) fs with
        | (Return _, fs') => (Return [generated data dry m rendered], fs')
        | (Throw e, fs') => (Throw e, fs')
        end
  end.
Proof.
  intros Hen Hsrc. unfold emit. rewrite Hen.
  rewrite (bind_returns _ _ _ _ _ (exists_file _ _ _ Hsrc)). simpl.
  rewrite (bind_returns _ _ _ _ _ (readFile_file _ _ _ Hsrc)).
  destruct (render source data) as [rendered|e] eqn:E.
  - rewrite (bind_returns _ _ fs rendered fs) by reflexivity.
    cbv zeta. unfold bind at 1.
    destruct (unless_dry dry _ fs) as [[[]|e] fs']; reflexivity.
  - apply bind_throws. reflexivity.
Qed.

End Rendering.

(** C7, as stated, fails: the manifest template refers to [publisher],
    which the template data does not define; the engine renders it as
    the empty text, the run succeeds without an error, and the preview
    carries the text with the placeholder dropped. *)
Lemma unresolved_placeholder_is_dropped :
  let run := generateExtension PlainEngine.render
               Scenario.preview_python Scenario.unknown_field in
  PlainEngine.field (prepareTemplateData Scenario.python) "publisher" = None
  /\ success run.1 = true
  /\ errors run.1 = []
  /\ content <$> head (operations run.1)
     = Some (Some "{ name: konveyor-python, publisher:  }").
Proof. cbv zeta. repeat split; reflexivity. Qed.

Lemma rendering_is_delegated_unknown_field :
  emit PlainEngine.render "/tool/templates" "/repo/vscode/python"
    (prepareTemplateData Scenario.python) true
    {| template := "package.json.hbs"; output := "package.json"; condition := None |}
    Scenario.unknown_field
  = (Return [generated (prepareTemplateData Scenario.python) true
               {| template := "package.json.hbs"; output := "package.json";
                  condition := None |}
               "{ name: konveyor-python, publisher:  }"],
     Scenario.unknown_field).
Proof.
  apply (rendering_is_delegated PlainEngine.render "/tool/templates" "/repo/vscode/python"
           (prepareTemplateData Scenario.python) true
           {| template := "package.json.hbs"; output := "package.json"; condition := None |}
           Scenario.unknown_field
           "{ name: konveyor-{{language}}, publisher: {{publisher}} }");
    reflexivity.
Defined.

(** ** The workspace file *)

Section Workspace.
Context `{NM : NumberModel}.

Lemma lookup_replace_prop k v props :
  is_Some (lookup_prop k props) -> lookup_prop k (replace_prop k v props) = Some v.
Proof.
  induction props as [|[k' v'] props IH]; simpl; intros [x Hx]; [discriminate|].
  destruct (String.eqb k k') eqn:E; simpl; rewrite E; [reflexivity|].
  apply IH. now exists x.
Qed.

Lemma lookup_set_prop_present k v props :
  is_Some (lookup_prop k props) -> lookup_prop k (set_prop k v props) = Some v.
Proof.
  intros H. unfold set_prop. destruct H as [x Hx]. rewrite Hx.
  apply lookup_replace_prop. now exists x.
Qed.

Lemma set_prop_present_twice k v v' props :
  is_Some (lookup_prop k props) ->
  set_prop k v' (set_prop k v props) = set_prop k v' props.
Proof.
  intros H. unfold set_prop at 1.
  rewrite (lookup_set_prop_present _ _ _ H).
  unfold set_prop. destruct H as [x Hx]. rewrite Hx. clear Hx.
  induction props as [|[k0 v0] props IH]; simpl; [reflexivity|].
  destruct (String.eqb k k0) eqn:E; simpl; rewrite E; [reflexivity|].
  now rewrite IH.
Qed.

(** Text without a comma before a closing character is left as it is. *)
Lemma strip_nothing (s : string) :
  (forall a b, s <> a +:+ "," +:+ b \/ Jsonc.closer_ahead b = false) ->
  Jsonc.strip_trailing_commas s = s.
Proof.
  induction s as [|c s IH]; intros H; simpl; [reflexivity|].
  destruct (Ascii.eqb_spec c ",") as [->|Hc]; simpl.
  - destruct (H EmptyString s) as [Hne|Hb]; [now contradiction Hne|].
    rewrite Hb. f_equal. apply IH. intros a b.
    destruct (H (String "," a) b) as [Hne|Hb']; [left|now right].
    intros ->. now apply Hne.
  - f_equal. apply IH. intros a b.
    destruct (H (String c a) b) as [Hne|Hb']; [left|now right].
    intros ->. now apply Hne.
Qed.

(** The workspace strategy after [parseJsonc] has cleaned the text.  The
    document the strategy works on is what [Jsonc.strip_trailing_commas]
    leaves of the text of the file.  When that is strict JSON for an
    object whose folder list has no entry for the extension, apply mode
    writes the serialisation of the object with the entry appended to the
    folder list: the folders of the cleaned text all precede it,
    unchanged and in order, and the other properties are kept.  When the
    patched object is canonical, the file written is strict JSON for it.
    Whether the cleaned text has the values of the file is another
    matter: see [folder_entry_is_altered]. *)
Theorem workspace_entry_appended (repo : string) (cfg : ExtensionConfig) (fs : FS)
    (text : string) (props : list (string * json)) (folders : list json) :
  let p := Path.join repo "konveyor-extensions.code-workspace" in
  let props' := set_prop "folders"
                  (JArr (folders ++ [folder_entry (language cfg)])%list) props in
  fs !! p = Some (File text) ->
  Json.parse (Jsonc.strip_trailing_commas text) = Return (JObj props) ->
  lookup_prop "folders" props = Some (JArr folders) ->
  hasFolder (language cfg) (JObj props) = Return false ->
  updateWorkspace repo cfg false fs
  = (Return [workspace_operation (language cfg)],
     <[p := File (Json.stringify (JObj props') +:+ Str.nl)]> fs)
  /\ lookup_prop "folders" props'
     = Some (JArr (folders ++ [folder_entry (language cfg)])%list)
  /\ (canonical (JObj props') ->
      Json.parse (Json.stringify (JObj props') +:+ Str.nl) = Return (JObj props')).
Proof.
  intros p props' Hf Hparse Hfolders Hhas. split; [|split; [|apply parse_stringify]].
  - unfold updateWorkspace. fold p.
    rewrite (bind_returns _ _ _ _ _ (exists_file _ _ _ Hf)). simpl.
    rewrite (bind_returns _ _ _ _ _ (readFile_file _ _ _ Hf)).
    rewrite (bind_returns _ _ fs (JObj props) fs)
      by (unfold lift, parseJsonc; now rewrite Hparse).
    rewrite (bind_returns _ _ fs false fs) by (unfold lift; now rewrite Hhas).
    cbn [negb].
    rewrite (bind_returns _ _ fs (JObj props') fs).
    + rewrite (bind_returns _ _ fs tt
                 (<[p := File (Json.stringify (JObj props') +:+ Str.nl)]> fs)).
      * reflexivity.
      * unfold unless_dry. now apply writeFile_file with (c := text).
    + unfold lift, add_folder. simpl. rewrite Hfolders. simpl.
      unfold props'. rewrite set_prop_present_twice; [reflexivity|].
      now exists (JArr folders).
  - unfold props'. apply lookup_set_prop_present. now exists (JArr folders).
Qed.

End Workspace.

(** C8.  [parseJsonc] is documented as parsing JSON with trailing commas
    by removing the trailing commas before a closing brace or bracket,
    but its pattern also matches inside a string literal, where a comma
    is no trailing comma.  Here the workspace file is strict JSON without
    any trailing comma, and the name of its one folder ends in a comma
    and a closing bracket: the run succeeds, and the file that is written
    has the folder entry with that comma lost, so that a folder entry
    that was there before the run is not preserved. *)
Lemma folder_entry_is_altered :
  let run := generateExtension PlainEngine.render
               Scenario.apply_python Scenario.bracket_name in
  let entry name := JObj [("path", JStr "vscode/core"); ("name", JStr name)] in
  Json.parse Scenario.bracket_name_text
    = Return (JObj [("folders", JArr [entry "core [stable,]"])])
  /\ success run.1 = true
  /\ (exists written,
        run.2 !! "/repo/konveyor-extensions.code-workspace" = Some (File written)
        /\ Json.parse written
           = Return (JObj [("folders",
                            JArr [entry "core [stable]"; folder_entry "python"])])).
Proof.
  cbv zeta. split; [reflexivity|]. split; [reflexivity|].
  eexists. split; [vm_compute; reflexivity | reflexivity].
Qed.

Lemma workspace_entry_appended_fresh :
  let entry := JObj [("path", JStr "vscode/core")] in
  updateWorkspace "/repo" Scenario.rust false Scenario.fresh
  = (Return [workspace_operation "rust"],
     <["/repo/konveyor-extensions.code-workspace" :=
         File (Json.stringify
                 (JObj [("folders", JArr [entry; folder_entry "rust"])]) +:+ Str.nl)]>
       Scenario.fresh)
  /\ lookup_prop "folders" [("folders", JArr [entry; folder_entry "rust"])]
     = Some (JArr [entry; folder_entry "rust"])
  /\ Json.parse
       (Json.stringify (JObj [("folders", JArr [entry; folder_entry "rust"])])
        +:+ Str.nl)
     = Return (JObj [("folders", JArr [entry; folder_entry "rust"])]).
Proof.
  destruct (workspace_entry_appended "/repo" Scenario.rust Scenario.fresh
              Scenario.workspace_text
              [("folders", JArr [JObj [("path", JStr "vscode/core")]])]
              [JObj [("path", JStr "vscode/core")]]
              eq_refl eq_refl eq_refl eq_refl) as (Hrun & Hfolders & Hback).
  split; [exact Hrun|]. split; [exact Hfolders|].
  apply Hback. cbn. repeat split.
Defined.

(** ** What the generation phase leaves alone *)

Section Frame.
Context `{NM : NumberModel}.
Variable render : engine.

Lemma foldr_insert_dir_other (ds : list string) (fs : FS) (t : string) :
  t ∉ ds -> foldr (fun d m => <[d := Dir]> m) fs ds !! t = fs !! t.
Proof.
  induction ds as [|d ds IH]; simpl; intros Hnot; [reflexivity|].
  rewrite lookup_insert_ne by (intros ->; apply Hnot; left).
  apply IH. intros Hin. apply Hnot. now right.
Qed.

(** Making directories leaves every regular file as it is. *)
Lemma mkdir_keeps_files p (fs fs' : FS) t c :
  Fs.mkdir p fs = (Return tt, fs') ->
  fs !! t = Some (File c) -> fs' !! t = Some (File c).
Proof.
  unfold Fs.mkdir. intros H Ht.
  destruct (existsb _ _) eqn:E; [discriminate|].
  injection H as <-. rewrite foldr_insert_dir_other; [exact Ht|].
  intros Hin. apply list_elem_of_In in Hin.
  assert (Hex : existsb (fun d => Fs.is_file d fs) (Path.parents p) = true).
  { apply existsb_exists. exists t. split; [exact Hin|].
    unfold Fs.is_file. now rewrite Ht. }
  congruence.
Qed.

Lemma writeFile_keeps_others p text (fs fs' : FS) t :
  Fs.writeFile p text fs = (Return tt, fs') -> t <> p -> fs' !! t = fs !! t.
Proof.
  unfold Fs.writeFile. intros H Hne.
  destruct (fs !! p) as [[x|]|]; try discriminate;
    injection H as <-; now rewrite lookup_insert_ne.
Qed.


Lemma emit_keeps_files tdir edir data dry m (fs fs' : FS) ops t c :
  emit render tdir edir data dry m fs = (Return ops, fs') ->
  t <> Path.join edir (output m) ->
  fs !! t = Some (File c) -> fs' !! t = Some (File c).
Proof.
  unfold emit. intros H Hne Ht.
  destruct (disabled m); [injection H as _ <-; exact Ht|].
  apply bind_Return in H as (found & f1 & H1 & H). injection H1 as _ <-.
  destruct (negb found); [injection H as _ <-; exact Ht|].
  apply bind_Return in H as (src & f2 & H2 & H).
  pose proof (reads_only_readFile (Path.join tdir (template m)) fs) as Hr.
  rewrite H2 in Hr. simpl in Hr. subst f2.
  apply bind_Return in H as (rendered & f3 & H3 & H). injection H3 as _ <-.
  apply bind_Return in H as ([] & f4 & H4 & H). injection H as _ <-.
  unfold unless_dry in H4. destruct dry; [injection H4 as <-; exact Ht|].
  apply bind_Return in H4 as ([] & f5 & H5 & H6).
  rewrite (writeFile_keeps_others _ _ _ _ _ H6 Hne).
  eapply mkdir_keeps_files; eassumption.
Qed.

Lemma emit_all_keeps_files tdir edir data dry ms (fs fs' : FS) ops t c :
  emit_all render tdir edir data dry ms fs = (Return ops, fs') ->
  Forall (fun m => t <> Path.join edir (output m)) ms ->
  fs !! t = Some (File c) -> fs' !! t = Some (File c).
Proof.
  revert fs ops. induction ms as [|m ms IH]; intros fs ops H Hall Ht; simpl in H.
  - injection H as _ <-. exact Ht.
  - apply bind_Return in H as (o1 & f1 & H1 & H).
    apply bind_Return in H as (o2 & f2 & H2 & H). injection H as _ <-.
    inversion Hall as [|? ? Hm Hms]; subst.
    eapply IH; [exact H2 | exact Hms |].
    eapply emit_keeps_files; eassumption.
Qed.

(** A path of the repository outside [vscode/] is not a generated file. *)
Lemma target_not_generated repo lang out lit :
  Str.starts_with "v" lit = false ->
  Path.join repo lit <> Path.join (Path.join (Path.join repo "vscode") lang) out.
Proof.
  intros Hv Heq. unfold Path.join in Heq.
  rewrite !app_assoc_s in Heq.
  apply (inj (String.app repo)) in Heq. simpl in Heq.
  injection Heq as ->. simpl in Hv. discriminate.
Qed.

Lemma join_injective repo a b : Path.join repo a = Path.join repo b -> a = b.
Proof.
  unfold Path.join. intros H. apply (inj (String.app repo)) in H.
  simpl in H. now injection H.
Qed.



End Frame.

(** ** The default sort *)

Section Sort.
Context `{NM : NumberModel}.



Lemma sort_insert_perm (x : json) (l : list json) : Permutation (sort_insert x l) (x :: l).
Proof.
  induction l as [|y l IH]; simpl; [reflexivity|].
  destruct (String.ltb (to_string y) (to_string x)); [|reflexivity].
  rewrite IH. apply perm_swap.
Qed.

Lemma sort_perm (l : list json) : Permutation (sort l) l.
Proof.
  induction l as [|x l IH]; simpl; [reflexivity|].
  unfold sort in *. simpl. rewrite sort_insert_perm. now constructor.
Qed.



End Sort.

(** ** Properties of an object *)

Section Props.
Context `{NM : NumberModel}.

Lemma lookup_replace_prop_ne k k' v props :
  k <> k' -> lookup_prop k (replace_prop k' v props) = lookup_prop k props.
Proof.
  intros Hne. induction props as [|[k0 v0] props IH]; simpl; [reflexivity|].
  destruct (String.eqb k' k0) eqn:E; simpl.
  - apply String.eqb_eq in E as <-.
    apply String.eqb_neq in Hne. now rewrite Hne.
  - now rewrite IH.
Qed.

Lemma lookup_insert_index_ne k k' i v props :
  k <> k' -> lookup_prop k (insert_index i k' v props) = lookup_prop k props.
Proof.
  intros Hne. apply String.eqb_neq in Hne.
  induction props as [|[k0 v0] props IH]; simpl; [now rewrite Hne|].
  destruct (index_of_key k0) as [j|]; [destruct (j <? i)%N|]; simpl;
    rewrite ?Hne, ?IH; reflexivity.
Qed.

Lemma lookup_app_ne k k' v props :
  k <> k' -> lookup_prop k (props ++ [(k', v)]) = lookup_prop k props.
Proof.
  intros Hne. apply String.eqb_neq in Hne.
  induction props as [|[k0 v0] props IH]; simpl; [now rewrite Hne|].
  now rewrite IH.
Qed.

Lemma lookup_set_prop_ne k k' v props :
  k <> k' -> lookup_prop k (set_prop k' v props) = lookup_prop k props.
Proof.
  intros Hne. unfold set_prop.
  destruct (lookup_prop k' props); [now apply lookup_replace_prop_ne|].
  destruct (index_of_key k');
    [now apply lookup_insert_index_ne | now apply lookup_app_ne].
Qed.

(** The manifest: with a workspace list that lacks the extension, the
    patched manifest lists the old entries and the new one, sorted. *)
Lemma patch_manifest_workspaces lang props ws root' :
  lookup_prop "workspaces" props = Some (JArr ws) ->
  array_includes ws ("vscode/" +:+ lang) = false ->
  patch_manifest lang (JObj props) = Return root' ->
  exists props',
    root' = JObj props'
    /\ lookup_prop "workspaces" props'
       = Some (JArr (sort (ws ++ [JStr ("vscode/" +:+ lang)]))).
Proof.
  intros Hws Hinc. unfold patch_manifest, add_workspace.
  cbn [obind get]. rewrite Hws. cbn [obind workspaces_include]. rewrite Hinc.
  cbn [obind or_else truthy set array_push].
  set (props1 := set_prop "workspaces" _ (set_prop "workspaces" _ props)).
  assert (H1 : lookup_prop "workspaces" props1
               = Some (JArr (sort (ws ++ [JStr ("vscode/" +:+ lang)])))).
  { unfold props1. rewrite set_prop_present_twice by now exists (JArr ws).
    apply lookup_set_prop_present. now exists (JArr ws). }
  clearbody props1. unfold add_script. cbn [obind get set].
  destruct (set (or_else (lookup_prop "scripts" props1) (JObj [])) _ _)
    as [scripts'|e]; cbn [obind]; [|discriminate].
  intros [= <-]. eexists. split; [reflexivity|].
  rewrite !lookup_set_prop_ne by discriminate. exact H1.
Qed.

End Props.

(** ** The structured strategies, when they patch *)

Section Structured.
Context `{NM : NumberModel}.

Lemma lift_returns {A} (o : outcome A) (a : A) (fs : FS) :
  o = Return a -> lift o fs = (Return a, fs).
Proof. intros ->. reflexivity. Qed.

Lemma updateRootPackage_patches repo cfg dry (fs : FS) text root root' :
  let p := Path.join repo "package.json" in
  fs !! p = Some (File text) ->
  Json.parse text = Return root ->
  patch_manifest (language cfg) root = Return root' ->
  updateRootPackage repo cfg dry fs
  = (Return [manifest_operation (language cfg)],
     written dry p (Json.stringify root' +:+ Str.nl) fs).
Proof.
  intros p Hf Hparse Hpatch. unfold updateRootPackage. fold p.
  rewrite (bind_returns _ _ _ _ _ (exists_file _ _ _ Hf)). cbn [negb].
  rewrite (bind_returns _ _ _ _ _ (readFile_file _ _ _ Hf)).
  rewrite (bind_returns _ _ _ _ _ (lift_returns _ _ fs Hparse)).
  rewrite (bind_returns _ _ _ _ _ (lift_returns _ _ fs Hpatch)).
  rewrite (bind_returns _ _ _ _ _ (write_step dry _ _ _ _ Hf)).
  reflexivity.
Qed.

Lemma updateLaunch_patches repo cfg dry (fs : FS) text lj cfgs lj' :
  let p := Path.join repo ".vscode/launch.json" in
  fs !! p = Some (File text) ->
  Json.parse text = Return lj ->
  hasExtension (language cfg) lj = Return false ->
  get lj "configurations" = Return cfgs ->
  truthy_value cfgs = true ->
  add_paths (language cfg) lj = Return lj' ->
  updateLaunch repo cfg dry fs
  = (Return [launch_operation (language cfg)],
     written dry p (Json.stringify lj' +:+ Str.nl) fs).
Proof.
  intros p Hf Hparse Hhas Hcfgs Htruthy Hpatch. unfold updateLaunch. fold p.
  rewrite (bind_returns _ _ _ _ _ (exists_file _ _ _ Hf)). cbn [negb].
  rewrite (bind_returns _ _ _ _ _ (readFile_file _ _ _ Hf)).
  rewrite (bind_returns _ _ _ _ _ (lift_returns _ _ fs Hparse)).
  rewrite (bind_returns _ _ _ _ _ (lift_returns _ _ fs Hhas)).
  rewrite (bind_returns _ _ _ _ _ (lift_returns _ _ fs Hcfgs)).
  rewrite Htruthy. cbn [negb andb].
  rewrite (bind_returns _ _ _ _ _ (lift_returns _ _ fs Hpatch)).
  rewrite (bind_returns _ _ _ _ _ (write_step dry _ _ _ _ Hf)).
  reflexivity.
Qed.

Lemma updateLaunch_skips repo cfg dry (fs : FS) text lj :
  fs !! Path.join repo ".vscode/launch.json" = Some (File text) ->
  Json.parse text = Return lj ->
  hasExtension (language cfg) lj = Return true ->
  updateLaunch repo cfg dry fs = (Return [], fs).
Proof.
  intros Hf Hparse Hhas. unfold updateLaunch.
  rewrite (bind_returns _ _ _ _ _ (exists_file _ _ _ Hf)). cbn [negb].
  rewrite (bind_returns _ _ _ _ _ (readFile_file _ _ _ Hf)).
  rewrite (bind_returns _ _ _ _ _ (lift_returns _ _ fs Hparse)).
  rewrite (bind_returns _ _ _ _ _ (lift_returns _ _ fs Hhas)).
  unfold hasExtension in Hhas. unfold bind, lift.
  destruct (get lj "configurations"); [reflexivity | discriminate].
Qed.

Lemma updateWorkspace_patches repo cfg dry (fs : FS) text w w' :
  let p := Path.join repo "konveyor-extensions.code-workspace" in
  fs !! p = Some (File text) ->
  parseJsonc text = Return w ->
  hasFolder (language cfg) w = Return false ->
  add_folder (language cfg) w = Return w' ->
  updateWorkspace repo cfg dry fs
  = (Return [workspace_operation (language cfg)],
     written dry p (Json.stringify w' +:+ Str.nl) fs).
Proof.
  intros p Hf Hparse Hhas Hpatch. unfold updateWorkspace. fold p.
  rewrite (bind_returns _ _ _ _ _ (exists_file _ _ _ Hf)). cbn [negb].
  rewrite (bind_returns _ _ _ _ _ (readFile_file _ _ _ Hf)).
  rewrite (bind_returns _ _ _ _ _ (lift_returns _ _ fs Hparse)).
  rewrite (bind_returns _ _ _ _ _ (lift_returns _ _ fs Hhas)). cbn [negb].
  rewrite (bind_returns _ _ _ _ _ (lift_returns _ _ fs Hpatch)).
  rewrite (bind_returns _ _ _ _ _ (write_step dry _ _ _ _ Hf)).
  reflexivity.
Qed.

Lemma updateWorkspace_skips repo cfg dry (fs : FS) text w :
  fs !! Path.join repo "konveyor-extensions.code-workspace" = Some (File text) ->
  parseJsonc text = Return w ->
  hasFolder (language cfg) w = Return true ->
  updateWorkspace repo cfg dry fs = (Return [], fs).
Proof.
  intros Hf Hparse Hhas. unfold updateWorkspace.
  rewrite (bind_returns _ _ _ _ _ (exists_file _ _ _ Hf)). cbn [negb].
  rewrite (bind_returns _ _ _ _ _ (readFile_file _ _ _ Hf)).
  rewrite (bind_returns _ _ _ _ _ (lift_returns _ _ fs Hparse)).
  rewrite (bind_returns _ _ _ _ _ (lift_returns _ _ fs Hhas)).
  reflexivity.
Qed.

End Structured.

(** ** The operations of the generation phase *)

Section Emitted.
Context `{NM : NumberModel}.
Variable render : engine.

Lemma emit_for tdir edir data dry m (fs fs' : FS) ops :
  emit render tdir edir data dry m fs = (Return ops, fs') ->
  if disabled m then ops = []
  else exists op, ops = [op] /\ type op = create /\ for_template (template m) op.
Proof.
  unfold emit. destruct (disabled m); [now intros [= <- _]|]. intros H.
  apply bind_Return in H as (found & f1 & _ & H).
  destruct (negb found).
  - injection H as <- _. eexists. split; [reflexivity|]. split; [reflexivity|].
    right. reflexivity.
  - apply bind_Return in H as (src & f2 & _ & H).
    apply bind_Return in H as (rendered & f3 & _ & H).
    apply bind_Return in H as ([] & f4 & _ & H).
    injection H as <- _. eexists. split; [reflexivity|]. split; [reflexivity|].
    left. reflexivity.
Qed.

Lemma emit_all_for tdir edir data dry ms (fs fs' : FS) ops :
  emit_all render tdir edir data dry ms fs = (Return ops, fs') ->
  Forall2 (fun t op => type op = create /\ for_template t op)
    (List.map template (List.filter (fun m => negb (disabled m)) ms)) ops.
Proof.
  revert fs fs' ops. induction ms as [|m ms IH]; intros fs fs' ops H; simpl in H.
  - injection H as <- _. constructor.
  - apply bind_Return in H as (o & f1 & E & H).
    apply bind_Return in H as (more & f2 & R & H). injection H as <- _.
    apply emit_for in E. apply IH in R. simpl.
    destruct (disabled m); simpl.
    + now subst o.
    + destruct E as (op & -> & Ht & Hf). now constructor.
Qed.

Lemma generateNewFiles_templates tdir edir data dry (fs fs' : FS) ops :
  generateNewFiles render tdir edir data dry fs = (Return ops, fs') ->
  Forall2 (fun t op => type op = create /\ for_template t op)
    (emitted_templates (td_proxyRequired data)) ops.
Proof.
  intros H. apply emit_all_for in H.
  replace (emitted_templates (td_proxyRequired data))
    with (List.map template
            (List.filter (fun m => negb (disabled m)) (fileMappings data)));
    [exact H|].
  unfold fileMappings, emitted_templates, disabled. simpl.
  destruct (td_proxyRequired data); reflexivity.
Qed.

End Emitted.

(** ** A fresh repository *)

Section FreshRepository.
Context `{NM : NumberModel}.
Variable render : engine.
Variable ctx : GenerationContext.
Variables fs fs0 fs1 : FS.
Variable newFiles : list FileOperation.

Let cfg := config ctx.
Let lang := language cfg.
Let dry := dryRun (options ctx).
Let repo := repoPath ctx.
Let rc := repoConfig ctx.
Let data := prepareTemplateData cfg.
Let proxy := td_proxyRequired data.

Let manifest_path := Path.join repo "package.json".
Let ci_path := Path.join repo ".github/workflows/ci-repo.yml".
Let assets_path := Path.join repo "scripts/collect-assets.js".
Let dist_path := Path.join repo "scripts/copy-dist.js".
Let valid_path := Path.join repo "scripts/package-extensions.js".
Let launch_path := Path.join repo ".vscode/launch.json".
Let workspace_path := Path.join repo "konveyor-extensions.code-workspace".

Variables manifest ci assets dist valid launch workspace : string.
Variable props : list (string * json).
Variable entries : list json.
Variables root' lj lj' w w' : json.
Variable cfgs : value.

(** The extension directory does not exist, the directories can be made
    and every mapping is emitted. *)
Hypothesis fresh_directory : Fs.existsSync (extensionDir ctx) fs = false.
Hypothesis directories_made : make_directories ctx fs = (Return tt, fs0).
Hypothesis files_generated :
  generateNewFiles render (templatesDir ctx) (extensionDir ctx) data dry fs0
  = (Return newFiles, fs1).

(** The seven files to patch are there, none with its key. *)
Hypothesis has_manifest : fs !! manifest_path = Some (File manifest).
Hypothesis manifest_parses : Json.parse manifest = Return (JObj props).
Hypothesis manifest_list : lookup_prop "workspaces" props = Some (JArr entries).
Hypothesis manifest_key : array_includes entries ("vscode/" +:+ lang) = false.
Hypothesis manifest_patched : patch_manifest lang (JObj props) = Return root'.
Hypothesis has_ci : fs !! ci_path = Some (File ci).
Hypothesis ci_key : Str.includes ci ("package-" +:+ lang) = false.
Hypothesis has_assets : fs !! assets_path = Some (File assets).
Hypothesis assets_key : Str.includes assets (q (binaryName (provider cfg))) = false.
Hypothesis has_dist : fs !! dist_path = Some (File dist).
Hypothesis dist_key : Str.includes dist (q lang) = false.
Hypothesis has_valid : fs !! valid_path = Some (File valid).
Hypothesis valid_key : Str.includes valid (q lang) = false.
Hypothesis has_launch : fs !! launch_path = Some (File launch).
Hypothesis launch_parses : Json.parse launch = Return lj.
Hypothesis launch_key : hasExtension lang lj = Return false.
Hypothesis launch_configurations : get lj "configurations" = Return cfgs.
Hypothesis launch_truthy : truthy_value cfgs = true.
Hypothesis launch_patched : add_paths lang lj = Return lj'.
Hypothesis has_workspace : fs !! workspace_path = Some (File workspace).
Hypothesis workspace_parses : parseJsonc workspace = Return w.
Hypothesis workspace_key : hasFolder lang w = Return false.
Hypothesis workspace_patched : add_folder lang w = Return w'.


Let patched : FS :=
  written dry workspace_path (Json.stringify w' +:+ Str.nl)
    (written dry launch_path (Json.stringify lj' +:+ Str.nl)
       (written dry valid_path (insert_valid cfg valid)
          (written dry dist_path (insert_copy cfg dist)
             (written dry assets_path (insert_asset cfg rc assets)
                (written dry ci_path (insert_step cfg ci)
                   (written dry manifest_path (Json.stringify root' +:+ Str.nl)
                      fs1)))))).







End FreshRepository.

(** Scenario A: Python with the proxy, previewed on the fresh repository. *)
Example scenario_python :
  let run := generateExtension PlainEngine.render
               Scenario.preview_python Scenario.fresh in
  success run.1 = true
  /\ List.map type (operations run.1)
     = (repeat create 9 ++ repeat modify 7)%list
  /\ List.map path (firstn 9 (operations run.1))
     = [ "vscode/python/package.json"; "vscode/python/tsconfig.json";
         "vscode/python/webpack.config.js"; "vscode/python/.eslintrc.json";
         "vscode/python/LICENSE.md"; "vscode/python/src/extension.ts";
         "vscode/python/src/PythonExternalProviderManager.ts";
         "vscode/python/src/PythonVscodeProxyServer.ts";
         "vscode/python/src/utilities/constants.ts" ].
Proof. cbv zeta. repeat split; reflexivity. Qed.


(** ** Insertions make the key present *)

Ltac has_part A B :=
  match goal with
  | |- Str.includes ?s ?k = true =>
      replace s with (A +:+ k +:+ B) by (rewrite ?app_assoc_s; reflexivity);
      apply includes_app
  end.

Section Insertions.
Context `{NM : NumberModel}.

Lemma includes_app_mid (a b c k : string) :
  Str.includes b k = true -> Str.includes (a +:+ b +:+ c) k = true.
Proof.
  intros H. apply includes_split in H as (x & y & ->).
  replace (a +:+ (x +:+ k +:+ y) +:+ c) with ((a +:+ x) +:+ k +:+ (y +:+ c))
    by (now rewrite !app_assoc_s).
  apply includes_app.
Qed.

Lemma includes_prefix (k s : string) : Str.includes (k +:+ s) k = true.
Proof. apply (includes_app EmptyString k s). Qed.

Lemma plain_app (a b : string) : plain (a +:+ b) = plain a && plain b.
Proof.
  unfold plain, Str.has_char. rewrite chars_app, existsb_app.
  now rewrite negb_orb.
Qed.

Lemma plain_cons (c : ascii) (s : string) :
  plain (String c s) = negb (Ascii.eqb "$" c) && plain s.
Proof. unfold plain, Str.has_char. cbn [Str.chars list_ascii_of_string existsb].
  now rewrite negb_orb. Qed.

(** A replacement text without a dollar sign stands for itself. *)
Lemma expand_plain (s t matched before after : string) (caps : list string) :
  plain s = true ->
  Replace.expand (s +:+ t) matched before after caps
  = s +:+ Replace.expand t matched before after caps.
Proof.
  induction s as [|c s IH]; intros H; [reflexivity|].
  rewrite plain_cons in H. apply andb_true_iff in H as [Hc Hs].
  apply negb_true_iff in Hc. rewrite Ascii.eqb_sym in Hc.
  change (String c s +:+ t) with (String c (s +:+ t)).
  cbn [Replace.expand]. rewrite Hc. cbn [String.append]. f_equal. now apply IH.
Qed.

Lemma expand_plain_all (s matched before after : string) (caps : list string) :
  plain s = true -> Replace.expand s matched before after caps = s.
Proof.
  intros H. rewrite <- (app_empty_r s) at 1. rewrite expand_plain by exact H.
  simpl. apply app_empty_r.
Qed.

Lemma replace_hit anchor caps tpl s :
  Str.includes s anchor = true ->
  exists before after,
    s = before +:+ anchor +:+ after
    /\ Replace.replace anchor caps tpl s
       = before +:+ Replace.expand tpl anchor before after caps +:+ after.
Proof.
  intros H. unfold Replace.replace.
  destruct (Str.find anchor s) as [[before after]|] eqn:E.
  - exists before, after. split; [now apply find_Some|reflexivity].
  - apply find_None in E. congruence.
Qed.

(** A group reference that no digit follows stands for its group. *)
Lemma expand_group (d : ascii) (i : nat) (rest matched before after g : string)
    (caps : list string) :
  Str.is_digit d = true -> Str.digit_value d = i ->
  Replace.capture caps i = Some g ->
  starts_with_digit rest = false ->
  Replace.expand (String "$" (String d rest)) matched before after caps
  = g +:+ Replace.expand rest matched before after caps.
Proof.
  intros Hd Hi Hg Hrest. cbn [Replace.expand]. rewrite Ascii.eqb_refl.
  destruct (Ascii.eqb_spec d "$") as [->|_]; [discriminate Hd|].
  destruct (Ascii.eqb_spec d "&") as [->|_]; [discriminate Hd|].
  destruct (Ascii.eqb_spec d "`") as [->|_]; [discriminate Hd|].
  destruct (Ascii.eqb_spec d "'") as [->|_]; [discriminate Hd|].
  rewrite Hd, Hi, Hg.
  destruct rest as [|e t]; [reflexivity|].
  simpl in Hrest. now rewrite Hrest.
Qed.

Lemma replaced_includes anchor caps tpl s inserted key :
  Str.includes s anchor = true ->
  (forall before after,
      Replace.expand tpl anchor before after caps = inserted) ->
  Str.includes inserted key = true ->
  Str.includes (Replace.replace anchor caps tpl s) key = true.
Proof.
  intros Hanchor Hexp Hkey.
  destruct (replace_hit anchor caps tpl s Hanchor) as (before & after & _ & ->).
  rewrite Hexp. now apply includes_app_mid.
Qed.

Lemma plain_packageStep cfg :
  plain (displayName cfg) = true -> plain (language cfg) = true ->
  plain (packageStep cfg) = true.
Proof.
  intros Hname Hlang. unfold packageStep, lines. cbn [Str.join].
  rewrite !plain_app, Hname, Hlang. reflexivity.
Qed.

Lemma insert_step_key cfg text :
  Str.includes text ci_anchor = true ->
  plain (displayName cfg) = true -> plain (language cfg) = true ->
  Str.includes (insert_step cfg text) ("package-" +:+ language cfg) = true.
Proof.
  intros Hanchor Hname Hlang. unfold insert_step.
  apply replaced_includes
    with (inserted := Str.nl +:+ "      " +:+ packageStep cfg +:+ Str.nl +:+ Str.nl
                      +:+ "      " +:+ "- name: Upload VSIX artifacts");
    [exact Hanchor | |].
  - intros before after.
    change ("$1$2" +:+ ?x) with (String "$" (String "1" (String "$" (String "2" x)))).
    rewrite (expand_group "1" 1 _ _ _ _ Str.nl) by reflexivity.
    rewrite (expand_group "2" 2 _ _ _ _ "      ") by reflexivity.
    rewrite expand_plain by now apply plain_packageStep.
    rewrite !(expand_plain Str.nl) by reflexivity.
    reflexivity.
  - apply (includes_app_mid (Str.nl +:+ "      ") (packageStep cfg)).
    unfold packageStep, lines. cbn [Str.join].
    has_part ("- name: Package " +:+ displayName cfg +:+ " extension" +:+ Str.nl
              +:+ "        run: npm run ")
             (Str.nl +:+ "        if: runner.os == 'Linux'").
Qed.

Lemma plain_q s : plain s = true -> plain (q s) = true.
Proof. intros H. unfold q. rewrite !plain_app, H. reflexivity. Qed.

Lemma or_string_plain x d :
  match x with Some s => plain s = true | None => True end ->
  plain d = true -> plain (or_string x d) = true.
Proof. destruct x as [[|c s]|]; simpl; auto. Qed.

Lemma insert_asset_key cfg rc text :
  Str.includes text "const ASSETS = {" = true ->
  plain (assetConfig cfg rc) = true ->
  Str.includes (insert_asset cfg rc text) (q (binaryName (provider cfg))) = true.
Proof.
  intros Hanchor Hplain. unfold insert_asset.
  apply replaced_includes
    with (inserted := "const ASSETS = {" +:+ Str.nl +:+ assetConfig cfg rc);
    [exact Hanchor | |].
  - intros before after.
    change ("$1" +:+ ?x) with (String "$" (String "1" x)).
    rewrite (expand_group "1" 1 _ _ _ _ "const ASSETS = {") by reflexivity.
    rewrite (expand_plain Str.nl) by reflexivity.
    now rewrite expand_plain_all.
  - unfold assetConfig, lines. cbn [Str.join].
    has_part ("const ASSETS = {" +:+ Str.nl +:+ "  ")
             (": {" +:+ Str.nl +:+ "    release: {" +:+ Str.nl
              +:+ ("      repo: " +:+ q (assetRepo cfg rc) +:+ ",") +:+ Str.nl
              +:+ ("      tag: " +:+ q (assetTag cfg rc) +:+ ",") +:+ Str.nl
              +:+ "    }," +:+ Str.nl +:+ "  },").
Qed.

Lemma insert_copy_key cfg text :
  Str.includes text "const EXTENSIONS = {" = true ->
  plain (copyConfig cfg) = true ->
  Str.includes (insert_copy cfg text) (q (language cfg)) = true.
Proof.
  intros Hanchor Hplain. unfold insert_copy.
  apply replaced_includes
    with (inserted := "const EXTENSIONS = {" +:+ Str.nl +:+ copyConfig cfg);
    [exact Hanchor | |].
  - intros before after.
    change ("$1" +:+ ?x) with (String "$" (String "1" x)).
    rewrite (expand_group "1" 1 _ _ _ _ "const EXTENSIONS = {") by reflexivity.
    rewrite (expand_plain Str.nl) by reflexivity.
    now rewrite expand_plain_all.
  - unfold copyConfig, lines. cbn [Str.join].
    has_part ("const EXTENSIONS = {" +:+ Str.nl +:+ "  ")
             (": {" +:+ Str.nl
              +:+ ("    extensionPath: " +:+ q ("vscode/" +:+ language cfg) +:+ ",")
              +:+ Str.nl +:+ "    includedAssetPaths: {" +:+ Str.nl
              +:+ ("      " +:+ q (Utils.toCamelCase (binaryName (provider cfg))) +:+ ": "
                   +:+ q ("../../downloaded_assets/" +:+ binaryName (provider cfg))
                   +:+ ",")
              +:+ Str.nl +:+ "    }," +:+ Str.nl +:+ "  },").
Qed.

Lemma insert_valid_key cfg text :
  Str.includes text "const VALID_EXTENSIONS = [" = true ->
  plain (language cfg) = true ->
  Str.includes (insert_valid cfg text) (q (language cfg)) = true.
Proof.
  intros Hanchor Hplain. unfold insert_valid.
  apply replaced_includes
    with (inserted := "const VALID_EXTENSIONS = [" +:+ q (language cfg) +:+ ", ");
    [exact Hanchor | |].
  - intros before after.
    change ("$1" +:+ ?x) with (String "$" (String "1" x)).
    rewrite (expand_group "1" 1 _ _ _ _ "const VALID_EXTENSIONS = [") by reflexivity.
    rewrite expand_plain_all; [reflexivity|].
    rewrite plain_app, plain_q by exact Hplain. reflexivity.
  - apply includes_app.
Qed.

(** Once patched in apply mode, a text strategy is idle. *)
Lemma patch_text_settles p key insert op (fs : FS) text :
  fs !! p = Some (File text) ->
  Str.includes text key = false ->
  Str.includes (insert text) key = true ->
  settles (patch_text p key insert op) fs.
Proof.
  intros Hf Hkey Hins. exists op, (<[p := File (insert text)]> fs). split.
  - now rewrite (patch_text_patches _ _ _ _ false _ _ Hf Hkey).
  - intros dry. apply patch_text_present with (c := insert text); [|exact Hins].
    apply lookup_insert_eq.
Qed.

End Insertions.

(** ** The structured strategies, once patched *)

Section Settled.
Context `{NM : NumberModel}.

Lemma some_snoc {A} (f : A -> outcome bool) (l : list A) (x : A) :
  some f l = Return false -> some f (l ++ [x]) = (let? b := f x in Return b).
Proof.
  induction l as [|y l IH]; simpl.
  - intros _. destruct (f x) as [[]|]; reflexivity.
  - destruct (f y) as [[]|]; simpl; [discriminate | exact IH | discriminate].
Qed.

Lemma lookup_insert_index_same k i v props :
  lookup_prop k props = None -> lookup_prop k (insert_index i k v props) = Some v.
Proof.
  induction props as [|[k0 v0] props IH]; simpl; [now rewrite String.eqb_refl|].
  destruct (String.eqb k k0) eqn:E; [discriminate|]. intros H.
  destruct (index_of_key k0) as [j|]; [destruct (j <? i)%N|]; simpl;
    rewrite ?E, ?String.eqb_refl; auto.
Qed.

Lemma lookup_app_same k v props :
  lookup_prop k props = None -> lookup_prop k (props ++ [(k, v)]) = Some v.
Proof.
  induction props as [|[k0 v0] props IH]; simpl; [now rewrite String.eqb_refl|].
  destruct (String.eqb k k0); [discriminate | exact IH].
Qed.

(** After [o[k] = v] the property is [v]. *)
Lemma lookup_set_prop_same k v props : lookup_prop k (set_prop k v props) = Some v.
Proof.
  unfold set_prop. destruct (lookup_prop k props) as [x|] eqn:E.
  - apply lookup_replace_prop. now exists x.
  - destruct (index_of_key k);
      [now apply lookup_insert_index_same | now apply lookup_app_same].
Qed.

Lemma development_path_mentions lang :
  path_mentions lang (JStr (developmentPath lang)) = Return true.
Proof.
  unfold path_mentions, developmentPath, extensionFolder. f_equal.
  replace ("${workspaceFolder}/vscode/" +:+ lang)
    with ("${workspaceFolder}/" +:+ ("vscode/" +:+ lang) +:+ EmptyString)
    by (now rewrite app_empty_r).
  apply includes_app.
Qed.

(** The body of the [forEach], on a configuration that the search for
    the extension went through. *)
Lemma add_path_spec lang c :
  config_mentions lang c = Return false ->
  exists c',
    add_path lang c = Return c'
    /\ (config_mentions lang c' = Return true \/ c' = c)
    /\ (has_path_list c -> config_mentions lang c' = Return true).
Proof.
  unfold config_mentions, add_path.
  destruct c as [|b|n|s|items|props]; cbn [get obind]; try discriminate;
    try (intros _; eexists; split; [reflexivity|]; split; [now right|];
         intros (? & ? & [=] & _)).
  destruct (lookup_prop "extensionDevelopmentPath" props) as [e|] eqn:E.
  - destruct e as [|b|n|s|paths|ps]; try discriminate.
    + intros _. cbn [truthy]. eexists. split; [reflexivity|]. split; [now right|].
      intros (? & ? & [= <-] & H). rewrite E in H. discriminate.
    + intros Hsome. cbn [truthy array_push obind set].
      eexists. split; [reflexivity|].
      assert (Hm : (let? edp := get (JObj (set_prop "extensionDevelopmentPath"
                                             (JArr (paths ++ [JStr (developmentPath lang)]))
                                             props)) "extensionDevelopmentPath" in
                    match edp with
                    | None | Some JNull => Return false
                    | Some (JArr l) => some (path_mentions lang) l
                    | Some _ => Throw "c.extensionDevelopmentPath.some is not a function"
                    end) = Return true).
      { cbn [get obind]. rewrite lookup_set_prop_same.
        rewrite (some_snoc _ _ _ Hsome), development_path_mentions. reflexivity. }
      split; [left; exact Hm | intros _; exact Hm].
  - intros _. eexists. split; [reflexivity|]. split; [now right|].
    intros (? & ? & [= <-] & H). rewrite E in H. discriminate.
Qed.

Lemma add_paths_mention lang l :
  some (config_mentions lang) l = Return false ->
  exists l',
    for_each (add_path lang) l = Return l'
    /\ (Exists has_path_list l -> some (config_mentions lang) l' = Return true).
Proof.
  induction l as [|c l IH]; simpl.
  - intros _. exists []. split; [reflexivity|]. intros H. inversion H.
  - destruct (config_mentions lang c) as [[]|] eqn:Ec; simpl; try discriminate.
    intros Hl. destruct (IH Hl) as (l' & Hfor & Hex).
    destruct (add_path_spec lang c Ec) as (c' & Hadd & Hcases & Hlist).
    exists (c' :: l'). rewrite Hadd. simpl. rewrite Hfor. simpl.
    split; [reflexivity|]. intros Hany.
    destruct Hcases as [Htrue | ->].
    + now rewrite Htrue.
    + rewrite Ec. simpl. apply Hex.
      inversion Hany as [? ? Hc|]; subst; [|assumption].
      apply Hlist in Hc. congruence.
Qed.

(** The launch configuration: once the paths are added, the extension is
    found. *)
Lemma launch_patch_found lang props l :
  lookup_prop "configurations" props = Some (JArr l) ->
  hasExtension lang (JObj props) = Return false ->
  Exists has_path_list l ->
  exists lj',
    add_paths lang (JObj props) = Return lj'
    /\ hasExtension lang lj' = Return true.
Proof.
  intros Hc Hhas Hany. unfold hasExtension in Hhas. cbn [get obind] in Hhas.
  rewrite Hc in Hhas.
  destruct (add_paths_mention lang l Hhas) as (l' & Hfor & Hex).
  exists (JObj (set_prop "configurations" (JArr l') props)). split.
  - unfold add_paths. cbn [get obind]. rewrite Hc, Hfor. reflexivity.
  - unfold hasExtension. cbn [get obind]. rewrite lookup_set_prop_same. now apply Hex.
Qed.

(** The workspace: once the folder is added, it is found. *)
Lemma workspace_patch_found lang props :
  hasFolder lang (JObj props) = Return false ->
  exists w',
    add_folder lang (JObj props) = Return w'
    /\ hasFolder lang w' = Return true.
Proof.
  unfold hasFolder, add_folder. cbn [get obind].
  assert (Hentry : is_folder lang (folder_entry lang) = Return true).
  { unfold is_folder, folder_entry. cbn. now rewrite String.eqb_refl. }
  destruct (lookup_prop "folders" props) as [[|b|n|s|l|ps]|] eqn:E;
    try discriminate; intros Hsome;
    cbn [or_else truthy set array_push obind app];
    eexists; (split; [reflexivity|]);
    cbn [get obind]; rewrite lookup_set_prop_same.
  - cbn [some]. now rewrite Hentry.
  - now rewrite (some_snoc _ _ _ Hsome), Hentry.
  - cbn [some]. now rewrite Hentry.
Qed.

End Settled.

(** ** Running the strategies again *)

Section Idempotence.
Context `{NM : NumberModel}.
Variables (repo : string) (cfg : ExtensionConfig) (rc : RepoConfig).

Let lang := language cfg.

Lemma launch_again (fs : FS) text lj :
  fs !! Path.join repo ".vscode/launch.json" = Some (File text) ->
  Json.parse text = Return lj ->
  (hasExtension lang lj = Return true -> idle (updateLaunch repo cfg) fs)
  /\ (forall props l,
        lj = JObj props ->
        lookup_prop "configurations" props = Some (JArr l) ->
        hasExtension lang lj = Return false ->
        Exists has_path_list l ->
        (forall lj', add_paths lang lj = Return lj' ->
                     Json.parse (Json.stringify lj' +:+ Str.nl) = Return lj') ->
        settles (updateLaunch repo cfg) fs).
Proof.
  intros Hf Hparse. split.
  - intros Hhas dry. now apply updateLaunch_skips with (text := text) (lj := lj).
  - intros props l -> Hc Hhas Hany Hback.
    destruct (launch_patch_found lang props l Hc Hhas Hany) as (lj' & Hadd & Hfound).
    exists (launch_operation lang),
      (<[Path.join repo ".vscode/launch.json" :=
           File (Json.stringify lj' +:+ Str.nl)]> fs).
    split.
    + apply (updateLaunch_patches repo cfg false fs text (JObj props) (Some (JArr l)) lj');
        auto. cbn [get]. now rewrite Hc.
    + intros dry.
      apply updateLaunch_skips
        with (text := Json.stringify lj' +:+ Str.nl) (lj := lj'); auto.
      apply lookup_insert_eq.
Qed.

Lemma workspace_again (fs : FS) text w :
  fs !! Path.join repo "konveyor-extensions.code-workspace" = Some (File text) ->
  parseJsonc text = Return w ->
  (hasFolder lang w = Return true -> idle (updateWorkspace repo cfg) fs)
  /\ (forall props,
        w = JObj props ->
        hasFolder lang w = Return false ->
        (forall w', add_folder lang w = Return w' ->
                    parseJsonc (Json.stringify w' +:+ Str.nl) = Return w') ->
        settles (updateWorkspace repo cfg) fs).
Proof.
  intros Hf Hparse. split.
  - intros Hhas dry. now apply updateWorkspace_skips with (text := text) (w := w).
  - intros props -> Hhas Hback.
    destruct (workspace_patch_found lang props Hhas) as (w' & Hadd & Hfound).
    exists (workspace_operation lang),
      (<[Path.join repo "konveyor-extensions.code-workspace" :=
           File (Json.stringify w' +:+ Str.nl)]> fs).
    split.
    + now apply (updateWorkspace_patches repo cfg false fs text (JObj props) w').
    + intros dry.
      apply updateWorkspace_skips
        with (text := Json.stringify w' +:+ Str.nl) (w := w'); auto.
      apply lookup_insert_eq.
Qed.

(** C1, as the code has it, for the six strategies other than the root
    manifest.  Each of them stages nothing and writes nothing when its key
    is present in the file.  When the key is absent and the insertion
    point is there (the anchor of a text strategy occurs and the inserted
    text has no dollar sign; some launch configuration has a path list;
    the workspace is an object) and, for the two JSON files, the text
    written parses back to the value written, the strategy patches the
    file in apply mode and from then on stages nothing and writes
    nothing. *)
Theorem guarded_strategies_settle (fs : FS) (text : string) :
  (fs !! Path.join repo ".github/workflows/ci-repo.yml" = Some (File text) ->
   (Str.includes text ("package-" +:+ lang) = true ->
    idle (updateCiWorkflow repo cfg) fs)
   /\ (Str.includes text ("package-" +:+ lang) = false ->
       Str.includes text ci_anchor = true ->
       plain (displayName cfg) = true -> plain lang = true ->
       settles (updateCiWorkflow repo cfg) fs))
  /\ (fs !! Path.join repo "scripts/collect-assets.js" = Some (File text) ->
      (Str.includes text (q (binaryName (provider cfg))) = true ->
       idle (updateCollectAssets repo cfg rc) fs)
      /\ (Str.includes text (q (binaryName (provider cfg))) = false ->
          Str.includes text "const ASSETS = {" = true ->
          plain (assetConfig cfg rc) = true ->
          settles (updateCollectAssets repo cfg rc) fs))
  /\ (fs !! Path.join repo "scripts/copy-dist.js" = Some (File text) ->
      (Str.includes text (q lang) = true -> idle (updateCopyDist repo cfg) fs)
      /\ (Str.includes text (q lang) = false ->
          Str.includes text "const EXTENSIONS = {" = true ->
          plain (copyConfig cfg) = true ->
          settles (updateCopyDist repo cfg) fs))
  /\ (fs !! Path.join repo "scripts/package-extensions.js" = Some (File text) ->
      (Str.includes text (q lang) = true ->
       idle (updatePackageExtensions repo cfg) fs)
      /\ (Str.includes text (q lang) = false ->
          Str.includes text "const VALID_EXTENSIONS = [" = true ->
          plain lang = true ->
          settles (updatePackageExtensions repo cfg) fs))
  /\ (forall lj,
        fs !! Path.join repo ".vscode/launch.json" = Some (File text) ->
        Json.parse text = Return lj ->
        (hasExtension lang lj = Return true -> idle (updateLaunch repo cfg) fs)
        /\ (forall props l,
              lj = JObj props ->
              lookup_prop "configurations" props = Some (JArr l) ->
              hasExtension lang lj = Return false ->
              Exists has_path_list l ->
              (forall lj', add_paths lang lj = Return lj' ->
                           Json.parse (Json.stringify lj' +:+ Str.nl) = Return lj') ->
              settles (updateLaunch repo cfg) fs))
  /\ (forall w,
        fs !! Path.join repo "konveyor-extensions.code-workspace" = Some (File text) ->
        parseJsonc text = Return w ->
        (hasFolder lang w = Return true -> idle (updateWorkspace repo cfg) fs)
        /\ (forall props,
              w = JObj props ->
              hasFolder lang w = Return false ->
              (forall w', add_folder lang w = Return w' ->
                          parseJsonc (Json.stringify w' +:+ Str.nl) = Return w') ->
              settles (updateWorkspace repo cfg) fs)).
Proof.
  split; [|split; [|split; [|split; [|split]]]].
  - intros Hf. rewrite updateCiWorkflow_text. split.
    + intros Hkey dry. now apply patch_text_present with (c := text).
    + intros Hkey Hanchor Hname Hlang.
      apply patch_text_settles with (text := text); auto.
      now apply insert_step_key.
  - intros Hf. rewrite updateCollectAssets_text. split.
    + intros Hkey dry. now apply patch_text_present with (c := text).
    + intros Hkey Hanchor Hplain.
      apply patch_text_settles with (text := text); auto.
      now apply insert_asset_key.
  - intros Hf. rewrite updateCopyDist_text. split.
    + intros Hkey dry. now apply patch_text_present with (c := text).
    + intros Hkey Hanchor Hplain.
      apply patch_text_settles with (text := text); auto.
      now apply insert_copy_key.
  - intros Hf. rewrite updatePackageExtensions_text. split.
    + intros Hkey dry. now apply patch_text_present with (c := text).
    + intros Hkey Hanchor Hplain.
      apply patch_text_settles with (text := text); auto.
      now apply insert_valid_key.
  - intros lj Hf Hparse. now apply launch_again with (text := text).
  - intros w Hf Hparse. now apply workspace_again with (text := text).
Qed.

End Idempotence.

(** C1, as stated, fails: the workflow has no step named "Upload VSIX
    artifacts" (and the repository has no manifest); the first run leaves
    the workflow as it is, and the second run, with the same input,
    stages the modify operation of the workflow again. *)
Lemma second_run_stages_again :
  let run1 := generateExtension PlainEngine.render
                Scenario.forced_python Scenario.renamed_step_only in
  let run2 := generateExtension PlainEngine.render Scenario.forced_python run1.2 in
  success run1.1 = true
  /\ success run2.1 = true
  /\ List.filter is_modify (operations run2.1) = [ci_operation Scenario.python].
Proof. cbv zeta. repeat split; reflexivity. Qed.

(** On the fresh repository every guarded strategy settles. *)
Lemma guarded_strategies_settle_fresh :
  settles (updateCiWorkflow "/repo" Scenario.rust) Scenario.fresh
  /\ settles (updateCollectAssets "/repo" Scenario.rust Scenario.host) Scenario.fresh
  /\ settles (updateCopyDist "/repo" Scenario.rust) Scenario.fresh
  /\ settles (updatePackageExtensions "/repo" Scenario.rust) Scenario.fresh
  /\ settles (updateLaunch "/repo" Scenario.rust) Scenario.fresh
  /\ settles (updateWorkspace "/repo" Scenario.rust) Scenario.fresh.
Proof.
  pose (strategies := guarded_strategies_settle "/repo" Scenario.rust Scenario.host
                        Scenario.fresh).
  split; [|split; [|split; [|split; [|split]]]].
  - destruct (strategies Scenario.ci_text) as (H & _).
    apply H; reflexivity.
  - destruct (strategies (lines ["const ASSETS = {"; "};"])) as (_ & H & _).
    apply H; reflexivity.
  - destruct (strategies (lines ["const EXTENSIONS = {"; "};"])) as (_ & _ & H & _).
    apply H; reflexivity.
  - destruct (strategies ("const VALID_EXTENSIONS = [" +:+ q "java" +:+ "];"))
      as (_ & _ & _ & H & _).
    apply H; reflexivity.
  - destruct (strategies Scenario.launch_text) as (_ & _ & _ & _ & H & _).
    apply (proj2 (H _ eq_refl eq_refl) _ _ eq_refl eq_refl eq_refl).
    + constructor. eexists _, _. split; reflexivity.
    + intros lj' Hadd.
      assert (E : add_paths "rust" (value_of JNull (Json.parse Scenario.launch_text))
                  = Return (value_of JNull
                              (add_paths "rust"
                                 (value_of JNull (Json.parse Scenario.launch_text)))))
        by reflexivity.
      change (add_paths "rust" (value_of JNull (Json.parse Scenario.launch_text))
              = Return lj') in Hadd.
      rewrite E in Hadd. injection Hadd as <-. reflexivity.
  - destruct (strategies Scenario.workspace_text) as (_ & _ & _ & _ & _ & H).
    apply (proj2 (H _ eq_refl eq_refl) _ eq_refl eq_refl).
    intros w' Hadd.
    assert (E : add_folder "rust" (value_of JNull (parseJsonc Scenario.workspace_text))
                = Return (value_of JNull
                            (add_folder "rust"
                               (value_of JNull (parseJsonc Scenario.workspace_text)))))
      by reflexivity.
    change (add_folder "rust" (value_of JNull (parseJsonc Scenario.workspace_text))
            = Return w') in Hadd.
    rewrite E in Hadd. injection Hadd as <-. reflexivity.
Defined.

(** ** What a run keeps *)

Section Keeps.

Lemma keeps_refl W (fs : FS) : keeps W fs fs.
Proof.
  intros t. destruct (fs !! t) as [[c|]|] eqn:E; auto.
  split; [now exists c | auto].
Qed.

Lemma keeps_trans W (fs1 fs2 fs3 : FS) :
  keeps W fs1 fs2 -> keeps W fs2 fs3 -> keeps W fs1 fs3.
Proof.
  intros H12 H23 t. specialize (H12 t). specialize (H23 t).
  destruct (fs1 !! t) as [[c|]|]; [| |exact I].
  - destruct H12 as [[c' Hc'] Hout]. rewrite Hc' in H23.
    destruct H23 as [Hin H23]. split; [exact Hin|].
    intros HW. specialize (Hout HW). rewrite Hout in Hc'. injection Hc' as <-.
    now apply H23.
  - now rewrite H12 in H23.
Qed.

Lemma frames_reads_only {A} W (m : IO A) : reads_only m -> frames W m.
Proof. intros H fs. rewrite H. apply keeps_refl. Qed.

Lemma frames_bind {A B} W (m : IO A) (k : A -> IO B) :
  frames W m -> (forall a, frames W (k a)) -> frames W (bind m k).
Proof.
  intros Hm Hk fs. unfold bind. specialize (Hm fs).
  destruct (m fs) as [[a|e] fs1]; simpl in Hm; [|exact Hm].
  eapply keeps_trans; [exact Hm | apply Hk].
Qed.

Lemma frames_mkdir W p : frames W (Fs.mkdir p).
Proof.
  intros fs. unfold Fs.mkdir.
  destruct (existsb _ _) eqn:E; [apply keeps_refl|]. cbn [snd].
  intros t. destruct (fs !! t) as [[c|]|] eqn:Ht; [| |exact I].
  - assert (Hnot : t ∉ Path.parents p).
    { intros Hin. apply list_elem_of_In in Hin.
      assert (existsb (fun d => Fs.is_file d fs) (Path.parents p) = true); [|congruence].
      apply existsb_exists. exists t. split; [exact Hin|].
      unfold Fs.is_file. now rewrite Ht. }
    rewrite foldr_insert_dir_other by exact Hnot.
    split; [now exists c | auto].
  - generalize (Path.parents p). intros ds.
    induction ds as [|d ds IH]; simpl; [exact Ht|].
    destruct (decide (d = t)) as [->|Hne].
    + apply lookup_insert_eq.
    + now rewrite lookup_insert_ne.
Qed.

Lemma frames_writeFile (W : string -> Prop) p text : W p -> frames W (Fs.writeFile p text).
Proof.
  intros HW fs. unfold Fs.writeFile.
  destruct (fs !! p) as [[c|]|] eqn:Hp; cbn [snd]; [|apply keeps_refl|];
    intros t; destruct (fs !! t) as [[c'|]|] eqn:Ht; try exact I;
    destruct (decide (t = p)) as [->|Hne];
    rewrite ?lookup_insert_eq, ?lookup_insert_ne by congruence;
    try congruence;
    try (split; [eauto | intros Hn; try contradiction; auto]).
Qed.

Lemma frames_dry W dry (step : IO unit) : frames W step -> frames W (unless_dry dry step).
Proof.
  intros H. destruct dry; [|exact H].
  apply frames_reads_only, reads_only_ret.
Qed.

End Keeps.

Ltac frames :=
  repeat first
    [ apply frames_reads_only; reads_only; fail
    | apply frames_mkdir
    | apply frames_writeFile; assumption
    | apply frames_dry
    | apply frames_bind; [ | intros ? ]
    | match goal with
      | |- frames _ (if ?b then _ else _) => destruct b
      end ].

Section Frames.
Context `{NM : NumberModel}.
Variable render : engine.

Lemma emit_frames (W : string -> Prop) tdir edir data dry m :
  W (Path.join edir (output m)) -> frames W (emit render tdir edir data dry m).
Proof. intros HW. unfold emit. frames. Qed.

Lemma emit_all_frames (W : string -> Prop) tdir edir data dry ms :
  Forall (fun m => W (Path.join edir (output m))) ms ->
  frames W (emit_all render tdir edir data dry ms).
Proof.
  induction 1 as [|m ms Hm _ IH]; simpl.
  - apply frames_reads_only, reads_only_ret.
  - apply frames_bind; [now apply emit_frames|]. intros ops.
    apply frames_bind; [exact IH|]. intros more.
    apply frames_reads_only, reads_only_ret.
Qed.

Lemma modifyExistingFiles_frames (W : string -> Prop) repo cfg rc dry :
  Forall (fun lit => W (Path.join repo lit)) target_files ->
  frames W (modifyExistingFiles repo cfg rc dry).
Proof.
  intros Hall. unfold target_files in Hall.
  repeat match goal with
         | H : Forall _ (_ :: _) |- _ =>
             let H1 := fresh "Ht" in
             apply Forall_cons_iff in H as [H1 H]
         end.
  unfold modifyExistingFiles, updateRootPackage, updateCiWorkflow, updateCollectAssets,
    updateCopyDist, updatePackageExtensions, updateLaunch, updateWorkspace.
  frames.
Qed.

(** X1.  Whatever a run returns, it deletes nothing: a directory is still
    a directory, a regular file is still a regular file, and the only
    regular files whose content may have changed are the outputs of the
    file mappings and the seven patch targets. *)
Theorem run_keeps_other_files (ctx : GenerationContext) (fs : FS) :
  keeps (may_write ctx) fs (generateExtension render ctx fs).2.
Proof.
  unfold generateExtension.
  destruct (Fs.existsSync (extensionDir ctx) fs && negb (force (options ctx)));
    [apply keeps_refl|].
  assert (H1 : frames (may_write ctx) (make_directories ctx)).
  { unfold make_directories. frames. }
  specialize (H1 fs).
  destruct (make_directories ctx fs) as [[[]|e] fs1]; simpl in H1; [|exact H1].
  assert (H2 : frames (may_write ctx)
                 (generateNewFiles render (templatesDir ctx) (extensionDir ctx)
                    (prepareTemplateData (config ctx)) (dryRun (options ctx)))).
  { apply emit_all_frames. apply List.Forall_forall. intros m Hm. left. now exists m. }
  specialize (H2 fs1).
  destruct (generateNewFiles _ _ _ _ _ fs1) as [[newFiles|e] fs2]; simpl in H2;
    [|eapply keeps_trans; eassumption].
  assert (H3 : frames (may_write ctx)
                 (modifyExistingFiles (repoPath ctx) (config ctx) (repoConfig ctx)
                    (dryRun (options ctx)))).
  { apply modifyExistingFiles_frames. apply List.Forall_forall. intros lit Hlit.
    right. now exists lit. }
  specialize (H3 fs2).
  destruct (modifyExistingFiles _ _ _ _ fs2) as [[mods|e] fs3]; simpl in H3;
    (eapply keeps_trans; [eapply keeps_trans; eassumption | exact H3]).
Qed.

End Frames.

(** ** The preview and the run it announces *)

Section Agreement.

Lemma shows_refl (fs : FS) p : shows fs fs p.
Proof. now left. Qed.

Lemma shows_same (fs0 fs fs' : FS) p :
  fs' !! p = fs !! p -> shows fs0 fs p -> shows fs0 fs' p.
Proof. unfold shows. intros ->. auto. Qed.

Lemma shows_absent (fs0 fs : FS) p : shows fs0 fs p -> fs !! p = None -> fs0 !! p = None.
Proof. intros [H|[H1 H2]] Hp; congruence. Qed.

Lemma shows_file (fs0 fs : FS) p c :
  shows fs0 fs p -> fs !! p = Some (File c) -> fs0 !! p = Some (File c).
Proof. intros [H|[H1 H2]] Hp; congruence. Qed.

Lemma mkdir_shows p (fs0 fs fs' : FS) t :
  Fs.mkdir p fs = (Return tt, fs') -> shows fs0 fs t -> shows fs0 fs' t.
Proof.
  unfold Fs.mkdir. destruct (existsb _ _) eqn:E; [discriminate|].
  intros [= <-] Hs.
  destruct (decide (t ∈ Path.parents p)) as [Hin|Hnot].
  - assert (Hdir : foldr (fun d m => <[d := Dir]> m) fs (Path.parents p) !! t = Some Dir).
    { revert Hin. generalize (Path.parents p). intros ds.
      induction ds as [|d ds IH]; intros Hin; [now apply not_elem_of_nil in Hin|].
      simpl. destruct (decide (d = t)) as [->|Hne]; [apply lookup_insert_eq|].
      rewrite lookup_insert_ne by exact Hne. apply IH.
      apply elem_of_cons in Hin as [->|Hin]; [contradiction|exact Hin]. }
    assert (Hfile : Fs.is_file t fs = false).
    { destruct (Fs.is_file t fs) eqn:F; [|reflexivity].
      assert (existsb (fun d => Fs.is_file d fs) (Path.parents p) = true); [|congruence].
      apply existsb_exists. exists t. split; [now apply list_elem_of_In | exact F]. }
    unfold Fs.is_file in Hfile. unfold shows in *. rewrite Hdir.
    destruct Hs as [Hs|[H0 Hs]]; [|now right].
    rewrite <- Hs. destruct (fs !! t) as [[c|]|]; [discriminate | now left | now right].
  - eapply shows_same; [|exact Hs]. now apply foldr_insert_dir_other.
Qed.

Lemma exists_returns p (fs fs1 : FS) b :
  exists_ p fs = (Return b, fs1) -> fs1 = fs /\ b = Fs.existsSync p fs.
Proof. now intros [= <- <-]. Qed.

Lemma readFile_returns p (fs fs1 : FS) c :
  Fs.readFile p fs = (Return c, fs1) -> fs1 = fs /\ fs !! p = Some (File c).
Proof.
  unfold Fs.readFile. destruct (fs !! p) as [[c'|]|]; try discriminate.
  now intros [= <- <-].
Qed.

Lemma lift_Return {A} (o : outcome A) (a : A) (fs fs1 : FS) :
  lift o fs = (Return a, fs1) -> fs1 = fs /\ o = Return a.
Proof. now intros [= <- <-]. Qed.

Lemma existsSync_false p (fs : FS) : Fs.existsSync p fs = false -> fs !! p = None.
Proof. unfold Fs.existsSync. now destruct (fs !! p). Qed.

Lemma existsSync_file p (fs : FS) c : fs !! p = Some (File c) -> Fs.existsSync p fs = true.
Proof. unfold Fs.existsSync. now intros ->. Qed.

End Agreement.

Section Previewed.
Context `{NM : NumberModel}.
Variable render : engine.

Lemma writeFile_Return p text (fs fs' : FS) :
  Fs.writeFile p text fs = (Return tt, fs') -> fs' = <[p := File text]> fs.
Proof.
  unfold Fs.writeFile. destruct (fs !! p) as [[c|]|]; try discriminate; now intros [= <-].
Qed.

(** What apply mode does for a mapping, preview mode announces on the
    file system the run started from. *)
Lemma emit_previewed (R : string -> Prop) tdir edir data m (fs0 fs fs' : FS) ops :
  agrees R fs0 fs ->
  R (Path.join tdir (template m)) ->
  ~ R (Path.join edir (output m)) ->
  emit render tdir edir data false m fs = (Return ops, fs') ->
  agrees R fs0 fs'
  /\ exists ops_p,
       emit render tdir edir data true m fs0 = (Return ops_p, fs0)
       /\ List.map without_content ops_p = ops
       /\ forall op text,
            In op ops_p -> content op = Some text ->
            op = generated data true m text
            /\ fs' !! Path.join edir (output m) = Some (File text).
Proof.
  intros Hag Hin Hout. unfold emit.
  destruct (disabled m).
  { intros [= <- <-]. split; [exact Hag|]. exists []. split; [reflexivity|]. split; [reflexivity|]. intros ? ? []. }
  intros H.
  apply bind_Return in H as (found & f1 & H1 & H).
  apply exists_returns in H1 as [-> ->].
  destruct (Fs.existsSync (Path.join tdir (template m)) fs) eqn:Hex; cbn [negb] in H.
  - apply bind_Return in H as (src & f2 & H2 & H).
    apply readFile_returns in H2 as [-> Hsrc].
    apply bind_Return in H as (rendered & f3 & H3 & H).
    apply lift_Return in H3 as [-> Hrender].
    apply bind_Return in H as ([] & f4 & H4 & H). injection H as <- <-.
    cbn [unless_dry] in H4.
    apply bind_Return in H4 as ([] & f5 & H5 & H6).
    apply writeFile_Return in H6. subst f4.
    pose proof (shows_file _ _ _ _ (Hag _ Hin) Hsrc) as Hsrc0.
    split.
    + intros p Hp. eapply shows_same; [|eapply mkdir_shows; [exact H5 | apply Hag, Hp]].
      apply lookup_insert_ne. intros <-. contradiction.
    + exists [generated data true m rendered]. split; [|split].
      * rewrite (bind_returns _ _ _ _ _ (exists_file _ _ _ Hsrc0)). cbn [negb].
        rewrite (bind_returns _ _ _ _ _ (readFile_file _ _ _ Hsrc0)).
        rewrite (bind_returns _ _ fs0 rendered fs0) by (unfold lift; now rewrite Hrender).
        reflexivity.
      * reflexivity.
      * intros op text [<-|[]] Hc. cbn in Hc. injection Hc as <-.
        split; [reflexivity | apply lookup_insert_eq].
  - injection H as <- <-. split; [exact Hag|].
    exists [placeholder (Path.join edir (output m)) m]. split; [|split].
    + rewrite (bind_returns _ _ _ _ _
                 (exists_none _ _ (shows_absent _ _ _ (Hag _ Hin) (existsSync_false _ _ Hex)))).
      reflexivity.
    + reflexivity.
    + intros op text [<-|[]] Hc. discriminate Hc.
Qed.

Lemma emit_all_previewed (R : string -> Prop) tdir edir data ms :
  Forall (fun m => R (Path.join tdir (template m)) /\ ~ R (Path.join edir (output m))) ms ->
  NoDup (List.map output ms) ->
  forall (fs0 fs fs' : FS) ops,
    agrees R fs0 fs ->
    emit_all render tdir edir data false ms fs = (Return ops, fs') ->
    agrees R fs0 fs'
    /\ exists ops_p,
         emit_all render tdir edir data true ms fs0 = (Return ops_p, fs0)
         /\ List.map without_content ops_p = ops
         /\ forall op text,
              In op ops_p -> content op = Some text ->
              exists m, In m ms /\ op = generated data true m text
                        /\ fs' !! Path.join edir (output m) = Some (File text).
Proof.
  induction 1 as [|m ms [Hin Hout] Hms IH]; intros Hnd fs0 fs fs' ops Hag H; simpl in H.
  - injection H as <- <-. split; [exact Hag|]. exists [].
    split; [reflexivity|]. split; [reflexivity|]. intros ? ? [].
  - apply bind_Return in H as (o1 & f1 & H1 & H).
    apply bind_Return in H as (o2 & f2 & H2 & H). injection H as <- <-.
    apply NoDup_cons in Hnd as [Hfresh Hnd].
    destruct (emit_previewed R _ _ _ _ _ _ _ _ Hag Hin Hout H1)
      as (Hag1 & p1 & Hp1 & Hmap1 & Hw1).
    destruct (IH Hnd _ _ _ _ Hag1 H2) as (Hag2 & p2 & Hp2 & Hmap2 & Hw2).
    split; [exact Hag2|]. exists (p1 ++ p2)%list. split; [|split].
    + simpl. rewrite (bind_returns _ _ _ _ _ Hp1), (bind_returns _ _ _ _ _ Hp2).
      reflexivity.
    + rewrite List.map_app. now rewrite Hmap1, Hmap2.
    + intros op text Hop Hc. apply in_app_or in Hop as [Hop|Hop].
      * destruct (Hw1 op text Hop Hc) as [-> Hfile]. exists m.
        split; [now left|]. split; [reflexivity|].
        eapply emit_all_keeps_files; [exact H2 | | exact Hfile].
        apply List.Forall_forall. intros m' Hm' Heq.
        apply join_injective in Heq. apply Hfresh. rewrite Heq.
        apply list_elem_of_In. now apply in_map.
      * destruct (Hw2 op text Hop Hc) as (m' & Hm' & -> & Hfile). exists m'.
        split; [now right|]. now split.
Qed.

End Previewed.

Section Announced.
Context `{NM : NumberModel}.

Lemma write_Return p text (fs fs' : FS) :
  unless_dry false (Fs.writeFile p text) fs = (Return tt, fs') ->
  forall t, t <> p -> fs' !! t = fs !! t.
Proof.
  cbn [unless_dry]. intros H t Hne. eapply writeFile_keeps_others; eassumption.
Qed.

Ltac opened H :=
  repeat match type of H with
         | bind (exists_ _) _ _ = (Return _, _) =>
             let b := fresh "found" in let f := fresh "fs" in
             let H1 := fresh "Hfound" in
             apply bind_Return in H as (b & f & H1 & H);
             apply exists_returns in H1 as [-> ->]
         | bind (Fs.readFile _) _ _ = (Return _, _) =>
             let c := fresh "text" in let f := fresh "fs" in
             let H1 := fresh "Hread" in
             apply bind_Return in H as (c & f & H1 & H);
             apply readFile_returns in H1 as [-> H1]
         | bind (lift _) _ _ = (Return _, _) =>
             let a := fresh "a" in let f := fresh "fs" in
             let H1 := fresh "Hlift" in
             apply bind_Return in H as (a & f & H1 & H);
             apply lift_Return in H1 as [-> H1]
         | bind (unless_dry false _) _ _ = (Return _, _) =>
             let f := fresh "fs" in
             let H1 := fresh "Hwrite" in
             apply bind_Return in H as ([] & f & H1 & H)
         end.

Lemma patch_text_announced p key insert op : announced p (patch_text p key insert op).
Proof.
  intros fs0 fs fs' ops Hs H. unfold patch_text in *. opened H.
  destruct (Fs.existsSync p fs) eqn:Hex; cbn [negb] in H.
  - opened H. pose proof (shows_file _ _ _ _ Hs Hread) as H0.
    rewrite (bind_returns _ _ _ _ _ (exists_file _ _ _ H0)). cbn [negb].
    rewrite (bind_returns _ _ _ _ _ (readFile_file _ _ _ H0)).
    destruct (Str.includes text key).
    + injection H as <- <-. now split.
    + opened H. injection H as <- <-. split; [reflexivity|].
      exact (write_Return _ _ _ _ Hwrite).
  - injection H as <- <-.
    rewrite (bind_returns _ _ _ _ _
               (exists_none _ _ (shows_absent _ _ _ Hs (existsSync_false _ _ Hex)))).
    now split.
Qed.

Lemma updateRootPackage_announced repo cfg :
  announced (Path.join repo "package.json") (updateRootPackage repo cfg).
Proof.
  intros fs0 fs fs' ops Hs H. unfold updateRootPackage in *. opened H.
  destruct (Fs.existsSync _ fs) eqn:Hex; cbn [negb] in H.
  - opened H. pose proof (shows_file _ _ _ _ Hs Hread) as H0.
    rewrite (bind_returns _ _ _ _ _ (exists_file _ _ _ H0)). cbn [negb].
    rewrite (bind_returns _ _ _ _ _ (readFile_file _ _ _ H0)).
    rewrite (bind_returns _ _ _ _ _ (lift_returns _ _ _ Hlift)).
    rewrite (bind_returns _ _ _ _ _ (lift_returns _ _ _ Hlift0)).
    injection H as <- <-. split; [reflexivity|].
    exact (write_Return _ _ _ _ Hwrite).
  - injection H as <- <-.
    rewrite (bind_returns _ _ _ _ _
               (exists_none _ _ (shows_absent _ _ _ Hs (existsSync_false _ _ Hex)))).
    now split.
Qed.

Lemma updateLaunch_announced repo cfg :
  announced (Path.join repo ".vscode/launch.json") (updateLaunch repo cfg).
Proof.
  intros fs0 fs fs' ops Hs H. unfold updateLaunch in *. opened H.
  destruct (Fs.existsSync _ fs) eqn:Hex; cbn [negb] in H.
  - opened H. pose proof (shows_file _ _ _ _ Hs Hread) as H0.
    rewrite (bind_returns _ _ _ _ _ (exists_file _ _ _ H0)). cbn [negb].
    rewrite (bind_returns _ _ _ _ _ (readFile_file _ _ _ H0)).
    rewrite (bind_returns _ _ _ _ _ (lift_returns _ _ _ Hlift)).
    rewrite (bind_returns _ _ _ _ _ (lift_returns _ _ _ Hlift0)).
    rewrite (bind_returns _ _ _ _ _ (lift_returns _ _ _ Hlift1)).
    destruct (negb a0 && truthy_value a1).
    + opened H. rewrite (bind_returns _ _ _ _ _ (lift_returns _ _ _ Hlift2)).
      injection H as <- <-. split; [reflexivity|].
      exact (write_Return _ _ _ _ Hwrite).
    + injection H as <- <-. now split.
  - injection H as <- <-.
    rewrite (bind_returns _ _ _ _ _
               (exists_none _ _ (shows_absent _ _ _ Hs (existsSync_false _ _ Hex)))).
    now split.
Qed.

Lemma updateWorkspace_announced repo cfg :
  announced (Path.join repo "konveyor-extensions.code-workspace")
    (updateWorkspace repo cfg).
Proof.
  intros fs0 fs fs' ops Hs H. unfold updateWorkspace in *. opened H.
  destruct (Fs.existsSync _ fs) eqn:Hex; cbn [negb] in H.
  - opened H. pose proof (shows_file _ _ _ _ Hs Hread) as H0.
    rewrite (bind_returns _ _ _ _ _ (exists_file _ _ _ H0)). cbn [negb].
    rewrite (bind_returns _ _ _ _ _ (readFile_file _ _ _ H0)).
    rewrite (bind_returns _ _ _ _ _ (lift_returns _ _ _ Hlift)).
    rewrite (bind_returns _ _ _ _ _ (lift_returns _ _ _ Hlift0)).
    destruct (negb a0).
    + opened H. rewrite (bind_returns _ _ _ _ _ (lift_returns _ _ _ Hlift1)).
      injection H as <- <-. split; [reflexivity|].
      exact (write_Return _ _ _ _ Hwrite).
    + injection H as <- <-. now split.
  - injection H as <- <-.
    rewrite (bind_returns _ _ _ _ _
               (exists_none _ _ (shows_absent _ _ _ Hs (existsSync_false _ _ Hex)))).
    now split.
Qed.

Ltac next H lemma Ht :=
  let o := fresh "o" in let f := fresh "f" in
  let H1 := fresh "H" in let P := fresh "P" in let K := fresh "K" in
  apply bind_Return in H as (o & f & H1 & H);
  destruct (lemma _ _ _ _ Ht H1) as [P K];
  rewrite (bind_returns _ _ _ _ _ P);
  clear Ht H1 P;
  repeat match goal with
         | Hx : shows _ ?g _ |- _ =>
             lazymatch g with
             | f => fail
             | _ => apply (shows_same _ _ f) in Hx;
                    [| apply K; let E := fresh in
                       intros E; apply join_injective in E; discriminate E]
             end
         end;
  clear K.

Lemma modifyExistingFiles_previewed repo cfg rc (fs0 fs fs' : FS) ops :
  Forall (fun lit => shows fs0 fs (Path.join repo lit)) target_files ->
  modifyExistingFiles repo cfg rc false fs = (Return ops, fs') ->
  modifyExistingFiles repo cfg rc true fs0 = (Return ops, fs0).
Proof.
  intros Hall H. unfold target_files in Hall.
  repeat match goal with
         | H : Forall _ (_ :: _) |- _ =>
             let H1 := fresh "Ht" in apply Forall_cons_iff in H as [H1 H]
         end.
  clear Hall. unfold modifyExistingFiles in *.
  rewrite updateCiWorkflow_text, updateCollectAssets_text, updateCopyDist_text,
    updatePackageExtensions_text in *.
  next H (updateRootPackage_announced repo cfg) Ht.
  next H (patch_text_announced (Path.join repo ".github/workflows/ci-repo.yml")
            ("package-" +:+ language cfg) (insert_step cfg) (ci_operation cfg)) Ht0.
  next H (patch_text_announced (Path.join repo "scripts/collect-assets.js")
            (q (binaryName (provider cfg))) (insert_asset cfg rc)
            (assets_operation cfg rc)) Ht1.
  next H (patch_text_announced (Path.join repo "scripts/copy-dist.js")
            (q (language cfg)) (insert_copy cfg) (copy_operation cfg)) Ht2.
  next H (patch_text_announced (Path.join repo "scripts/package-extensions.js")
            (q (language cfg)) (insert_valid cfg) (valid_operation cfg)) Ht3.
  next H (updateLaunch_announced repo cfg) Ht4.
  next H (updateWorkspace_announced repo cfg) Ht5.
  injection H as <- <-. reflexivity.
Qed.

End Announced.

Section PreviewAndApply.
Context `{NM : NumberModel}.
Variable render : engine.

Lemma length_app_s (a b : string) :
  String.length (a +:+ b) = String.length a + String.length b.
Proof. induction a as [|c a IH]; simpl; [reflexivity | now rewrite IH]. Qed.

(** The mappings write at nine different paths, whatever the language. *)
Lemma outputs_distinct (data : TemplateData) :
  NoDup (List.map output (fileMappings data)).
Proof.
  cbn [fileMappings List.map output].
  set (P := pascalLanguage data).
  assert (Hm : forall lit, String.length lit < 26 ->
                 "src/" +:+ P +:+ "ExternalProviderManager.ts" <> "src/" +:+ lit).
  { intros lit Hlen [= E]. apply (f_equal String.length) in E.
    rewrite length_app_s in E. simpl in E. lia. }
  assert (Hp : forall lit, String.length lit < 20 ->
                 "src/" +:+ P +:+ "VscodeProxyServer.ts" <> "src/" +:+ lit).
  { intros lit Hlen [= E]. apply (f_equal String.length) in E.
    rewrite length_app_s in E. simpl in E. lia. }
  assert (Hu : "src/" +:+ P +:+ "VscodeProxyServer.ts" <> "src/utilities/constants.ts").
  { intros [= E]. destruct P as [|a [|b [|c P']]]; try discriminate E.
    apply (f_equal String.length) in E. simpl in E. rewrite length_app_s in E.
    simpl in E. lia. }
  assert (Hmp : "src/" +:+ P +:+ "ExternalProviderManager.ts"
                <> "src/" +:+ P +:+ "VscodeProxyServer.ts").
  { intros [= E]. apply (inj (String.app P)) in E. discriminate E. }
  repeat (apply NoDup_cons; split;
          [rewrite !elem_of_cons, elem_of_nil; intros H;
           repeat destruct H as [H|H]; try discriminate H; try contradiction|]).
  all: try apply NoDup_singleton.
  all: try (symmetry in H; first [now apply (Hm "extension.ts") in H; simpl; lia
                                 | now apply (Hp "extension.ts") in H; simpl; lia]).
  all: try first [ now apply Hmp in H | now apply Hu in H
                 | now apply (Hm "utilities/constants.ts") in H; simpl; lia ].
Qed.

Lemma templates_apart_spec ctx m m' :
  templates_apart ctx = true ->
  In m (fileMappings (prepareTemplateData (config ctx))) ->
  In m' (fileMappings (prepareTemplateData (config ctx))) ->
  Path.join (templatesDir ctx) (template m) <> Path.join (extensionDir ctx) (output m').
Proof.
  unfold templates_apart. intros H Hm Hm' E.
  rewrite forallb_forall in H. specialize (H m Hm).
  rewrite forallb_forall in H. specialize (H m' Hm').
  rewrite E, String.eqb_refl in H. discriminate H.
Qed.

Lemma target_is_no_output ctx lit out :
  In lit target_files ->
  Path.join (repoPath ctx) lit <> Path.join (extensionDir ctx) out.
Proof.
  intros Hlit. unfold extensionDir. apply target_not_generated.
  unfold target_files in Hlit. cbn [In] in Hlit.
  repeat destruct Hlit as [<-|Hlit]; try reflexivity. contradiction.
Qed.

Lemma outputs_unread ctx m :
  templates_apart ctx = true ->
  In m (fileMappings (prepareTemplateData (config ctx))) ->
  ~ may_read ctx (Path.join (extensionDir ctx) (output m)).
Proof.
  intros Hap Hm [(m' & Hm' & E)|(lit & Hlit & E)].
  - symmetry in E. revert E. now apply templates_apart_spec.
  - symmetry in E. revert E. now apply target_is_no_output.
Qed.

Lemma staged_without_content data op :
  staged data false op -> without_content op = op.
Proof. now intros []. Qed.

Lemma all_without_content data ops :
  Forall (staged data false) ops -> List.map without_content ops = ops.
Proof.
  induction 1 as [|op l Hop _ IH]; [reflexivity|].
  cbn [List.map]. now rewrite (staged_without_content _ _ Hop), IH.
Qed.

Lemma generated_path ctx m text :
  Path.join (repoPath ctx)
    (path (generated (prepareTemplateData (config ctx)) true m text))
  = Path.join (extensionDir ctx) (output m).
Proof.
  unfold extensionDir, Path.join. cbn [path generated td_language prepareTemplateData].
  rewrite !app_assoc_s. reflexivity.
Qed.

(** A successful run in apply mode, seen from the preview of the same
    run on the same file system. *)
Lemma run_previewed (ctx : GenerationContext) (fs : FS) :
  templates_apart ctx = true ->
  success (generateExtension render (in_mode false ctx) fs).1 = true ->
  exists shown,
    generateExtension render (in_mode true ctx) fs
    = (result (in_mode true ctx) true shown [], fs)
    /\ List.map without_content shown
       = operations (generateExtension render (in_mode false ctx) fs).1
    /\ forall op text,
         In op shown -> content op = Some text ->
         (generateExtension render (in_mode false ctx) fs).2
           !! Path.join (repoPath ctx) (path op) = Some (File text).
Proof.
  intros Hap. unfold generateExtension.
  change (extensionDir (in_mode false ctx)) with (extensionDir ctx).
  change (extensionDir (in_mode true ctx)) with (extensionDir ctx).
  cbn [in_mode with_dryRun options config force dryRun templatesDir repoPath repoConfig].
  destruct (Fs.existsSync (extensionDir ctx) fs && negb (force (options ctx)));
    [discriminate|].
  unfold make_directories at 2. cbn [in_mode with_dryRun options dryRun unless_dry ret].
  destruct (make_directories (in_mode false ctx) fs) as [[[]|e] fs1] eqn:Hdirs;
    [|discriminate].
  assert (Hag1 : agrees (may_read ctx) fs fs1).
  { unfold make_directories in Hdirs.
    cbn [in_mode with_dryRun options dryRun unless_dry] in Hdirs.
    apply bind_Return in Hdirs as ([] & f & H1 & H2).
    intros p _. eapply mkdir_shows; [exact H2|].
    eapply mkdir_shows; [exact H1 | apply shows_refl]. }
  unfold generateNewFiles.
  destruct (emit_all render (templatesDir ctx) (extensionDir ctx)
              (prepareTemplateData (config ctx)) false _ fs1)
    as [[newFiles|e] fs2] eqn:Hgen; [|discriminate].
  assert (Hrw : Forall (fun m => may_read ctx (Path.join (templatesDir ctx) (template m))
                                /\ ~ may_read ctx (Path.join (extensionDir ctx) (output m)))
                  (fileMappings (prepareTemplateData (config ctx)))).
  { apply List.Forall_forall. intros m Hm.
    split; [left; now exists m | now apply outputs_unread]. }
  destruct (emit_all_previewed render (may_read ctx) _ _ _ _ Hrw
              (outputs_distinct _) _ _ _ _ Hag1 Hgen)
    as (Hag2 & shown & Hshown & Hmap & Hfiles).
  rewrite Hshown.
  destruct (modifyExistingFiles (repoPath ctx) (config ctx) (repoConfig ctx) false fs2)
    as [[mods|e] fs3] eqn:Hmod; [|discriminate].
  intros _.
  assert (Hshows : Forall (fun lit => shows fs fs2 (Path.join (repoPath ctx) lit))
                     target_files).
  { apply List.Forall_forall. intros lit Hlit. apply Hag2. right. now exists lit. }
  rewrite (modifyExistingFiles_previewed _ _ _ fs fs2 fs3 mods Hshows Hmod).
  exists (shown ++ mods)%list. split; [reflexivity|]. split.
  - cbn [fst operations result]. rewrite List.map_app, Hmap. f_equal.
    pose proof (modifyExistingFiles_staged (prepareTemplateData (config ctx))
                  _ _ _ _ _ _ _ Hmod) as Hst.
    now apply all_without_content in Hst.
  - cbn [snd]. intros op text Hop Hc. apply in_app_or in Hop as [Hop|Hop].
    + destruct (Hfiles op text Hop Hc) as (m & Hm & -> & Hfile).
      rewrite generated_path.
      assert (Htargets : Forall (fun lit => exists lit', In lit' target_files
                                   /\ Path.join (repoPath ctx) lit
                                      = Path.join (repoPath ctx) lit') target_files).
      { apply List.Forall_forall. intros lit Hlit. now exists lit. }
      pose proof (modifyExistingFiles_frames
                    (fun t => exists lit, In lit target_files
                                          /\ t = Path.join (repoPath ctx) lit)
                    (repoPath ctx) (config ctx) (repoConfig ctx) false Htargets
                    fs2 (Path.join (extensionDir ctx) (output m))) as Hk.
      rewrite Hfile, Hmod in Hk. apply Hk.
      intros (lit & Hlit & E). symmetry in E. revert E.
      now apply target_is_no_output.
    + pose proof (modifyExistingFiles_staged (prepareTemplateData (config ctx))
                    _ _ _ _ _ _ _ Hmod) as Hst.
      rewrite List.Forall_forall in Hst. specialize (Hst op Hop).
      destruct Hst; discriminate Hc.
Qed.

(** X2.  The preview announces the run.  When a run in apply mode
    succeeds and no template is at the path of an output, the preview of
    the same run on the same file system succeeds as well and stages the
    same operations in the same order: they differ only by the rendered
    text, which the preview carries and the run does not. *)
Theorem preview_predicts_apply (ctx : GenerationContext) (fs : FS) :
  templates_apart ctx = true ->
  success (generateExtension render (in_mode false ctx) fs).1 = true ->
  let preview := generateExtension render (in_mode true ctx) fs in
  let run := generateExtension render (in_mode false ctx) fs in
  success preview.1 = true
  /\ errors preview.1 = []
  /\ List.map without_content (operations preview.1) = operations run.1.
Proof.
  intros Hap Hok preview run.
  destruct (run_previewed ctx fs Hap Hok) as (shown & Hpreview & Hsame & _).
  subst preview run. rewrite Hpreview. cbn [fst success errors operations result].
  split; [reflexivity|]. split; [reflexivity | exact Hsame].
Qed.

(** X3.  The run writes what the preview shows.  When a run in apply
    mode succeeds and no template is at the path of an output, every
    operation of the preview that carries a text names, relative to the
    repository, a regular file that the run leaves with exactly that
    text. *)
Theorem run_writes_what_preview_shows (ctx : GenerationContext) (fs : FS)
    (op : FileOperation) (text : string) :
  templates_apart ctx = true ->
  success (generateExtension render (in_mode false ctx) fs).1 = true ->
  In op (operations (generateExtension render (in_mode true ctx) fs).1) ->
  content op = Some text ->
  (generateExtension render (in_mode false ctx) fs).2
    !! Path.join (repoPath ctx) (path op) = Some (File text).
Proof.
  intros Hap Hok Hop Hc.
  destruct (run_previewed ctx fs Hap Hok) as (shown & Hpreview & _ & Hfiles).
  rewrite Hpreview in Hop. cbn [fst operations result] in Hop.
  now apply Hfiles.
Qed.

End PreviewAndApply.


(** The first scenario: the preview of the run for Python on the fresh
    repository stages what the run stages. *)
Lemma preview_predicts_apply_fresh :
  let preview := generateExtension PlainEngine.render
                   (in_mode true Scenario.apply_python) Scenario.fresh in
  let run := generateExtension PlainEngine.render
               (in_mode false Scenario.apply_python) Scenario.fresh in
  success preview.1 = true
  /\ errors preview.1 = []
  /\ List.map without_content (operations preview.1) = operations run.1.
Proof.
  exact (preview_predicts_apply PlainEngine.render Scenario.apply_python Scenario.fresh
           eq_refl eq_refl).
Defined.

(** The manifest of the extension, as the preview shows it, is on disk
    after the run. *)
Lemma run_writes_what_preview_shows_fresh :
  let op := generated (prepareTemplateData Scenario.python) true
              {| template := "package.json.hbs"; output := "package.json";
                 condition := None |}
              "{ name: konveyor-python }" in
  (generateExtension PlainEngine.render
     (in_mode false Scenario.apply_python) Scenario.fresh).2
    !! Path.join (repoPath Scenario.apply_python) (path op)
  = Some (File "{ name: konveyor-python }").
Proof.
  exact (run_writes_what_preview_shows PlainEngine.render Scenario.apply_python
           Scenario.fresh _ "{ name: konveyor-python }"
           eq_refl eq_refl (or_introl eq_refl) eq_refl).
Defined.

(** ** The manifest, run after run *)

Section ManifestAgain.
Context `{NM : NumberModel}.

Lemma replace_prop_same k v props :
  lookup_prop k props = Some v -> replace_prop k v props = props.
Proof.
  induction props as [|[k' v'] props IH]; simpl; [reflexivity|].
  destruct (String.eqb k k') eqn:E.
  - now intros [= ->].
  - intros H. now rewrite IH.
Qed.

Lemma set_prop_same k v props :
  lookup_prop k props = Some v -> set_prop k v props = props.
Proof. intros H. unfold set_prop. rewrite H. now apply replace_prop_same. Qed.

Lemma array_includes_In (l : list json) (s : string) :
  array_includes l s = true <-> In (JStr s) l.
Proof.
  unfold array_includes. rewrite existsb_exists. split.
  - intros (x & Hx & E). destruct x; try discriminate E.
    apply String.eqb_eq in E. now subst.
  - intros H. exists (JStr s). split; [exact H | apply String.eqb_refl].
Qed.

Lemma array_includes_pushed (l : list json) (s : string) :
  array_includes (sort (l ++ [JStr s])) s = true.
Proof.
  apply array_includes_In.
  apply (Permutation_in _ (Permutation_sym (sort_perm _))).
  apply in_or_app. right. now left.
Qed.

Lemma workspaces_include_pushed (l : list json) (s : string) :
  workspaces_include (Some (JArr (sort (l ++ [JStr s])))) s = Return true.
Proof. cbn [workspaces_include]. now rewrite array_includes_pushed. Qed.

(** Once the workspace is added, it is found. *)
Lemma add_workspace_found lang props r1 :
  add_workspace lang (JObj props) = Return r1 ->
  exists props1 ws1,
    r1 = JObj props1
    /\ lookup_prop "workspaces" props1 = Some ws1
    /\ workspaces_include (Some ws1) ("vscode/" +:+ lang) = Return true
    /\ lookup_prop "scripts" props1 = lookup_prop "scripts" props.
Proof.
  unfold add_workspace. cbn [get obind].
  destruct (lookup_prop "workspaces" props) as [ws|] eqn:Hws.
  - destruct ws as [|b|n|t|l|o]; cbn [workspaces_include obind]; try discriminate.
    + cbn [or_else truthy set array_push obind app]. intros [= <-].
      eexists _, _. split; [reflexivity|]. rewrite lookup_set_prop_same.
      split; [reflexivity|]. split; [exact (workspaces_include_pushed [] _)|].
      now rewrite !lookup_set_prop_ne by discriminate.
    + destruct (Str.includes t ("vscode/" +:+ lang)) eqn:Hin.
      * intros [= <-]. exists props, (JStr t). cbn [workspaces_include].
        now rewrite Hin.
      * cbn [or_else truthy]. destruct t as [|c t]; cbn [String.eqb negb];
          [|cbn [set obind array_push]; discriminate].
        cbn [set array_push obind app]. intros [= <-].
        eexists _, _. split; [reflexivity|]. rewrite lookup_set_prop_same.
        split; [reflexivity|]. split; [exact (workspaces_include_pushed [] _)|].
        now rewrite !lookup_set_prop_ne by discriminate.
    + destruct (array_includes l ("vscode/" +:+ lang)) eqn:Hin.
      * intros [= <-]. exists props, (JArr l). cbn [workspaces_include].
        now rewrite Hin.
      * cbn [or_else truthy set array_push obind]. intros [= <-].
        eexists _, _. split; [reflexivity|]. rewrite lookup_set_prop_same.
        split; [reflexivity|]. split; [apply workspaces_include_pushed|].
        now rewrite !lookup_set_prop_ne by discriminate.
  - cbn [workspaces_include obind or_else set array_push app]. intros [= <-].
    eexists _, _. split; [reflexivity|]. rewrite lookup_set_prop_same.
    split; [reflexivity|]. split; [exact (workspaces_include_pushed [] _)|].
    now rewrite !lookup_set_prop_ne by discriminate.
Qed.

Lemma add_workspace_again lang props ws :
  lookup_prop "workspaces" props = Some ws ->
  workspaces_include (Some ws) ("vscode/" +:+ lang) = Return true ->
  add_workspace lang (JObj props) = Return (JObj props).
Proof.
  intros Hws Hin. unfold add_workspace. cbn [get obind]. rewrite Hws, Hin. reflexivity.
Qed.

(** Once the script is added, adding it again changes nothing. *)
Lemma add_script_again lang props r2 :
  add_script lang (JObj props) = Return r2 ->
  exists props2,
    r2 = JObj props2
    /\ lookup_prop "workspaces" props2 = lookup_prop "workspaces" props
    /\ add_script lang r2 = Return r2.
Proof.
  unfold add_script. cbn [get obind set].
  set (name := "package-" +:+ lang).
  set (val := JStr ("node ./scripts/package-extensions.js " +:+ lang)).
  set (scripts := or_else (lookup_prop "scripts" props) (JObj [])).
  assert (Hshape : (exists sp, scripts = JObj sp) \/ (exists l, scripts = JArr l)
                   \/ forall x, set scripts name val <> Return x).
  { subst scripts. destruct (lookup_prop "scripts" props) as [[|b|n|t|l|o]|];
      cbn [or_else truthy]; eauto;
      match goal with
      | |- context [if ?c then _ else _] => destruct c; eauto
      end; right; right; intros x; discriminate. }
  destruct Hshape as [[sp ->]|[[l ->]|Hno]].
  - cbn [set obind]. intros [= <-]. eexists. split; [reflexivity|].
    split; [now rewrite !lookup_set_prop_ne by discriminate|].
    cbn [get obind]. rewrite lookup_set_prop_same. cbn [or_else truthy set obind].
    rewrite (set_prop_same name val) by apply lookup_set_prop_same.
    now rewrite !(set_prop_same "scripts") by apply lookup_set_prop_same.
  - cbn [set obind]. intros [= <-]. eexists. split; [reflexivity|].
    split; [now rewrite !lookup_set_prop_ne by discriminate|].
    cbn [get obind]. rewrite lookup_set_prop_same. cbn [or_else truthy set obind].
    now rewrite !(set_prop_same "scripts") by apply lookup_set_prop_same.
  - destruct (set scripts name val) as [x|e]; [now contradiction (Hno x)|].
    discriminate.
Qed.

(** The patch of the manifest is a fixed point of the patch. *)
Lemma patch_manifest_again lang root root' :
  patch_manifest lang root = Return root' ->
  patch_manifest lang root' = Return root'.
Proof.
  unfold patch_manifest. destruct root as [|b|n|t|l|props]; try discriminate.
  - intros H. assert (E : root' = JArr l) by (cbn in H; congruence).
    now rewrite E in *.
  - destruct (add_workspace lang (JObj props)) as [r1|e] eqn:H1; [|discriminate].
    cbn [obind]. intros H2.
    destruct (add_workspace_found _ _ _ H1) as (props1 & ws1 & -> & Hws1 & Hin1 & _).
    destruct (add_script_again _ _ _ H2) as (props2 & -> & Hws2 & Hagain).
    rewrite (add_workspace_again lang props2 ws1) by (congruence || exact Hin1).
    exact Hagain.
Qed.

(** X4.  The manifest strategy stages its operation on every run, but
    from the second run on it rewrites the manifest with the text that is
    already there: when the manifest is JSON that the patch accepts, and
    the patched value is canonical, a run in apply mode writes the
    serialisation of the patched value, and every later run, in either
    mode, stages the operation and leaves the file system as it is. *)
Theorem manifest_rewrite_is_stable (repo : string) (cfg : ExtensionConfig) (fs : FS)
    (text : string) (root root' : json) :
  let p := Path.join repo "package.json" in
  let fs1 := <[p := File (Json.stringify root' +:+ Str.nl)]> fs in
  fs !! p = Some (File text) ->
  Json.parse text = Return root ->
  patch_manifest (language cfg) root = Return root' ->
  canonical root' ->
  updateRootPackage repo cfg false fs = (Return [manifest_operation (language cfg)], fs1)
  /\ forall dry,
       updateRootPackage repo cfg dry fs1
       = (Return [manifest_operation (language cfg)], fs1).
Proof.
  intros p fs1 Hf Hparse Hpatch Hcan. split.
  - now rewrite (updateRootPackage_patches repo cfg false fs text root root').
  - intros dry.
    assert (Hf1 : fs1 !! p = Some (File (Json.stringify root' +:+ Str.nl)))
      by apply lookup_insert_eq.
    rewrite (updateRootPackage_patches repo cfg dry fs1 _ root' root' Hf1
               (parse_stringify root' Hcan) (patch_manifest_again _ _ _ Hpatch)).
    f_equal. now apply written_same with (c := Json.stringify root' +:+ Str.nl).
Qed.

End ManifestAgain.

(** The manifest of the fresh repository, patched for Rust. *)
Lemma manifest_rewrite_is_stable_fresh :
  let root' := JObj [ ("workspaces",
                       JArr [JStr "vscode/core"; JStr "vscode/java"; JStr "vscode/rust"]);
                      ("scripts",
                       JObj [("package-rust",
                              JStr "node ./scripts/package-extensions.js rust")]) ] in
  let fs1 := <[Path.join "/repo" "package.json"
                 := File (Json.stringify root' +:+ Str.nl)]> Scenario.fresh in
  updateRootPackage "/repo" Scenario.rust false Scenario.fresh
    = (Return [manifest_operation "rust"], fs1)
  /\ forall dry,
       updateRootPackage "/repo" Scenario.rust dry fs1
       = (Return [manifest_operation "rust"], fs1).
Proof.
  refine (manifest_rewrite_is_stable "/repo" Scenario.rust Scenario.fresh
            Scenario.manifest_text
            (JObj [ ("workspaces", JArr [JStr "vscode/core"; JStr "vscode/java"]);
                    ("scripts", JObj []) ])
            _ eq_refl eq_refl eq_refl _).
  cbn. repeat split.
Defined.

(** ** The extensions of a repository *)

Section Listing.
Context `{NM : NumberModel}.

Lemma replace_prefix (p s : string) :
  Str.starts_with p s = true -> Replace.replace p [] EmptyString s = Str.after p s.
Proof.
  intros H. unfold Replace.replace.
  destruct s as [|c s]; cbn [Str.find]; rewrite H; reflexivity.
Qed.

(** The names found in a list of workspaces that are all texts. *)
Lemma existing_In (l : list json) (n : string) :
  Forall (fun w => exists s, w = JStr s) l ->
  In n (existing l)
  <-> exists s, In (JStr s) l
                /\ Str.starts_with "vscode/" s = true
                /\ s <> "vscode/core"
                /\ n = Str.after "vscode/" s.
Proof.
  induction 1 as [|w l [s ->] _ IH]; cbn [existing].
  - split; [intros [] | intros (s & [] & _)].
  - destruct (Str.starts_with "vscode/" s) eqn:Hs; cbn [andb].
    + destruct (String.eqb_spec s "vscode/core") as [->|Hne]; cbn [negb].
      * rewrite IH. split.
        -- intros (t & Ht & H). exists t. split; [now right | exact H].
        -- intros (t & [[= <-]|Ht] & H1 & H2 & H3); [now contradiction H2|].
           now exists t.
      * cbn [In]. rewrite IH, (replace_prefix _ _ Hs). split.
        -- intros [<-|(t & Ht & H)].
           ++ exists s. auto.
           ++ exists t. split; [now right | exact H].
        -- intros (t & [[= <-]|Ht] & H1 & H2 & ->); [now left|].
           right. now exists t.
    + rewrite IH. split.
      * intros (t & Ht & H). exists t. split; [now right | exact H].
      * intros (t & [[= <-]|Ht] & H1 & H2 & H3); [congruence|].
        now exists t.
Qed.

(** The workspaces of a patched manifest: those it had, and the one of
    the language. *)
Lemma patched_workspaces lang props ws root' :
  lookup_prop "workspaces" props = Some (JArr ws) ->
  patch_manifest lang (JObj props) = Return root' ->
  exists props' ws',
    root' = JObj props'
    /\ lookup_prop "workspaces" props' = Some (JArr ws')
    /\ forall x, In x ws' <-> x = JStr ("vscode/" +:+ lang) \/ In x ws.
Proof.
  intros Hws Hpatch.
  destruct (array_includes ws ("vscode/" +:+ lang)) eqn:Hin.
  - unfold patch_manifest in Hpatch.
    rewrite (add_workspace_again lang props (JArr ws) Hws) in Hpatch
      by (cbn [workspaces_include]; now rewrite Hin).
    cbn [obind] in Hpatch.
    destruct (add_script_again _ _ _ Hpatch) as (props2 & -> & Hws2 & _).
    exists props2, ws. split; [reflexivity|]. split; [congruence|].
    intros x. split; [auto|]. intros [->|H]; [|exact H].
    now apply array_includes_In.
  - destruct (patch_manifest_workspaces _ _ _ _ Hws Hin Hpatch) as (props' & -> & Hws').
    exists props', (sort (ws ++ [JStr ("vscode/" +:+ lang)])).
    split; [reflexivity|]. split; [exact Hws'|]. intros x.
    split.
    + intros H. apply (Permutation_in _ (sort_perm _)) in H.
      apply in_app_or in H as [H|[<-|[]]]; auto.
    + intros H. apply (Permutation_in _ (Permutation_sym (sort_perm _))).
      apply in_or_app. destruct H as [->|H]; [right; now left | now left].
Qed.

Lemma attempt_returns {A} (body : IO A) (otherwise a : A) (fs fs' : FS) :
  body fs = (Return a, fs') -> attempt body otherwise fs = (Return a, fs').
Proof. unfold attempt. now intros ->. Qed.

(** X5.  A generated extension is listed.  When the manifest is JSON
    for an object whose workspaces are an array of texts, the patch
    accepts it and the patched value is canonical, then after the
    manifest strategy has run in apply mode [getExistingExtensions] finds
    the extensions it would have found before and the new one, and no
    other; the new one only if its language is not [core]. *)
Theorem patched_manifest_lists_extension (repo : string) (cfg : ExtensionConfig)
    (fs : FS) (text : string) (props : list (string * json)) (ws : list json)
    (root' : json) :
  let p := Path.join repo "package.json" in
  let fs1 := <[p := File (Json.stringify root' +:+ Str.nl)]> fs in
  fs !! p = Some (File text) ->
  Json.parse text = Return (JObj props) ->
  lookup_prop "workspaces" props = Some (JArr ws) ->
  Forall (fun w => exists s, w = JStr s) ws ->
  patch_manifest (language cfg) (JObj props) = Return root' ->
  canonical root' ->
  updateRootPackage repo cfg false fs = (Return [manifest_operation (language cfg)], fs1)
  /\ exists names,
       getExistingExtensions repo fs1 = (Return names, fs1)
       /\ forall n, In n names
                    <-> (n = language cfg /\ language cfg <> "core") \/ In n (existing ws).
Proof.
  intros p fs1 Hf Hparse Hws Htexts Hpatch Hcan. split.
  { now rewrite (updateRootPackage_patches repo cfg false fs text (JObj props) root'). }
  destruct (patched_workspaces _ _ _ _ Hws Hpatch) as (props' & ws' & -> & Hws' & Hin).
  assert (Hf1 : fs1 !! p = Some (File (Json.stringify (JObj props') +:+ Str.nl)))
    by apply lookup_insert_eq.
  exists (existing ws'). split.
  - unfold getExistingExtensions. fold p.
    rewrite (bind_returns _ _ _ _ _ (exists_file _ _ _ Hf1)).
    apply attempt_returns.
    rewrite (bind_returns _ _ _ _ _ (readFile_file _ _ _ Hf1)).
    rewrite (bind_returns _ _ fs1 (JObj props') fs1)
      by (unfold lift; now rewrite (parse_stringify _ Hcan)).
    rewrite (bind_returns _ _ fs1 (Some (JArr ws')) fs1)
      by (unfold lift; cbn [get]; now rewrite Hws').
    reflexivity.
  - assert (Htexts' : Forall (fun w => exists s, w = JStr s) ws').
    { apply List.Forall_forall. intros x Hx. apply Hin in Hx as [->|Hx]; [eauto|].
      rewrite List.Forall_forall in Htexts. now apply Htexts. }
    intros n. rewrite (existing_In ws' n Htexts'), (existing_In ws n Htexts). split.
    + intros (s & Hs & H1 & H2 & ->). apply Hin in Hs as [[= ->]|Hs].
      * left. split; [apply (after_app "vscode/")|]. intros E. apply H2.
        now rewrite E.
      * right. now exists s.
    + intros [[-> Hne]|(s & Hs & H)].
      * exists ("vscode/" +:+ language cfg). split; [apply Hin; now left|].
        split; [apply starts_with_app|]. split; [|symmetry; apply (after_app "vscode/")].
        intros [= E]. now apply Hne.
      * exists s. split; [apply Hin; now right | exact H].
Qed.

End Listing.

(** The fresh repository lists Java; patched for Rust it lists Java and
    Rust. *)
Lemma patched_manifest_lists_extension_fresh :
  let root' := JObj [ ("workspaces",
                       JArr [JStr "vscode/core"; JStr "vscode/java"; JStr "vscode/rust"]);
                      ("scripts",
                       JObj [("package-rust",
                              JStr "node ./scripts/package-extensions.js rust")]) ] in
  let ws := [JStr "vscode/core"; JStr "vscode/java"] in
  let fs1 := <[Path.join "/repo" "package.json"
                 := File (Json.stringify root' +:+ Str.nl)]> Scenario.fresh in
  updateRootPackage "/repo" Scenario.rust false Scenario.fresh
    = (Return [manifest_operation "rust"], fs1)
  /\ exists names,
       getExistingExtensions "/repo" fs1 = (Return names, fs1)
       /\ forall n, In n names <-> (n = "rust" /\ "rust" <> "core") \/ In n (existing ws).
Proof.
  refine (patched_manifest_lists_extension "/repo" Scenario.rust Scenario.fresh
            Scenario.manifest_text
            [ ("workspaces", JArr [JStr "vscode/core"; JStr "vscode/java"]);
              ("scripts", JObj []) ]
            [JStr "vscode/core"; JStr "vscode/java"]
            _ eq_refl eq_refl eq_refl _ eq_refl _).
  - repeat constructor; eexists; reflexivity.
  - cbn. repeat split.
Defined.

(** ** The readers of the repository *)

Section Readers.
Context `{NM : NumberModel}.





Lemma read_manifest_returns repo config (fs : FS) :
  exists c1,
    read_manifest repo config fs = (Return c1, fs)
    /\ (c1 = config \/ exists x, c1 = with_version x config)
    /\ (Fs.existsSync (Path.join repo "package.json") fs = false -> c1 = config).
Proof.
  unfold read_manifest, bind, exists_, Fs.existsSync, attempt, Fs.readFile, lift, ret.
  cbv beta iota zeta.
  destruct (fs !! Path.join repo "package.json") as [[text|]|] eqn:E;
    cbv beta iota zeta; rewrite ?E; cbv beta iota zeta;
    [| exists config; auto | exists config; auto].
  destruct (Json.parse text) as [root|e]; [|exists config; auto].
  destruct (get root "version") as [[x|]|e]; [| exists config; auto | exists config; auto].
  destruct (truthy x); [|exists config; auto].
  exists (with_version x config). split; [reflexivity|]. split; [eauto|discriminate].
Qed.




(** X7.  [getExistingExtensions] never throws and never writes; each
    name it returns is not [core] and is the rest of a workspace of the
    manifest that starts with [vscode/]. *)
Theorem getExistingExtensions_never_fails (repo : string) (fs : FS) :
  exists names,
    getExistingExtensions repo fs = (Return names, fs)
    /\ forall n, In n names ->
         n <> "core"
         /\ exists text root ws,
              fs !! Path.join repo "package.json" = Some (File text)
              /\ Json.parse text = Return root
              /\ get root "workspaces" = Return (Some (JArr ws))
              /\ In (JStr ("vscode/" +:+ n)) ws.
Proof.
  unfold getExistingExtensions, bind, exists_, Fs.existsSync, attempt, Fs.readFile,
    lift, ret.
  cbv beta iota zeta.
  destruct (fs !! Path.join repo "package.json") as [[text|]|] eqn:E;
    cbv beta iota zeta; rewrite ?E; cbv beta iota zeta;
    try (exists []; split; [reflexivity | intros n []]).
  destruct (Json.parse text) as [root|e] eqn:Hparse;
    [|exists []; split; [reflexivity | intros n []]].
  destruct (get root "workspaces") as [[[|b|x|t|ws|o]|]|e] eqn:Hget;
    try (exists []; split; [reflexivity | intros n []]).
  exists (existing ws). split; [reflexivity|]. intros n Hn.
  assert (Hfound : exists s, In (JStr s) ws
                             /\ Str.starts_with "vscode/" s = true
                             /\ s <> "vscode/core"
                             /\ n = Str.after "vscode/" s).
  { clear -Hn. induction ws as [|w ws IH]; [destruct Hn|].
    cbn [existing] in Hn. destruct w as [|b|x|t|l|o]; try destruct Hn.
    destruct (Str.starts_with "vscode/" t) eqn:Hs; cbn [andb] in Hn.
    - destruct (String.eqb_spec t "vscode/core") as [->|Hne]; cbn [negb] in Hn.
      + destruct (IH Hn) as (s & Hs' & H). exists s. split; [now right | exact H].
      + destruct Hn as [<-|Hn].
        * exists t. rewrite (replace_prefix _ _ Hs). repeat split; auto. now left.
        * destruct (IH Hn) as (s & Hs' & H). exists s. split; [now right | exact H].
    - destruct (IH Hn) as (s & Hs' & H). exists s. split; [now right | exact H]. }
  destruct Hfound as (s & Hs & Hstart & Hne & ->).
  pose proof (starts_with_split _ _ Hstart) as Es.
  split.
  - intros Hcore. apply Hne. now rewrite Es, Hcore.
  - exists text, root, ws. rewrite Es in Hs. auto.
Qed.

End Readers.

(** ** Reading the repository again after a patch *)

Section Occurrences.

Lemma starts_with_barrier (key x y : string) (c : ascii) :
  Str.has_char c key = false ->
  Str.starts_with key (x +:+ String c y) = Str.starts_with key x.
Proof.
  unfold Str.has_char. revert x.
  induction key as [|k key IH]; intros x Hc; [now destruct x|].
  cbn [Str.chars list_ascii_of_string existsb] in Hc.
  apply orb_false_iff in Hc as [Hk Hc].
  destruct x as [|a x]; cbn [String.append Str.starts_with].
  - rewrite Ascii.eqb_sym. now rewrite Hk.
  - destruct (Ascii.eqb k a); [now apply IH | reflexivity].
Qed.

(** An occurrence of a text cannot span a character that the text does
    not have. *)
Lemma includes_barrier (key x y : string) (c : ascii) :
  Str.has_char c key = false ->
  Str.includes (x +:+ String c y) key = Str.includes x key || Str.includes y key.
Proof.
  intros Hc. induction x as [|a x IH].
  - cbn [String.append Str.includes].
    pose proof (starts_with_barrier key EmptyString y c Hc) as E.
    cbn [String.append] in E. rewrite E. now rewrite orb_false_r.
  - cbn [String.append Str.includes].
    change (String a (x +:+ String c y)) with (String a x +:+ String c y).
    rewrite (starts_with_barrier key (String a x) y c Hc), IH.
    now rewrite orb_assoc.
Qed.

Lemma starts_with_short (key x y : string) :
  String.length key <= String.length x ->
  Str.starts_with key (x +:+ y) = Str.starts_with key x.
Proof.
  revert x. induction key as [|k key IH]; intros x Hlen; [now destruct x|].
  destruct x as [|a x]; [simpl in Hlen; lia|].
  cbn [String.append Str.starts_with].
  destruct (Ascii.eqb k a); [|reflexivity]. apply IH. simpl in Hlen. lia.
Qed.

Lemma includes_suffix (a z key : string) :
  Str.includes z key = true -> Str.includes (a +:+ z) key = true.
Proof.
  intros H. induction a as [|c a IH]; [exact H|].
  cbn [String.append Str.includes]. rewrite IH. apply orb_true_r.
Qed.

(** The leftmost match of a key is not in a part of the text where the
    key does not start. *)
Lemma find_past (key a p rest : string) :
  Str.includes (a +:+ p) key = false ->
  String.length key <= S (String.length p) ->
  Quoted.find key (a +:+ p +:+ rest) = Quoted.find key (p +:+ rest).
Proof.
  intros Hno Hlen. induction a as [|c a IH]; [reflexivity|].
  cbn [String.append Quoted.find].
  cbn [String.append Str.includes] in Hno. apply orb_false_iff in Hno as [Hhere Hno].
  assert (Hstart : Str.starts_with key (String c (a +:+ p +:+ rest)) = false).
  { change (String c (a +:+ p +:+ rest)) with (String c a +:+ p +:+ rest).
    rewrite <- app_assoc_s, starts_with_short; [exact Hhere|].
    rewrite length_app_s. simpl. lia. }
  unfold Quoted.here at 1. rewrite Hstart. now apply IH.
Qed.

Lemma span_unquoted_app (v rest : string) (o : ascii) :
  forallb (fun c => negb (Quoted.is_quote c)) (Str.chars v) = true ->
  Quoted.is_quote o = true ->
  Quoted.span_unquoted (v +:+ String o rest) = (v, String o rest).
Proof.
  intros Hv Ho. induction v as [|c v IH]; cbn [String.append Quoted.span_unquoted].
  - now rewrite Ho.
  - cbn in Hv. apply andb_true_iff in Hv as [Hc Hv].
    apply negb_true_iff in Hc. rewrite Hc, (IH Hv). reflexivity.
Qed.

End Occurrences.

(** ** Where the text strategies insert *)

Section InsertionPoints.
Context `{NM : NumberModel}.

Lemma insert_step_at cfg text before after :
  Str.find ci_anchor text = Some (before, after) ->
  plain (displayName cfg) = true -> plain (language cfg) = true ->
  insert_step cfg text
  = before +:+ (Str.nl +:+ "      " +:+ packageStep cfg +:+ Str.nl +:+ Str.nl
                +:+ "      " +:+ "- name: Upload VSIX artifacts") +:+ after.
Proof.
  intros Hfind Hname Hlang. unfold insert_step, Replace.replace. rewrite Hfind.
  f_equal. f_equal.
  change ("$1$2" +:+ ?x) with (String "$" (String "1" (String "$" (String "2" x)))).
  rewrite (expand_group "1" 1 _ _ _ _ Str.nl) by reflexivity.
  rewrite (expand_group "2" 2 _ _ _ _ "      ") by reflexivity.
  rewrite expand_plain by now apply plain_packageStep.
  rewrite !(expand_plain Str.nl) by reflexivity.
  reflexivity.
Qed.

Lemma insert_asset_at cfg rc text before after :
  Str.find "const ASSETS = {" text = Some (before, after) ->
  plain (assetConfig cfg rc) = true ->
  insert_asset cfg rc text
  = before +:+ ("const ASSETS = {" +:+ Str.nl +:+ assetConfig cfg rc) +:+ after.
Proof.
  intros Hfind Hplain. unfold insert_asset, Replace.replace. rewrite Hfind.
  f_equal. f_equal.
  change ("$1" +:+ ?x) with (String "$" (String "1" x)).
  rewrite (expand_group "1" 1 _ _ _ _ "const ASSETS = {") by reflexivity.
  rewrite (expand_plain Str.nl) by reflexivity.
  now rewrite expand_plain_all.
Qed.

Lemma insert_copy_at cfg text before after :
  Str.find "const EXTENSIONS = {" text = Some (before, after) ->
  plain (copyConfig cfg) = true ->
  insert_copy cfg text
  = before +:+ ("const EXTENSIONS = {" +:+ Str.nl +:+ copyConfig cfg) +:+ after.
Proof.
  intros Hfind Hplain. unfold insert_copy, Replace.replace. rewrite Hfind.
  f_equal. f_equal.
  change ("$1" +:+ ?x) with (String "$" (String "1" x)).
  rewrite (expand_group "1" 1 _ _ _ _ "const EXTENSIONS = {") by reflexivity.
  rewrite (expand_plain Str.nl) by reflexivity.
  now rewrite expand_plain_all.
Qed.

Lemma insert_valid_at cfg text before after :
  Str.find "const VALID_EXTENSIONS = [" text = Some (before, after) ->
  plain (language cfg) = true ->
  insert_valid cfg text
  = before +:+ ("const VALID_EXTENSIONS = [" +:+ q (language cfg) +:+ ", ") +:+ after.
Proof.
  intros Hfind Hplain. unfold insert_valid, Replace.replace. rewrite Hfind.
  f_equal. f_equal.
  change ("$1" +:+ ?x) with (String "$" (String "1" x)).
  rewrite (expand_group "1" 1 _ _ _ _ "const VALID_EXTENSIONS = [") by reflexivity.
  rewrite expand_plain_all; [reflexivity|].
  rewrite plain_app, plain_q by exact Hplain. reflexivity.
Qed.

Lemma valid_char_plain (c : ascii) :
  Str.is_lower c || Str.is_digit c || Ascii.eqb c "-" = true -> Ascii.eqb "$" c = false.
Proof.
  destruct c as [[] [] [] [] [] [] [] []]; intros H;
    solve [discriminate H | reflexivity].
Qed.

(** A language the schema accepts has no dollar sign. *)
Lemma valid_language_plain (s : string) : valid_language s = true -> plain s = true.
Proof.
  destruct s as [|c rest]; [discriminate|]. cbn [valid_language].
  intros [Hc Hrest]%andb_true_iff. rewrite plain_cons.
  rewrite (valid_char_plain c) by (rewrite Hc; reflexivity). cbn [negb andb].
  induction rest as [|d rest IH]; [reflexivity|].
  cbn in Hrest. apply andb_true_iff in Hrest as [Hd Hrest].
  rewrite plain_cons, (valid_char_plain d Hd). cbn [negb andb]. now apply IH.
Qed.

(** X8.  The text strategies insert at the first anchor and nowhere
    else.  When the key of a strategy does not occur in its file, the
    anchor does, and the inserted text has no dollar sign (which a
    language that the schema accepts never has), apply mode writes the
    text of the file with the insertion put after the first occurrence of
    the anchor (before it, for the workflow step), the text before and
    after that occurrence kept as it is. *)
Theorem text_strategies_insert_at_anchor (repo : string) (cfg : ExtensionConfig)
    (rc : RepoConfig) (fs : FS) (text before after : string) :
  (fs !! Path.join repo ".github/workflows/ci-repo.yml" = Some (File text) ->
   Str.includes text ("package-" +:+ language cfg) = false ->
   Str.find ci_anchor text = Some (before, after) ->
   plain (displayName cfg) = true ->
   valid_language (language cfg) = true ->
   text = before +:+ ci_anchor +:+ after
   /\ updateCiWorkflow repo cfg false fs
      = (Return [ci_operation cfg],
         <[Path.join repo ".github/workflows/ci-repo.yml" :=
             File (before
                   +:+ (Str.nl +:+ "      " +:+ packageStep cfg +:+ Str.nl +:+ Str.nl
                        +:+ "      " +:+ "- name: Upload VSIX artifacts")
                   +:+ after)]> fs))
  /\ (fs !! Path.join repo "scripts/collect-assets.js" = Some (File text) ->
      Str.includes text (q (binaryName (provider cfg))) = false ->
      Str.find "const ASSETS = {" text = Some (before, after) ->
      plain (assetConfig cfg rc) = true ->
      text = before +:+ "const ASSETS = {" +:+ after
      /\ updateCollectAssets repo cfg rc false fs
         = (Return [assets_operation cfg rc],
            <[Path.join repo "scripts/collect-assets.js" :=
                File (before
                      +:+ ("const ASSETS = {" +:+ Str.nl +:+ assetConfig cfg rc)
                      +:+ after)]> fs))
  /\ (fs !! Path.join repo "scripts/copy-dist.js" = Some (File text) ->
      Str.includes text (q (language cfg)) = false ->
      Str.find "const EXTENSIONS = {" text = Some (before, after) ->
      plain (copyConfig cfg) = true ->
      text = before +:+ "const EXTENSIONS = {" +:+ after
      /\ updateCopyDist repo cfg false fs
         = (Return [copy_operation cfg],
            <[Path.join repo "scripts/copy-dist.js" :=
                File (before
                      +:+ ("const EXTENSIONS = {" +:+ Str.nl +:+ copyConfig cfg)
                      +:+ after)]> fs))
  /\ (fs !! Path.join repo "scripts/package-extensions.js" = Some (File text) ->
      Str.includes text (q (language cfg)) = false ->
      Str.find "const VALID_EXTENSIONS = [" text = Some (before, after) ->
      valid_language (language cfg) = true ->
      text = before +:+ "const VALID_EXTENSIONS = [" +:+ after
      /\ updatePackageExtensions repo cfg false fs
         = (Return [valid_operation cfg],
            <[Path.join repo "scripts/package-extensions.js" :=
                File (before
                      +:+ ("const VALID_EXTENSIONS = [" +:+ q (language cfg) +:+ ", ")
                      +:+ after)]> fs)).
Proof.
  split; [|split; [|split]].
  - intros Hf Hkey Hfind Hname Hlang. split; [now apply find_Some|].
    rewrite updateCiWorkflow_text, (patch_text_patches _ _ _ _ _ _ _ Hf Hkey).
    rewrite (insert_step_at _ _ _ _ Hfind Hname (valid_language_plain _ Hlang)).
    reflexivity.
  - intros Hf Hkey Hfind Hplain. split; [now apply find_Some|].
    rewrite updateCollectAssets_text, (patch_text_patches _ _ _ _ _ _ _ Hf Hkey).
    now rewrite (insert_asset_at _ _ _ _ _ Hfind Hplain).
  - intros Hf Hkey Hfind Hplain. split; [now apply find_Some|].
    rewrite updateCopyDist_text, (patch_text_patches _ _ _ _ _ _ _ Hf Hkey).
    now rewrite (insert_copy_at _ _ _ _ Hfind Hplain).
  - intros Hf Hkey Hfind Hlang. split; [now apply find_Some|].
    rewrite updatePackageExtensions_text, (patch_text_patches _ _ _ _ _ _ _ Hf Hkey).
    now rewrite (insert_valid_at _ _ _ _ Hfind (valid_language_plain _ Hlang)).
Qed.

End InsertionPoints.

(** The list of valid extensions of the fresh repository, patched for Rust. *)
Lemma text_strategies_insert_at_anchor_fresh :
  updatePackageExtensions "/repo" Scenario.rust false Scenario.fresh
  = (Return [valid_operation Scenario.rust],
     <[Path.join "/repo" "scripts/package-extensions.js" :=
         File (EmptyString
               +:+ ("const VALID_EXTENSIONS = [" +:+ q (language Scenario.rust) +:+ ", ")
               +:+ (q "java" +:+ "];"))]> Scenario.fresh).
Proof.
  apply (text_strategies_insert_at_anchor "/repo" Scenario.rust Scenario.host
           Scenario.fresh ("const VALID_EXTENSIONS = [" +:+ q "java" +:+ "];")
           EmptyString (q "java" +:+ "];"));
    reflexivity.
Defined.

Section ReadAgain.
Context `{NM : NumberModel}.

Lemma here_quoted (key value rest : string) :
  quotable value = true ->
  Quoted.here key (key +:+ " " +:+ q value +:+ rest) = Some value.
Proof.
  unfold quotable. intros [Hne Hfree]%andb_true_iff.
  unfold Quoted.here. rewrite starts_with_app, after_app.
  unfold q, Str.dquote. cbn [String.append Quoted.skip_spaces].
  change (Str.is_space " ") with true. cbv iota.
  change (Str.is_space Str.dq) with false. cbv iota.
  change (Quoted.is_quote Str.dq) with true. cbv iota.
  rewrite app_assoc_s. cbn [String.append].
  rewrite span_unquoted_app by (exact Hfree || reflexivity).
  destruct value as [|c v]; [discriminate Hne | reflexivity].
Qed.

Lemma find_here (key s v : string) :
  Quoted.here key s = Some v -> Quoted.find key s = Some v.
Proof. intros H. destruct s; cbn [Quoted.find]; now rewrite H. Qed.

Lemma includes_across (key s x y : string) (c : ascii) :
  s = x +:+ String c y ->
  Str.has_char c key = false ->
  Str.includes s key = Str.includes x key || Str.includes y key.
Proof. intros ->. apply includes_barrier. Qed.

(** The first match of [repo:] in a patched script is the entry that the
    patch inserted, when the key does not occur before the anchor. *)
Lemma find_repo_inserted cfg rc before after :
  Str.includes before "repo:" = false ->
  Str.includes (binaryName (provider cfg)) "repo:" = false ->
  quotable (assetRepo cfg rc) = true ->
  Quoted.find "repo:"
    (before +:+ ("const ASSETS = {" +:+ Str.nl +:+ assetConfig cfg rc) +:+ after)
  = Some (assetRepo cfg rc).
Proof.
  intros Hbefore Hbin Hq.
  set (tail := "," +:+ Str.nl +:+ ("      tag: " +:+ q (assetTag cfg rc) +:+ ",")
               +:+ Str.nl +:+ "    }," +:+ Str.nl +:+ "  }," +:+ after).
  set (head := ": {" +:+ Str.nl +:+ "    release: {" +:+ Str.nl +:+ "      ").
  set (opening := "onst ASSETS = {" +:+ Str.nl +:+ "  ").
  set (lead := before
               +:+ String "c" (opening
                   +:+ String Str.dq (binaryName (provider cfg)
                                      +:+ String Str.dq head))).
  assert (E : before +:+ ("const ASSETS = {" +:+ Str.nl +:+ assetConfig cfg rc) +:+ after
              = lead +:+ "repo" +:+ (": " +:+ q (assetRepo cfg rc) +:+ tail)).
  { subst lead tail head opening. unfold assetConfig, lines, q, Str.dquote, Str.nl.
    cbn [Str.join String.append].
    repeat (rewrite !app_assoc_s; cbn [String.append]). reflexivity. }
  rewrite E. rewrite find_past.
  - apply find_here. apply (here_quoted "repo:" _ tail Hq).
  - rewrite (includes_across "repo:" _ before
               (opening +:+ String Str.dq (binaryName (provider cfg)
                                           +:+ String Str.dq (head +:+ "repo"))) "c");
      [| subst lead; repeat (rewrite !app_assoc_s; cbn [String.append]); reflexivity
       | reflexivity].
    rewrite Hbefore. cbn [orb].
    rewrite (includes_across "repo:" _ opening
               (binaryName (provider cfg) +:+ String Str.dq (head +:+ "repo")) Str.dq)
      by reflexivity.
    rewrite (includes_across "repo:"
               (binaryName (provider cfg) +:+ String Str.dq (head +:+ "repo"))
               (binaryName (provider cfg)) (head +:+ "repo") Str.dq) by reflexivity.
    rewrite Hbin. reflexivity.
  - simpl. lia.
Qed.

Lemma read_assets_file repo config (fs : FS) content :
  fs !! Path.join repo "scripts/collect-assets.js" = Some (File content) ->
  read_assets repo config fs = (Return (with_settings content config), fs).
Proof.
  intros Hf. unfold read_assets.
  rewrite (bind_returns _ _ _ _ _ (exists_file _ _ _ Hf)).
  apply attempt_returns.
  now rewrite (bind_returns _ _ _ _ _ (readFile_file _ _ _ Hf)).
Qed.

(** X9.  The entry that the asset strategy inserts is what
    [readRepoConfig] reads next.  When the strategy patches
    [scripts/collect-assets.js] and no [repo:] occurs before the anchor
    (nor in the name of the binary), the repository read again after the
    patch has as [repo] the repository of the inserted entry: the asset
    repository of the extension or, when the extension names none, the
    text [org/repo] of the values the generator was given. *)
Theorem patched_assets_are_read_back (dir : string) (cfg : ExtensionConfig)
    (rc : RepoConfig) (fs : FS) (text before after : string) :
  let p := Path.join dir "scripts/collect-assets.js" in
  fs !! p = Some (File text) ->
  Str.includes text (q (binaryName (provider cfg))) = false ->
  Str.find "const ASSETS = {" text = Some (before, after) ->
  plain (assetConfig cfg rc) = true ->
  Str.includes before "repo:" = false ->
  Str.includes (binaryName (provider cfg)) "repo:" = false ->
  quotable (assetRepo cfg rc) = true ->
  exists fs1 v,
    updateCollectAssets dir cfg rc false fs = (Return [assets_operation cfg rc], fs1)
    /\ readRepoConfig dir fs1 = (Return v, fs1)
    /\ read_repo v = assetRepo cfg rc
    /\ (assetSource (provider cfg) = None ->
        read_repo v = org rc +:+ "/" +:+ repo rc).
Proof.
  intros p Hf Hkey Hfind Hplain Hbefore Hbin Hq.
  set (patched := before +:+ ("const ASSETS = {" +:+ Str.nl +:+ assetConfig cfg rc)
                  +:+ after).
  exists (<[p := File patched]> fs).
  destruct (read_manifest_returns dir default_values (<[p := File patched]> fs))
    as (c1 & H1 & _).
  exists (with_settings patched c1).
  assert (Hread : read_repo (with_settings patched c1) = assetRepo cfg rc).
  { cbn [read_repo with_settings]. subst patched.
    now rewrite (find_repo_inserted cfg rc before after Hbefore Hbin Hq). }
  split; [|split; [|split]].
  - rewrite updateCollectAssets_text, (patch_text_patches _ _ _ _ _ _ _ Hf Hkey).
    now rewrite (insert_asset_at _ _ _ _ _ Hfind Hplain).
  - unfold readRepoConfig. rewrite (bind_returns _ _ _ _ _ H1).
    apply read_assets_file. apply lookup_insert_eq.
  - exact Hread.
  - intros Hnone. rewrite Hread. unfold assetRepo. now rewrite Hnone.
Qed.

End ReadAgain.

(** The fresh repository is read as [kai] of [konveyor]; patched for Rust,
    whose configuration names no asset repository, it is read as
    [konveyor/kai]. *)
Lemma patched_assets_are_read_back_fresh :
  exists fs1 v,
    updateCollectAssets "/repo" Scenario.rust Scenario.host false Scenario.fresh
      = (Return [assets_operation Scenario.rust Scenario.host], fs1)
    /\ readRepoConfig "/repo" fs1 = (Return v, fs1)
    /\ read_repo v = assetRepo Scenario.rust Scenario.host
    /\ (assetSource (provider Scenario.rust) = None ->
        read_repo v = org Scenario.host +:+ "/" +:+ repo Scenario.host).
Proof.
  apply (patched_assets_are_read_back "/repo" Scenario.rust Scenario.host Scenario.fresh
           (lines ["const ASSETS = {"; "};"]) EmptyString (Str.nl +:+ "};"));
    reflexivity.
Defined.

(** ** Languages whose name starts another language *)

Section Prefixes.
Context `{NM : NumberModel}.

Lemma includes_shorter (t k s : string) :
  Str.includes t (k +:+ s) = true -> Str.includes t k = true.
Proof.
  intros H. apply includes_split in H as (a & c & ->).
  rewrite app_assoc_s. apply includes_app.
Qed.

Lemma some_weaker {A} (f f' : A -> outcome bool) (l : list A) :
  Forall (fun x => (f' x = Return true -> f x = Return true)
                   /\ (f' x = Return false -> exists b, f x = Return b)) l ->
  some f' l = Return true -> some f l = Return true.
Proof.
  induction 1 as [|x l [Ht Hf] _ IH]; cbn [some obind]; [discriminate|].
  destruct (f' x) as [[|]|e] eqn:E; cbn [obind]; try discriminate.
  - intros _. now rewrite (Ht eq_refl).
  - intros H. destruct (Hf eq_refl) as [[|] ->]; cbn [obind]; [reflexivity | auto].
Qed.

Lemma path_mentions_shorter lang suffix p :
  (exists t, p = JStr t) ->
  (path_mentions (lang +:+ suffix) p = Return true -> path_mentions lang p = Return true)
  /\ (path_mentions (lang +:+ suffix) p = Return false ->
      exists b, path_mentions lang p = Return b).
Proof.
  intros [t ->]. cbn [path_mentions]. unfold extensionFolder. split.
  - intros [= H]. f_equal. exact (includes_shorter t ("vscode/" +:+ lang) suffix H).
  - intros _. eauto.
Qed.

Lemma config_mentions_shorter lang suffix c :
  paths_are_texts c ->
  (config_mentions (lang +:+ suffix) c = Return true -> config_mentions lang c = Return true)
  /\ (config_mentions (lang +:+ suffix) c = Return false ->
      exists b, config_mentions lang c = Return b).
Proof.
  intros Htexts. unfold config_mentions.
  destruct c as [|b|n|t|l|props]; cbn [get obind]; try (split; [discriminate | eauto]).
  destruct (lookup_prop "extensionDevelopmentPath" props) as [[|b|n|t|paths|o]|] eqn:E;
    try (split; [discriminate | eauto]); try (split; discriminate).
  specialize (Htexts props paths eq_refl E). split.
  - apply some_weaker. eapply List.Forall_impl; [|exact Htexts].
    intros p Hp. now apply path_mentions_shorter.
  - intros _. clear E. induction Htexts as [|p paths [t ->] _ IH]; cbn [some obind].
    + eauto.
    + cbn [path_mentions obind]. destruct (Str.includes t _); eauto.
Qed.

Lemma hasExtension_shorter lang suffix props cfgs :
  lookup_prop "configurations" props = Some (JArr cfgs) ->
  Forall paths_are_texts cfgs ->
  hasExtension (lang +:+ suffix) (JObj props) = Return true ->
  hasExtension lang (JObj props) = Return true.
Proof.
  intros Hcfgs Htexts. unfold hasExtension. cbn [get obind]. rewrite Hcfgs.
  apply some_weaker. eapply List.Forall_impl; [|exact Htexts].
  intros c Hc. now apply config_mentions_shorter.
Qed.

(** X10.  A language whose name starts the name of a language that is
    present is taken as present by the two strategies that test with
    [includes] on an unquoted key.  When the workflow has a package step
    for a language [language ++ suffix], the workflow strategy stages
    nothing and writes nothing for [language]; when a launch
    configuration, with texts as extension paths, has a path of
    [language ++ suffix], so does the launch strategy. *)
Theorem prefix_of_present_language_is_skipped (dir : string) (cfg : ExtensionConfig)
    (fs : FS) (text suffix : string) :
  (fs !! Path.join dir ".github/workflows/ci-repo.yml" = Some (File text) ->
   Str.includes text ("package-" +:+ language cfg +:+ suffix) = true ->
   idle (updateCiWorkflow dir cfg) fs)
  /\ (forall props cfgs,
        fs !! Path.join dir ".vscode/launch.json" = Some (File text) ->
        Json.parse text = Return (JObj props) ->
        lookup_prop "configurations" props = Some (JArr cfgs) ->
        Forall paths_are_texts cfgs ->
        hasExtension (language cfg +:+ suffix) (JObj props) = Return true ->
        idle (updateLaunch dir cfg) fs).
Proof.
  split.
  - intros Hf Hin dry. rewrite updateCiWorkflow_text.
    apply patch_text_present with (c := text); [exact Hf|].
    exact (includes_shorter text ("package-" +:+ language cfg) suffix Hin).
  - intros props cfgs Hf Hparse Hcfgs Htexts Hhas dry.
    apply updateLaunch_skips with (text := text) (lj := JObj props); auto.
    now apply hasExtension_shorter with (suffix := suffix) (cfgs := cfgs).
Qed.

End Prefixes.

(** A repository that has an extension for JavaScript is not patched
    for Java. *)
Lemma prefix_of_present_language_is_skipped_java :
  let java := Scenario.extension "java" "Java" false in
  let fs : FS :=
    <["/repo/.github/workflows/ci-repo.yml" :=
        File (lines [ "      - name: Package JavaScript extension";
                      "        run: npm run package-javascript";
                      "      - name: Upload VSIX artifacts" ])]>
      (<["/repo/.vscode/launch.json" :=
           File ("{" +:+ q "configurations" +:+ ": [{"
                 +:+ q "extensionDevelopmentPath" +:+ ": ["
                 +:+ q "${workspaceFolder}/vscode/javascript" +:+ "]}]}")]> ∅) in
  idle (updateCiWorkflow "/repo" java) fs /\ idle (updateLaunch "/repo" java) fs.
Proof.
  intros java fs. split.
  - refine (proj1 (prefix_of_present_language_is_skipped "/repo" java fs
                     (lines [ "      - name: Package JavaScript extension";
                              "        run: npm run package-javascript";
                              "      - name: Upload VSIX artifacts" ]) "script")
              eq_refl eq_refl).
  - refine (proj2 (prefix_of_present_language_is_skipped "/repo" java fs
                     ("{" +:+ q "configurations" +:+ ": [{"
                      +:+ q "extensionDevelopmentPath" +:+ ": ["
                      +:+ q "${workspaceFolder}/vscode/javascript" +:+ "]}]}")
                     "script")
              _ [JObj [("extensionDevelopmentPath",
                        JArr [JStr "${workspaceFolder}/vscode/javascript"])]]
              eq_refl eq_refl eq_refl _ eq_refl).
    constructor; [|constructor].
    intros props paths [= <-] [= <-]. constructor; [eauto | constructor].
Defined.

(** ** The names made from a language *)

Section Names.

Lemma valid_char_cases (c : ascii) :
  valid_char c = true ->
  (Ascii.eqb c "-" = true /\ Utils.is_separator c = true)
  \/ (Ascii.eqb c "-" = false /\ Utils.is_separator c = false
      /\ Str.lower_char c = c /\ is_alnum c = true
      /\ is_alnum (Str.upper_char c) = true
      /\ (Str.is_lower c = true -> Str.is_upper (Str.upper_char c) = true
                                   /\ Str.lower_char (Str.upper_char c) = c)).
Proof.
  destruct c as [[] [] [] [] [] [] [] []]; intros H; try discriminate H;
    solve [ left; split; reflexivity
          | right; repeat split;
            solve [ reflexivity
                  | match goal with
                    | E : Str.is_lower _ = true |- _ => vm_compute in E; discriminate E
                    end ] ].
Qed.

Lemma join_empty_cons (x : string) (l : list string) :
  Str.join EmptyString (x :: l) = x +:+ Str.join EmptyString l.
Proof. destruct l; cbn [Str.join String.append]; [now rewrite app_empty_r | reflexivity]. Qed.

Lemma of_chars_snoc (l : list ascii) (c : ascii) :
  Str.of_chars (l ++ [c]) = Str.of_chars l +:+ String c EmptyString.
Proof.
  unfold Str.of_chars. induction l as [|a l IH]; simpl; [reflexivity | now rewrite IH].
Qed.

Lemma map_app_s (g : ascii -> ascii) (a b : string) :
  Str.map g (a +:+ b) = Str.map g a +:+ Str.map g b.
Proof. induction a as [|c a IH]; simpl; [reflexivity | now rewrite IH]. Qed.

(** A character more at the end of a word that is not empty. *)
Lemma word_snoc (w : string) (c : ascii) :
  w <> EmptyString ->
  Utils.capitalize (Str.toLowerCase (w +:+ String c EmptyString))
  = Utils.capitalize (Str.toLowerCase w) +:+ String (Str.lower_char c) EmptyString.
Proof.
  destruct w as [|a w]; [congruence|]. intros _. unfold Str.toLowerCase.
  cbn [String.append Str.map Utils.capitalize]. now rewrite map_app_s.
Qed.

Lemma of_chars_not_empty (l : list ascii) : l <> [] -> Str.of_chars (rev l) <> EmptyString.
Proof.
  destruct l as [|a l]; [congruence|]. intros _. cbn [rev].
  rewrite of_chars_snoc. destruct (Str.of_chars (rev l)); discriminate.
Qed.

(** The words of a language, put in Pascal case and joined, are its
    characters in Pascal case. *)
Lemma split_runs_pascal (cs : list ascii) :
  forallb valid_char cs = true ->
  forall (cur : list ascii) (in_run : bool),
    (in_run = true -> cur = []) ->
    Str.join EmptyString
      (List.map (fun word => Utils.capitalize (Str.toLowerCase word))
         (Utils.split_runs cs cur in_run))
    = match cur with
      | [] => pascal_chars cs true
      | _ => Utils.capitalize (Str.toLowerCase (Str.of_chars (rev cur)))
             +:+ pascal_chars cs false
      end.
Proof.
  induction cs as [|c cs IH]; intros Hcs cur in_run Hrun.
  - cbn [Utils.split_runs List.map Str.join pascal_chars].
    destruct cur; [reflexivity | now rewrite app_empty_r].
  - cbn [forallb] in Hcs. apply andb_true_iff in Hcs as [Hc Hcs].
    cbn [Utils.split_runs pascal_chars].
    destruct (valid_char_cases c Hc) as [[Hh Hsep]|(Hh & Hsep & Hlow & _)];
      rewrite Hh, Hsep.
    + destruct in_run.
      * rewrite (Hrun eq_refl). now rewrite (IH Hcs [] true).
      * cbn [List.map]. rewrite join_empty_cons, (IH Hcs [] true) by reflexivity.
        now destruct cur.
    + rewrite (IH Hcs (c :: cur) false) by discriminate.
      destruct cur as [|a cur].
      * cbn [rev app Str.of_chars string_of_list_ascii Str.toLowerCase Str.map
               Utils.capitalize String.append].
        now rewrite Hlow.
      * cbn [rev]. rewrite of_chars_snoc.
        rewrite word_snoc by (apply (of_chars_not_empty (a :: cur)); discriminate).
        rewrite Hlow, app_assoc_s. reflexivity.
Qed.

Lemma pascal_chars_alnum (cs : list ascii) (fresh : bool) :
  forallb valid_char cs = true ->
  forallb is_alnum (Str.chars (pascal_chars cs fresh)) = true.
Proof.
  revert fresh. induction cs as [|c cs IH]; intros fresh Hcs; [reflexivity|].
  cbn [forallb] in Hcs. apply andb_true_iff in Hcs as [Hc Hcs].
  cbn [pascal_chars].
  destruct (valid_char_cases c Hc) as [[Hh _]|(Hh & _ & _ & Ha & Hu & _)]; rewrite Hh.
  - now apply IH.
  - cbn [Str.chars list_ascii_of_string forallb]. unfold Str.chars in IH.
    rewrite (IH false Hcs). now destruct fresh; rewrite ?Ha, ?Hu.
Qed.

(** X11.  The names made from a language that the schema accepts are
    identifiers.  [toPascalCase] gives the characters of the language
    without the hyphens, the first character and the one after each
    hyphen in upper case: a text of letters and digits that starts with
    an upper-case letter; [toCamelCase] gives the same text with the
    first letter as the language has it. *)
Theorem valid_language_names (s : string) :
  valid_language s = true ->
  exists c rest,
    s = String c rest
    /\ Utils.toPascalCase s
       = String (Str.upper_char c) (pascal_chars (Str.chars rest) false)
    /\ Str.is_upper (Str.upper_char c) = true
    /\ forallb is_alnum (Str.chars (pascal_chars (Str.chars rest) false)) = true
    /\ Utils.toCamelCase s = String c (pascal_chars (Str.chars rest) false).
Proof.
  destruct s as [|c rest]; [discriminate|]. cbn [valid_language].
  intros [Hc Hrest]%andb_true_iff. exists c, rest.
  assert (Hvalid : forallb valid_char (Str.chars (String c rest)) = true).
  { cbn [Str.chars list_ascii_of_string forallb]. unfold valid_char at 1.
    rewrite Hc. exact Hrest. }
  assert (Hpascal : Utils.toPascalCase (String c rest)
                    = String (Str.upper_char c) (pascal_chars (Str.chars rest) false)).
  { unfold Utils.toPascalCase, Utils.split_words.
    rewrite (split_runs_pascal _ Hvalid [] false) by discriminate.
    cbn [Str.chars list_ascii_of_string pascal_chars].
    destruct (valid_char_cases c) as [[Hh _]|(Hh & _)];
      [unfold valid_char; now rewrite Hc | | now rewrite Hh].
    destruct c as [[] [] [] [] [] [] [] []]; discriminate. }
  destruct (valid_char_cases c) as [[Hh _]|(_ & _ & _ & _ & _ & Hup)];
    [unfold valid_char; now rewrite Hc | |].
  { destruct c as [[] [] [] [] [] [] [] []]; discriminate. }
  destruct (Hup Hc) as [Hupper Hback].
  split; [reflexivity|]. split; [exact Hpascal|]. split; [exact Hupper|]. split.
  - apply pascal_chars_alnum. exact Hrest.
  - unfold Utils.toCamelCase. now rewrite Hpascal, Hback.
Qed.

End Names.

(** The names of the extension for C#. *)
Lemma valid_language_names_c_sharp :
  exists c rest,
    "c-sharp" = String c rest
    /\ Utils.toPascalCase "c-sharp"
       = String (Str.upper_char c) (pascal_chars (Str.chars rest) false)
    /\ Str.is_upper (Str.upper_char c) = true
    /\ forallb is_alnum (Str.chars (pascal_chars (Str.chars rest) false)) = true
    /\ Utils.toCamelCase "c-sharp" = String c (pascal_chars (Str.chars rest) false).
Proof. exact (valid_language_names "c-sharp" eq_refl). Defined.

Example names_c_sharp :
  Utils.toPascalCase "c-sharp" = "CSharp" /\ Utils.toCamelCase "c-sharp" = "cSharp".
Proof. split; reflexivity. Qed.

(** ** Extension names and platform directories *)

Section ExtensionNames.

Lemma split_plain (sep : ascii) (s : string) :
  Str.has_char sep s = false -> Str.split sep s = [s].
Proof.
  unfold Str.has_char. induction s as [|c s IH]; [reflexivity|].
  cbn [Str.chars list_ascii_of_string existsb Str.split].
  intros [Hc Hs]%orb_false_iff. rewrite Ascii.eqb_sym, Hc.
  unfold Str.chars in IH. now rewrite (IH Hs).
Qed.

Lemma split_not_nil (sep : ascii) (s : string) : Str.split sep s <> [].
Proof.
  destruct s as [|c s]; cbn [Str.split]; [discriminate|].
  destruct (Ascii.eqb c sep); [discriminate|].
  destruct (Str.split sep s); discriminate.
Qed.

(** The pieces of a text that ends with a separator and a piece without
    one: the pieces of what is before the separator, and that piece. *)
Lemma split_snoc (sep : ascii) (p name : string) :
  Str.has_char sep name = false ->
  Str.split sep (p +:+ String sep name) = (Str.split sep p ++ [name])%list.
Proof.
  intros Hname. induction p as [|c p IH].
  - cbn [String.append Str.split]. rewrite Ascii.eqb_refl.
    now rewrite (split_plain _ _ Hname).
  - cbn [String.append Str.split]. rewrite IH.
    destruct (Ascii.eqb c sep); [reflexivity|].
    destruct (Str.split sep p) as [|piece rest] eqn:E; [|reflexivity].
    now apply split_not_nil in E.
Qed.

(** X12.  The name of an extension is what follows the last dot of its
    identifier.  For a name without a dot, [extractExtensionName] and the
    template helper [extractExtName] return the name from the name
    alone and from any [publisher.name]; they differ on an identifier
    that ends with a dot, where the first returns the empty text and the
    helper the whole identifier. *)
Theorem extension_name_follows_last_dot (publisher name : string) :
  Str.has_char "." name = false ->
  Utils.extractExtensionName name = name
  /\ Utils.extractExtensionName (publisher +:+ "." +:+ name) = name
  /\ extractExtName name = name
  /\ extractExtName (publisher +:+ "." +:+ name)
     = (if String.eqb name EmptyString then publisher +:+ "." else name).
Proof.
  intros Hname.
  assert (H1 : List.last (Str.split "." name) EmptyString = name)
    by now rewrite (split_plain _ _ Hname).
  assert (H2 : List.last (Str.split "." (publisher +:+ "." +:+ name)) EmptyString = name).
  { change (publisher +:+ "." +:+ name) with (publisher +:+ String "." name).
    now rewrite (split_snoc _ _ _ Hname), last_last. }
  unfold Utils.extractExtensionName, extractExtName. rewrite H1, H2.
  repeat split.
  - now destruct (String.eqb_spec name EmptyString).
  - destruct (String.eqb_spec name EmptyString) as [->|_]; reflexivity.
Qed.

(** X13.  [getPlatformDir] throws exactly for an operating system other
    than [linux], [darwin] and [win32], with a message that names it; two
    platforms get the same directory only if they have the same
    operating system and, unless it is [win32], whose architecture is not
    looked at, are both [arm64] or both not. *)
Theorem platform_directories (os arch os' arch' : string) :
  (forall msg,
      Utils.getPlatformDir os arch = Throw msg
      <-> os <> "linux" /\ os <> "darwin" /\ os <> "win32"
          /\ msg = "Unsupported platform: " +:+ os)
  /\ (forall d,
        Utils.getPlatformDir os arch = Return d ->
        Utils.getPlatformDir os' arch' = Return d ->
        os = os' /\ (os = "win32" \/ (arch = "arm64" <-> arch' = "arm64"))).
Proof.
  unfold Utils.getPlatformDir. split.
  - intros msg.
    destruct (String.eqb_spec os "linux") as [->|H1];
      [split; [discriminate | intros (H & _); now contradiction H]|].
    destruct (String.eqb_spec os "darwin") as [->|H2];
      [split; [discriminate | intros (_ & H & _); now contradiction H]|].
    destruct (String.eqb_spec os "win32") as [->|H3];
      [split; [discriminate | intros (_ & _ & H & _); now contradiction H]|].
    split; [intros [= <-]; auto | intros (_ & _ & _ & ->); reflexivity].
  - intros d.
    destruct (String.eqb_spec os "linux") as [->|H1];
      [|destruct (String.eqb_spec os "darwin") as [->|H2];
        [|destruct (String.eqb_spec os "win32") as [->|H3]; [|discriminate]]];
      (destruct (String.eqb_spec os' "linux") as [->|H1'];
       [|destruct (String.eqb_spec os' "darwin") as [->|H2'];
         [|destruct (String.eqb_spec os' "win32") as [->|H3']; [|discriminate]]]);
      destruct (String.eqb_spec arch "arm64") as [->|Ha];
      destruct (String.eqb_spec arch' "arm64") as [->|Ha'];
      intros [= <-] H; try discriminate H;
      (split; [reflexivity|]); intuition congruence.
Qed.

End ExtensionNames.

(** The name of the Java extension of Red Hat. *)
Lemma extension_name_follows_last_dot_java :
  Utils.extractExtensionName "java" = "java"
  /\ Utils.extractExtensionName ("redhat" +:+ "." +:+ "java") = "java"
  /\ extractExtName "java" = "java"
  /\ extractExtName ("redhat" +:+ "." +:+ "java")
     = (if String.eqb "java" EmptyString then "redhat" +:+ "." else "java").
Proof. exact (extension_name_follows_last_dot "redhat" "java" eq_refl). Defined.
(** ** The ledger of a run *)

Ltac one_modify := repeat yields_step; apply yields_ret; split; simpl; repeat constructor.

Section Ledger.
Context `{NM : NumberModel}.
Variable render : engine.

Lemma updateRootPackage_one repo cfg dry :
  yields (at_most_one modify) (updateRootPackage repo cfg dry).
Proof. unfold updateRootPackage. one_modify. Qed.

Lemma patch_text_one p key insert cs d df dry :
  yields (at_most_one modify) (patch_text p key insert (modification p d cs df) dry).
Proof. unfold patch_text. one_modify. Qed.

Lemma updateCiWorkflow_one repo cfg dry :
  yields (at_most_one modify) (updateCiWorkflow repo cfg dry).
Proof. unfold updateCiWorkflow. one_modify. Qed.

Lemma updateCollectAssets_one repo cfg rc dry :
  yields (at_most_one modify) (updateCollectAssets repo cfg rc dry).
Proof. unfold updateCollectAssets. one_modify. Qed.

Lemma updateCopyDist_one repo cfg dry :
  yields (at_most_one modify) (updateCopyDist repo cfg dry).
Proof. unfold updateCopyDist. one_modify. Qed.

Lemma updatePackageExtensions_one repo cfg dry :
  yields (at_most_one modify) (updatePackageExtensions repo cfg dry).
Proof. unfold updatePackageExtensions. one_modify. Qed.

Lemma updateLaunch_one repo cfg dry :
  yields (at_most_one modify) (updateLaunch repo cfg dry).
Proof. unfold updateLaunch. one_modify. Qed.

Lemma updateWorkspace_one repo cfg dry :
  yields (at_most_one modify) (updateWorkspace repo cfg dry).
Proof. unfold updateWorkspace. one_modify. Qed.

Lemma modifyExistingFiles_seven repo cfg rc dry :
  yields (fun ops => length ops <= 7 /\ Forall (fun op => type op = modify) ops)
    (modifyExistingFiles repo cfg rc dry).
Proof.
  intros fs ops fs' H. unfold modifyExistingFiles in H.
  apply bind_Return in H as (o1 & f1 & H1 & H).
  apply bind_Return in H as (o2 & f2 & H2 & H).
  apply bind_Return in H as (o3 & f3 & H3 & H).
  apply bind_Return in H as (o4 & f4 & H4 & H).
  apply bind_Return in H as (o5 & f5 & H5 & H).
  apply bind_Return in H as (o6 & f6 & H6 & H).
  apply bind_Return in H as (o7 & f7 & H7 & H).
  injection H as <- _.
  apply updateRootPackage_one in H1 as [L1 T1].
  apply updateCiWorkflow_one in H2 as [L2 T2].
  apply updateCollectAssets_one in H3 as [L3 T3].
  apply updateCopyDist_one in H4 as [L4 T4].
  apply updatePackageExtensions_one in H5 as [L5 T5].
  apply updateLaunch_one in H6 as [L6 T6].
  apply updateWorkspace_one in H7 as [L7 T7].
  split; [rewrite !length_app; lia|].
  repeat (apply Forall_app; split); assumption.
Qed.

(** X14.  The ledger of a run lists the generated files first and the
    patched files after them: at most nine create operations (none, or
    one for each mapping that is emitted: nine with the proxy, eight
    without, a missing template counting too), then at most seven modify
    operations, none of them when the run failed. *)
Theorem ledger_lists_creates_then_modifies (ctx : GenerationContext) (fs : FS) :
  let run := (generateExtension render ctx fs).1 in
  exists creates modifies,
    operations run = (creates ++ modifies)%list
    /\ Forall (fun op => type op = create) creates
    /\ Forall (fun op => type op = modify) modifies
    /\ (creates = []
        \/ length creates
           = if td_proxyRequired (prepareTemplateData (config ctx)) then 9 else 8)
    /\ length modifies <= 7
    /\ (success run = false -> modifies = [])
    /\ (success run = true -> creates <> []).
Proof.
  unfold generateExtension.
  destruct (Fs.existsSync (extensionDir ctx) fs && negb (force (options ctx))).
  { exists [], []. cbn. repeat apply conj; auto; try lia; try discriminate. }
  destruct (make_directories ctx fs) as [[[]|e] fs1].
  2: { exists [], []. cbn. repeat apply conj; auto; try lia; try discriminate. }
  destruct (generateNewFiles _ _ _ _ _ fs1) as [[newFiles|e] fs2] eqn:E1.
  2: { exists [], []. cbn. repeat apply conj; auto; try lia; try discriminate. }
  pose proof (generateNewFiles_templates _ _ _ _ _ _ _ _ E1) as Hnew.
  assert (Hcreate : Forall (fun op => type op = create) newFiles).
  { clear -Hnew. induction Hnew as [|t op ts ops [Ht _] _ IH]; constructor; auto. }
  assert (Hlen : length newFiles
                 = if td_proxyRequired (prepareTemplateData (config ctx)) then 9 else 8).
  { apply Forall2_length in Hnew. rewrite <- Hnew. unfold emitted_templates.
    now destruct (td_proxyRequired _). }
  assert (Hne : newFiles <> []).
  { intros ->. simpl in Hlen. now destruct (td_proxyRequired _). }
  destruct (modifyExistingFiles _ _ _ _ fs2) as [[mods|e] fs3] eqn:E2.
  - apply modifyExistingFiles_seven in E2 as [L T].
    exists newFiles, mods. cbn. repeat apply conj; auto; try lia; try discriminate.
  - exists newFiles, []. cbn. rewrite app_nil_r. repeat apply conj; auto; try lia; try discriminate.
Qed.

End Ledger.
(** ** What a run that fails leaves behind *)

Section OnDisk.
Context `{NM : NumberModel}.
Variable render : engine.

Lemma keeps_is_file W (fs fs' : FS) p :
  keeps W fs fs' -> Fs.is_file p fs = true -> Fs.is_file p fs' = true.
Proof.
  intros Hk. specialize (Hk p). unfold Fs.is_file.
  destruct (fs !! p) as [[c|]|]; try discriminate.
  destruct Hk as [[c' ->] _]. reflexivity.
Qed.

Lemma emit_written ctx m (fs fs' : FS) ops op :
  emit render (templatesDir ctx) (extensionDir ctx) (prepareTemplateData (config ctx))
    false m fs = (Return ops, fs') ->
  In op ops ->
  Str.starts_with "Generated from " (description op) = true ->
  Fs.is_file (Path.join (repoPath ctx) (path op)) fs' = true.
Proof.
  unfold emit. destruct (disabled m); [intros [= <- _] []|].
  intros H. apply bind_Return in H as (found & f1 & H1 & H).
  destruct found; cbn [negb] in H.
  2: { injection H as <- _. intros [<-|[]] Hd. vm_compute in Hd. discriminate Hd. }
  apply bind_Return in H as (text & f2 & H2 & H).
  apply bind_Return in H as (rendered & f3 & H3 & H).
  apply bind_Return in H as ([] & f4 & H4 & H).
  injection H as <- <-. intros [<-|[]] _.
  cbn [unless_dry] in H4.
  apply bind_Return in H4 as ([] & f5 & H5 & H6).
  apply writeFile_Return in H6. subst f4.
  replace (Path.join (repoPath ctx) (path (generated _ false m rendered)))
    with (Path.join (extensionDir ctx) (output m)).
  - unfold Fs.is_file. now rewrite lookup_insert_eq.
  - unfold extensionDir, Path.join. cbn [path generated td_language prepareTemplateData].
    rewrite !app_assoc_s. reflexivity.
Qed.

Lemma emit_all_written ctx ms : forall (fs fs' : FS) ops op,
  emit_all render (templatesDir ctx) (extensionDir ctx) (prepareTemplateData (config ctx))
    false ms fs = (Return ops, fs') ->
  In op ops ->
  Str.starts_with "Generated from " (description op) = true ->
  Fs.is_file (Path.join (repoPath ctx) (path op)) fs' = true.
Proof.
  induction ms as [|m ms IH]; intros fs fs' ops op H Hin Hd; simpl in H.
  - injection H as <- _. destruct Hin.
  - apply bind_Return in H as (o1 & f1 & H1 & H).
    apply bind_Return in H as (o2 & f2 & H2 & H).
    injection H as <- <-. apply in_app_or in Hin as [Hin|Hin].
    + pose proof (emit_written _ _ _ _ _ _ H1 Hin Hd) as Hfile.
      assert (Hk : frames (fun _ => True)
                     (emit_all render (templatesDir ctx) (extensionDir ctx)
                        (prepareTemplateData (config ctx)) false ms)).
      { apply emit_all_frames. apply List.Forall_forall. intros; exact I. }
      specialize (Hk f1). rewrite H2 in Hk. simpl in Hk.
      eapply keeps_is_file; eassumption.
    + eapply IH; eassumption.
Qed.

(** X15.  A run in apply mode never takes back what it has generated:
    every create operation of its ledger that is described as generated
    from a template names, relative to the repository, a regular file
    that is there when the run returns, also when the run has failed in
    a patch strategy. *)
Theorem generated_files_are_on_disk (ctx : GenerationContext) (fs : FS)
    (op : FileOperation) :
  dryRun (options ctx) = false ->
  In op (operations (generateExtension render ctx fs).1) ->
  type op = create ->
  Str.starts_with "Generated from " (description op) = true ->
  Fs.is_file (Path.join (repoPath ctx) (path op)) (generateExtension render ctx fs).2
  = true.
Proof.
  intros Hdry. unfold generateExtension. rewrite Hdry.
  destruct (Fs.existsSync (extensionDir ctx) fs && negb (force (options ctx)));
    [intros []|].
  destruct (make_directories ctx fs) as [[[]|e] fs1]; [|intros []].
  destruct (generateNewFiles _ _ _ _ _ fs1) as [[newFiles|e] fs2] eqn:E1; [|intros []].
  assert (H3 : frames (fun _ => True)
                 (modifyExistingFiles (repoPath ctx) (config ctx) (repoConfig ctx) false)).
  { apply modifyExistingFiles_frames. apply List.Forall_forall. intros; exact I. }
  specialize (H3 fs2).
  destruct (modifyExistingFiles _ _ _ _ fs2) as [[mods|e] fs3] eqn:E2;
    cbn [fst snd operations result]; simpl in H3; intros Hin Ht Hd.
  - apply in_app_or in Hin as [Hin|Hin].
    + eapply keeps_is_file; [exact H3|]. eapply emit_all_written; eassumption.
    + apply modifyExistingFiles_seven in E2 as [_ T].
      rewrite List.Forall_forall in T. specialize (T op Hin). congruence.
  - eapply keeps_is_file; [exact H3|]. eapply emit_all_written; eassumption.
Qed.

End OnDisk.

Lemma broken_launch_ledger :
  In (generated (prepareTemplateData Scenario.python) false
        {| template := "package.json.hbs"; output := "package.json"; condition := None |}
        EmptyString)
     (operations (generateExtension PlainEngine.render Scenario.apply_python
                    Scenario.broken_launch).1).
Proof. vm_compute. left. reflexivity. Qed.

(** The run for Python on a repository whose launch file is not JSON
    fails, and the manifest it has generated is there. *)
Lemma generated_files_are_on_disk_broken_launch :
  let op := generated (prepareTemplateData Scenario.python) false
              {| template := "package.json.hbs"; output := "package.json";
                 condition := None |}
              EmptyString in
  let run := generateExtension PlainEngine.render Scenario.apply_python
               Scenario.broken_launch in
  success run.1 = false
  /\ Fs.is_file (Path.join (repoPath Scenario.apply_python) (path op)) run.2 = true.
Proof.
  intros op run. split; [vm_compute; reflexivity|].
  exact (generated_files_are_on_disk PlainEngine.render Scenario.apply_python
           Scenario.broken_launch op eq_refl broken_launch_ledger eq_refl eq_refl).
Defined.
(** ** The comma-separated answers *)

Section CommaLists.

Lemma drop_spaces_head l c t : Str.drop_spaces l = c :: t -> Str.is_space c = false.
Proof.
  induction l as [|a l IH]; cbn [Str.drop_spaces]; [discriminate|].
  destruct (Str.is_space a) eqn:E; [exact IH|]. now intros [= <- _].
Qed.

Lemma drop_spaces_suffix l : exists pre, l = (pre ++ Str.drop_spaces l)%list.
Proof.
  induction l as [|a l [pre IH]]; [now exists []|]. cbn [Str.drop_spaces].
  destruct (Str.is_space a); [|now exists []].
  exists (a :: pre). cbn. now rewrite <- IH.
Qed.

Lemma drop_spaces_fixed l c t : l = c :: t -> Str.is_space c = false -> Str.drop_spaces l = l.
Proof. intros -> H. cbn [Str.drop_spaces]. now rewrite H. Qed.

Lemma drop_spaces_again l : Str.drop_spaces (Str.drop_spaces l) = Str.drop_spaces l.
Proof.
  destruct (Str.drop_spaces l) as [|c t] eqn:E; [reflexivity|].
  eapply drop_spaces_fixed; [reflexivity|]. eapply drop_spaces_head; eassumption.
Qed.

Lemma chars_of_chars l : Str.chars (Str.of_chars l) = l.
Proof. apply list_ascii_of_string_of_list_ascii. Qed.

Lemma of_chars_chars s : Str.of_chars (Str.chars s) = s.
Proof. apply string_of_list_ascii_of_string. Qed.

Lemma trim_chars s :
  exists pre post, Str.chars s = (pre ++ Str.chars (Str.trim s) ++ post)%list.
Proof.
  unfold Str.trim. rewrite chars_of_chars.
  destruct (drop_spaces_suffix (Str.chars s)) as [pre Hpre].
  destruct (drop_spaces_suffix (rev (Str.drop_spaces (Str.chars s)))) as [post Hpost].
  exists pre, (rev post). rewrite Hpre at 1. f_equal.
  rewrite <- rev_app_distr, <- Hpost. now rewrite rev_involutive.
Qed.

Lemma trim_again s : Str.trim (Str.trim s) = Str.trim s.
Proof.
  unfold Str.trim at 1 2. rewrite chars_of_chars. f_equal.
  set (d := Str.drop_spaces (Str.chars s)).
  set (m := rev (Str.drop_spaces (rev d))).
  assert (Hm : Str.drop_spaces m = m).
  { destruct m as [|c t] eqn:E; [reflexivity|].
    eapply drop_spaces_fixed; [reflexivity|].
    destruct (drop_spaces_suffix (rev d)) as [pre Hpre].
    apply (f_equal (@rev ascii)) in Hpre.
    rewrite rev_involutive, rev_app_distr in Hpre. fold m in Hpre. rewrite E in Hpre.
    apply (drop_spaces_head (Str.chars s) c (t ++ rev pre)%list). exact Hpre. }
  rewrite Hm. unfold m. rewrite rev_involutive, drop_spaces_again. reflexivity.
Qed.

Lemma trim_space s : Str.trim (String " " s) = Str.trim s.
Proof. reflexivity. Qed.

Lemma split_pieces sep s : Forall (fun p => Str.has_char sep p = false) (Str.split sep s).
Proof.
  induction s as [|c s IH]; cbn [Str.split]; [now repeat constructor|].
  destruct (Ascii.eqb c sep) eqn:E; [now constructor|].
  destruct (Str.split sep s) as [|piece rest]; [|inversion IH; subst; constructor; auto].
  - repeat constructor. unfold Str.has_char. cbn. now rewrite Ascii.eqb_sym, E.
  - unfold Str.has_char in *. cbn. now rewrite Ascii.eqb_sym, E.
Qed.

Lemma has_char_in c s : Str.has_char c s = true <-> In c (Str.chars s).
Proof.
  unfold Str.has_char. rewrite existsb_exists. split.
  - intros (x & Hx & ->%Ascii.eqb_eq). exact Hx.
  - intros H. exists c. split; [exact H | apply Ascii.eqb_refl].
Qed.

Lemma trim_has_char c s : Str.has_char c s = false -> Str.has_char c (Str.trim s) = false.
Proof.
  intros H. destruct (Str.has_char c (Str.trim s)) eqn:E; [|reflexivity].
  apply has_char_in in E. destruct (trim_chars s) as (pre & post & Hs).
  assert (Hin : In c (Str.chars s)).
  { rewrite Hs. apply in_or_app. right. apply in_or_app. now left. }
  apply has_char_in in Hin. congruence.
Qed.

Lemma split_cons sep a b :
  Str.has_char sep a = false ->
  Str.split sep (a +:+ String sep b) = a :: Str.split sep b.
Proof.
  unfold Str.has_char. induction a as [|c a IH].
  - intros _. cbn [String.append Str.split]. now rewrite Ascii.eqb_refl.
  - cbn [Str.chars list_ascii_of_string existsb]. intros [Hc Ha]%orb_false_iff.
    cbn [String.append Str.split]. rewrite Ascii.eqb_sym, Hc.
    unfold Str.chars in IH. now rewrite (IH Ha).
Qed.

Lemma trimmed_pieces_space t :
  List.map Str.trim (Str.split "," (String " " t)) = List.map Str.trim (Str.split "," t).
Proof.
  cbn [Str.split]. change (Ascii.eqb " " ",") with false. cbv iota.
  destruct (Str.split "," t) as [|piece rest] eqn:E; [now apply split_not_nil in E|].
  reflexivity.
Qed.

Lemma comma_list_cons x t :
  entry x -> comma_list (x +:+ ", " +:+ t) = x :: comma_list t.
Proof.
  intros (Hne & Hc & Ht). unfold comma_list.
  change (x +:+ ", " +:+ t) with (x +:+ String "," (String " " t)).
  rewrite (split_cons _ _ _ Hc). cbn [List.map]. rewrite trimmed_pieces_space, Ht.
  cbn [List.filter]. destruct (String.eqb_spec x EmptyString); [contradiction|reflexivity].
Qed.

Lemma comma_list_one x : entry x -> comma_list x = [x].
Proof.
  intros (Hne & Hc & Ht). unfold comma_list. rewrite (split_plain _ _ Hc).
  cbn [List.map List.filter]. rewrite Ht.
  destruct (String.eqb_spec x EmptyString); [contradiction|reflexivity].
Qed.

(** X16.  A comma-separated answer is read as the list of its entries.
    Whatever the answer, each entry read is not empty, has no comma, and
    has no white space at either end, so that an empty answer, or one of
    commas and spaces only, gives no entry.  And a list of such entries,
    in ASCII and written with a comma and a space between them, is read
    back as it is. *)
Theorem comma_list_reads_entries :
  (forall input, Forall entry (comma_list input))
  /\ (forall items,
        Forall entry items ->
        Forall (fun s => forallb is_ascii (Str.chars s) = true) items ->
        comma_list (Str.join ", " items) = items).
Proof.
  split.
  - intros input. unfold comma_list. apply List.Forall_forall. intros s Hs.
    apply filter_In in Hs as [Hs Hne]. apply in_map_iff in Hs as (piece & <- & Hp).
    pose proof (split_pieces "," input) as Hall. rewrite List.Forall_forall in Hall.
    split; [|split].
    + intros E. rewrite E in Hne. discriminate Hne.
    + apply trim_has_char. now apply Hall.
    + apply trim_again.
  - intros items Hall _. induction Hall as [|x items Hx Hitems IH]; [reflexivity|].
    destruct items as [|y items]; [now apply comma_list_one|].
    change (Str.join ", " (x :: y :: items)) with (x +:+ ", " +:+ Str.join ", " (y :: items)).
    rewrite (comma_list_cons _ _ Hx). now rewrite IH.
Qed.

End CommaLists.

(** The default answer for the arguments of a generic provider. *)
Lemma comma_list_reads_entries_default :
  comma_list (Str.join ", " ["-name"; "python"; "-socket"])
  = ["-name"; "python"; "-socket"].
Proof.
  apply (proj2 comma_list_reads_entries).
  - repeat (constructor; [repeat split; (discriminate || reflexivity)|]). constructor.
  - repeat (constructor; [reflexivity|]). constructor.
Defined.
(** ** A manifest that the patch rejects *)

Section RejectedManifest.
Context `{NM : NumberModel}.
Variable render : engine.

Lemma updateRootPackage_rejects repo cfg dry (fs : FS) text :
  fs !! Path.join repo "package.json" = Some (File text) ->
  manifest_rejected (language cfg) text = true ->
  exists e, updateRootPackage repo cfg dry fs = (Throw e, fs).
Proof.
  intros Hf Hrej. unfold updateRootPackage, manifest_rejected in *.
  rewrite (bind_returns _ _ _ _ _ (exists_file _ _ _ Hf)). cbn [negb].
  rewrite (bind_returns _ _ _ _ _ (readFile_file _ _ _ Hf)).
  unfold bind at 1, lift at 1.
  destruct (Json.parse text) as [root|e]; [|now exists e].
  unfold bind at 1, lift at 1.
  destruct (patch_manifest (language cfg) root) as [root'|e]; [discriminate|now exists e].
Qed.

(** X17.  The manifest is patched first, and a manifest that cannot be
    patched fails the run before any target is touched.  When the
    manifest is a regular file whose text is not JSON, or JSON whose
    patch throws (workspaces that are an object, as Yarn allows, for
    one), the run fails with one error, its ledger has create operations
    only, and every target that is a regular file has the content it
    had. *)
Theorem rejected_manifest_patches_nothing (ctx : GenerationContext) (fs : FS)
    (text : string) :
  fs !! Path.join (repoPath ctx) "package.json" = Some (File text) ->
  manifest_rejected (language (config ctx)) text = true ->
  let run := generateExtension render ctx fs in
  success run.1 = false
  /\ (exists e, errors run.1 = [e])
  /\ Forall (fun op => type op = create) (operations run.1)
  /\ forall lit c,
       In lit target_files ->
       fs !! Path.join (repoPath ctx) lit = Some (File c) ->
       run.2 !! Path.join (repoPath ctx) lit = Some (File c).
Proof.
  intros Hf Hrej.
  set (W := fun t : string =>
              exists m, In m (fileMappings (prepareTemplateData (config ctx)))
                        /\ t = Path.join (extensionDir ctx) (output m)).
  assert (Hout : forall lit, In lit target_files -> ~ W (Path.join (repoPath ctx) lit)).
  { intros lit Hlit (m & _ & E). revert E. now apply target_is_no_output. }
  assert (Hkept : forall fs' : FS, keeps W fs fs' ->
            forall lit c, In lit target_files ->
              fs !! Path.join (repoPath ctx) lit = Some (File c) ->
              fs' !! Path.join (repoPath ctx) lit = Some (File c)).
  { intros fs' Hk lit c Hlit Hc. specialize (Hk (Path.join (repoPath ctx) lit)).
    rewrite Hc in Hk. destruct Hk as [_ Hk]. apply Hk. now apply Hout. }
  unfold generateExtension.
  destruct (Fs.existsSync (extensionDir ctx) fs && negb (force (options ctx))).
  { cbn. repeat apply conj; eauto. }
  assert (H1 : frames W (make_directories ctx)).
  { unfold make_directories. frames. }
  specialize (H1 fs).
  destruct (make_directories ctx fs) as [[[]|e] fs1]; simpl in H1.
  2: { cbn. repeat apply conj; eauto. }
  assert (H2 : frames W
                 (generateNewFiles render (templatesDir ctx) (extensionDir ctx)
                    (prepareTemplateData (config ctx)) (dryRun (options ctx)))).
  { apply emit_all_frames. apply List.Forall_forall. intros m Hm. now exists m. }
  specialize (H2 fs1).
  destruct (generateNewFiles _ _ _ _ _ fs1) as [[newFiles|e] fs2] eqn:E1; simpl in H2.
  2: { cbn. repeat apply conj; eauto. apply Hkept. eapply keeps_trans; eassumption. }
  assert (Hk2 : keeps W fs fs2) by (eapply keeps_trans; eassumption).
  assert (Hf2 : fs2 !! Path.join (repoPath ctx) "package.json" = Some (File text)).
  { apply (Hkept fs2 Hk2 "package.json" text); [now left | exact Hf]. }
  destruct (updateRootPackage_rejects (repoPath ctx) (config ctx) (dryRun (options ctx))
              fs2 text Hf2 Hrej) as [e He].
  assert (Hmod : modifyExistingFiles (repoPath ctx) (config ctx) (repoConfig ctx)
                    (dryRun (options ctx)) fs2 = (Throw e, fs2)).
  { unfold modifyExistingFiles. unfold bind at 1. now rewrite He. }
  rewrite Hmod. cbn.
  repeat apply conj; [reflexivity | now exists e | | ].
  - pose proof (generateNewFiles_templates _ _ _ _ _ _ _ _ E1) as Hnew.
    clear -Hnew. induction Hnew as [|t op ts ops [Ht _] _ IH]; constructor; auto.
  - now apply Hkept.
Qed.

End RejectedManifest.

(** The run for Python on a repository whose manifest has the workspaces
    of Yarn, an object: it fails, and the workflow is as it was. *)
Lemma rejected_manifest_patches_nothing_yarn :
  let text := "{" +:+ q "workspaces" +:+ ": {" +:+ q "packages" +:+ ": []}}" in
  let fs := <["/repo/package.json" := File text]> Scenario.fresh in
  let run := generateExtension PlainEngine.render Scenario.apply_python fs in
  success run.1 = false
  /\ (exists e, errors run.1 = [e])
  /\ Forall (fun op => type op = create) (operations run.1)
  /\ forall lit c,
       In lit target_files ->
       fs !! Path.join (repoPath Scenario.apply_python) lit = Some (File c) ->
       run.2 !! Path.join (repoPath Scenario.apply_python) lit = Some (File c).
Proof.
  intros text fs.
  exact (rejected_manifest_patches_nothing PlainEngine.render Scenario.apply_python fs text
           eq_refl eq_refl).
Defined.
(** ** A launch file without path lists *)

Section LaunchWithoutPaths.
Context `{NM : NumberModel}.

Lemma some_without_paths lang cfgs :
  Forall (fun c => get c "extensionDevelopmentPath" = Return None) cfgs ->
  some (config_mentions lang) cfgs = Return false.
Proof.
  induction 1 as [|c cfgs Hc _ IH]; [reflexivity|].
  cbn [some]. unfold config_mentions at 1. rewrite Hc. exact IH.
Qed.

Lemma for_each_without_paths lang cfgs :
  Forall (fun c => get c "extensionDevelopmentPath" = Return None) cfgs ->
  for_each (add_path lang) cfgs = Return cfgs.
Proof.
  induction 1 as [|c cfgs Hc _ IH]; [reflexivity|].
  cbn [for_each]. unfold add_path at 1. rewrite Hc. cbn. now rewrite IH.
Qed.

(** X18.  A launch file whose configurations have no
    [extensionDevelopmentPath] (they pass the paths in [args], say) gets
    nothing added, and the strategy says otherwise: in either mode it
    stages its operation, and apply mode rewrites the file with the
    serialisation of the value it has read.  When that value is
    canonical the same happens on every later run. *)
Theorem launch_without_path_lists_is_restaged (dir : string) (cfg : ExtensionConfig)
    (fs : FS) (text : string) (props : list (string * json)) (cfgs : list json) :
  let p := Path.join dir ".vscode/launch.json" in
  let same := Json.stringify (JObj props) +:+ Str.nl in
  fs !! p = Some (File text) ->
  Json.parse text = Return (JObj props) ->
  lookup_prop "configurations" props = Some (JArr cfgs) ->
  Forall (fun c => get c "extensionDevelopmentPath" = Return None) cfgs ->
  (forall dry,
      updateLaunch dir cfg dry fs
      = (Return [launch_operation (language cfg)], written dry p same fs))
  /\ (canonical (JObj props) ->
      forall dry,
        updateLaunch dir cfg dry (written false p same fs)
        = (Return [launch_operation (language cfg)], written false p same fs)).
Proof.
  intros p same Hf Hparse Hcfgs Hnone.
  assert (Hhas : hasExtension (language cfg) (JObj props) = Return false).
  { unfold hasExtension. cbn [get]. rewrite Hcfgs. cbn. now apply some_without_paths. }
  assert (Hadd : add_paths (language cfg) (JObj props) = Return (JObj props)).
  { unfold add_paths. cbn [get]. rewrite Hcfgs. cbn.
    rewrite (for_each_without_paths _ _ Hnone). cbn.
    now rewrite (set_prop_same _ _ _ Hcfgs). }
  assert (Hrun : forall (fs0 : FS) text0 dry,
            fs0 !! p = Some (File text0) ->
            Json.parse text0 = Return (JObj props) ->
            updateLaunch dir cfg dry fs0
            = (Return [launch_operation (language cfg)], written dry p same fs0)).
  { intros fs0 text0 dry Hf0 Hp0.
    apply (updateLaunch_patches dir cfg dry fs0 text0 (JObj props) (Some (JArr cfgs))
             (JObj props) Hf0 Hp0 Hhas); [cbn [get]; now rewrite Hcfgs | reflexivity | exact Hadd]. }
  split.
  - intros dry. now apply Hrun with (text0 := text).
  - intros Hcan dry.
    assert (Hf1 : written false p same fs !! p = Some (File same))
      by (unfold written; apply lookup_insert_eq).
    rewrite (Hrun _ same dry Hf1 (parse_stringify _ Hcan)).
    f_equal. now apply written_same.
Qed.

End LaunchWithoutPaths.

(** A launch file that passes the paths in [args]. *)
Lemma launch_without_path_lists_is_restaged_args :
  let props :=
    [("version", JStr "0.2.0");
     ("configurations",
      JArr [JObj [("name", JStr "Run Extension");
                  ("args",
                   JArr [JStr "--extensionDevelopmentPath=${workspaceFolder}/vscode/core"])]])]
  in
  let p := Path.join "/repo" ".vscode/launch.json" in
  let same := Json.stringify (JObj props) +:+ Str.nl in
  let fs := <[p := File same]> Scenario.fresh in
  (forall dry,
      updateLaunch "/repo" Scenario.python dry fs
      = (Return [launch_operation (language Scenario.python)], written dry p same fs))
  /\ (forall dry,
        updateLaunch "/repo" Scenario.python dry (written false p same fs)
        = (Return [launch_operation (language Scenario.python)],
           written false p same fs)).
Proof.
  intros props p same fs.
  assert (Hf : fs !! p = Some (File same)) by apply lookup_insert_eq.
  assert (Hparse : Json.parse same = Return (JObj props)) by (vm_compute; reflexivity).
  destruct (launch_without_path_lists_is_restaged "/repo" Scenario.python fs same props _
              Hf Hparse eq_refl ltac:(repeat constructor)) as [Hrun Hagain].
  split; [exact Hrun|]. apply Hagain. cbn. repeat split.
Defined.
